(** * dax manager: a shallow embedding of [dax/dax_manager.py] and [dax/bin.py]

    The development follows the two source files.  [PyStr] and [Datetime]
    collect the Python string, path and date operations the code relies on;
    [Py] holds the values of documents and records; the outside world (file
    system, registry, log, clock) is a state threaded through a small
    state-and-exception monad.  [Bin] embeds [bin.py]; [Manager],
    [DaxProjectSettings], [DaxProjectSettingsManager] and [DaxManager] embed
    the functions and the three classes of [dax_manager.py] under their own
    names.  [Sample] is a small concrete installation on which the
    definitions are run; the properties come last. *)

From Stdlib Require Import ZArith Ascii String List Lia DecimalString.
From stdpp Require Import base option list strings gmap.

Local Open Scope string_scope.
Local Open Scope Z_scope.

(** ** Python strings *)

Module PyStr.

(** [str(n)] for an integer. *)
Definition of_Z (z : Z) : string := NilZero.string_of_int (Z.to_int z).

Definition code (c : ascii) : Z := Z.of_nat (nat_of_ascii c).

(** An ASCII decimal digit.  Bytes above 127 are never digits here: the
    model reads a string as its bytes. *)
Definition is_digit (c : ascii) : bool :=
  (48 <=? code c) && (code c <=? 57).

Definition digit_val (c : ascii) : Z := code c - 48.

(** [c.isspace()] on ASCII: tab, newline, vertical tab, form feed,
    carriage return, the four separators 0x1c..0x1f and the space. *)
Definition is_space (c : ascii) : bool :=
  ((9 <=? code c) && (code c <=? 13))
  || ((28 <=? code c) && (code c <=? 31))
  || (code c =? 32).

Definition char_eqb (a b : ascii) : bool := Ascii.eqb a b.

Fixpoint startswith (p s : string) : bool :=
  match p, s with
  | EmptyString, _ => true
  | String a p', String b s' => char_eqb a b && startswith p' s'
  | String _ _, EmptyString => false
  end.

Fixpoint rev_acc (s acc : string) : string :=
  match s with
  | EmptyString => acc
  | String c s' => rev_acc s' (String c acc)
  end.

Definition rev (s : string) : string := rev_acc s EmptyString.

Definition endswith (p s : string) : bool := startswith (rev p) (rev s).

Fixpoint drop (n : nat) (s : string) : string :=
  match n, s with
  | O, _ => s
  | S n', String _ s' => drop n' s'
  | S _, EmptyString => EmptyString
  end.

Fixpoint take (n : nat) (s : string) : string :=
  match n, s with
  | O, _ => EmptyString
  | S n', String c s' => String c (take n' s')
  | S _, EmptyString => EmptyString
  end.

Definition snoc (s : string) (c : ascii) : string := s +:+ String c EmptyString.

(** [s.split(sep, maxsplit)] for a non-empty separator, scanning left to
    right.  [skip] counts the characters of a separator just matched that
    are still to be passed over, [cur] is the piece being collected and
    [budget] the number of cuts still allowed ([None]: no limit). *)
Fixpoint split_go (sep : string) (budget : option nat) (skip : nat)
         (cur : string) (s : string) : list string :=
  match s with
  | EmptyString => [cur]
  | String c s' =>
      match skip with
      | S k => split_go sep budget k cur s'
      | O =>
          match budget with
          | Some O => split_go sep budget O (snoc cur c) s'
          | _ =>
              if startswith sep s
              then cur :: split_go sep (pred <$> budget)
                                   (String.length sep - 1) EmptyString s'
              else split_go sep budget O (snoc cur c) s'
          end
      end
  end.

Definition split (sep s : string) : list string :=
  split_go sep None O EmptyString s.

Definition split_max (sep : string) (maxsplit : nat) (s : string) : list string :=
  split_go sep (Some maxsplit) O EmptyString s.

Fixpoint lstrip (s : string) : string :=
  match s with
  | String c s' => if is_space c then lstrip s' else s
  | EmptyString => EmptyString
  end.

Definition strip (s : string) : string := rev (lstrip (rev (lstrip s))).

(** [sep.join(l)]. *)
Fixpoint join (sep : string) (l : list string) : string :=
  match l with
  | [] => EmptyString
  | [x] => x
  | x :: rest => x +:+ sep +:+ join sep rest
  end.

(** [f.readline()] on a text file freshly opened with [open(file, 'r')].
    The file is read with universal newlines: the first line ends at the
    first line feed or carriage return (a carriage return followed by a
    line feed is one end of line), and the end of line is handed over as
    a single line feed. *)
Fixpoint readline (s : string) : string :=
  match s with
  | EmptyString => EmptyString
  | String c s' =>
      if char_eqb c "010"%char || char_eqb c "013"%char
      then String "010"%char EmptyString
      else String c (readline s')
  end.

(** Digits of an [int] literal after the sign: decimal digits, with single
    underscores allowed between two digits. *)
Fixpoint int_digits (acc : Z) (prev_digit : bool) (s : string) : option Z :=
  match s with
  | EmptyString => if prev_digit then Some acc else None
  | String c s' =>
      if is_digit c then int_digits (10 * acc + digit_val c) true s'
      else if char_eqb c "_"%char && prev_digit then
             match s' with
             | String d _ => if is_digit d then int_digits acc false s' else None
             | EmptyString => None
             end
           else None
  end.

(** The white space that [int] skips around a numeral: tab, line feed,
    vertical tab, form feed, carriage return and the space.  The four
    separators 0x1c..0x1f, which [str.strip] drops, are not among them:
    [int] rejects a text that holds one. *)
Definition is_blank (c : ascii) : bool :=
  ((9 <=? code c) && (code c <=? 13)) || (code c =? 32).

Fixpoint skip_blanks (s : string) : string :=
  match s with
  | String c s' => if is_blank c then skip_blanks s' else s
  | EmptyString => EmptyString
  end.

(** [int(s)]: surrounding white space is dropped, one sign is allowed.
    [None] stands for the [ValueError]. *)
Definition to_int (s : string) : option Z :=
  match rev (skip_blanks (rev (skip_blanks s))) with
  | String "-" d => Z.opp <$> int_digits 0 false d
  | String "+" d => int_digits 0 false d
  | d => int_digits 0 false d
  end.

(** [sub in s]. *)
Fixpoint contains (sub s : string) : bool :=
  startswith sub s ||
  match s with
  | EmptyString => false
  | String _ s' => contains sub s'
  end.

(** [a < b]: lexicographic on the characters. *)
Fixpoint ltb (a b : string) : bool :=
  match a, b with
  | _, EmptyString => false
  | EmptyString, String _ _ => true
  | String x a', String y b' =>
      (code x <? code y) || ((code x =? code y) && ltb a' b')
  end.

Fixpoint chars_of (s : string) : list ascii :=
  match s with
  | EmptyString => []
  | String c r => c :: chars_of r
  end.

(** A text without any dash. *)
Definition dashless (s : string) : Prop := ~ In "-"%char (chars_of s).

(** [s.lower()] on ASCII letters. *)
Definition lower_char (c : ascii) : ascii :=
  if (65 <=? code c) && (code c <=? 90)
  then ascii_of_nat (nat_of_ascii c + 32) else c.

Fixpoint lower (s : string) : string :=
  match s with
  | EmptyString => EmptyString
  | String c r => String (lower_char c) (lower r)
  end.

(** [os.path.join(a, b)]. *)
Definition path_join (a b : string) : string :=
  if startswith "/" b then b
  else if String.eqb a EmptyString || endswith "/" a then a +:+ b
       else a +:+ "/" +:+ b.

(** The position just after the last occurrence of [c] in [s], counted in
    characters from the left; [0] when [c] does not occur. *)
Fixpoint after_last (c : ascii) (s : string) (pos : nat) (best : nat) : nat :=
  match s with
  | EmptyString => best
  | String d s' =>
      after_last c s' (S pos) (if char_eqb c d then S pos else best)
  end.

(** [os.path.basename(p)]. *)
Definition basename (p : string) : string :=
  drop (after_last "/" p O O) p.

Fixpoint all_dots (s : string) : bool :=
  match s with
  | EmptyString => true
  | String c s' => char_eqb c "." && all_dots s'
  end.

(** [os.path.splitext(p)[0]]: the extension starts at the last dot of the
    last path component, unless only dots precede it there. *)
Definition splitext_root (p : string) : string :=
  let sep := after_last "/" p O O in
  let dot := after_last "." p O O in
  if Nat.ltb sep dot
  then
    let stem := take (dot - 1 - sep) (drop sep p) in
    if all_dots stem then p else take (dot - 1) p
  else p.

End PyStr.

(** ** The part of [datetime] used by the bookkeeping *)

Module Datetime.

Record datetime := mkDatetime {
  year : Z; month : Z; day : Z;
  hour : Z; minute : Z; second : Z; microsecond : Z }.

Definition is_leap (y : Z) : bool :=
  (y mod 4 =? 0) && (negb (y mod 100 =? 0) || (y mod 400 =? 0)).

Definition days_in_month (y m : Z) : Z :=
  if m =? 2 then (if is_leap y then 29 else 28)
  else if (m =? 4) || (m =? 6) || (m =? 9) || (m =? 11) then 30 else 31.

Definition days_before_year (y : Z) : Z :=
  let p := y - 1 in p * 365 + p / 4 - p / 100 + p / 400.

(** Days of year [y] that precede the first day of the month after the
    [n]-th, i.e. the lengths of months [1..n] added up. *)
Fixpoint days_in_first_months (y : Z) (n : nat) : Z :=
  match n with
  | O => 0
  | S k => days_in_first_months y k + days_in_month y (Z.of_nat n)
  end.

Definition days_before_month (y m : Z) : Z :=
  days_in_first_months y (Z.to_nat (m - 1)).

(** [date.toordinal()]: 1 is 0001-01-01. *)
Definition toordinal (d : datetime) : Z :=
  days_before_year (year d) + days_before_month (year d) (month d) + day d.

(** The range checks of the [datetime] constructor. *)
Definition valid (d : datetime) : bool :=
  (1 <=? year d) && (year d <=? 9999)
  && (1 <=? month d) && (month d <=? 12)
  && (1 <=? day d) && (day d <=? days_in_month (year d) (month d))
  && (0 <=? hour d) && (hour d <=? 23)
  && (0 <=? minute d) && (minute d <=? 59)
  && (0 <=? second d) && (second d <=? 59)
  && (0 <=? microsecond d) && (microsecond d <=? 999999).

Definition second_of_day (d : datetime) : Z :=
  hour d * 3600 + minute d * 60 + second d.

(** [(b - a).total_seconds()] for two values without microseconds, as an
    integer: the float it stands for is integral and far below 2^53. *)
Definition total_seconds (b a : datetime) : Z :=
  (toordinal b - toordinal a) * 86400 + (second_of_day b - second_of_day a).

Definition pad2 (z : Z) : string :=
  if z <? 10 then "0" +:+ PyStr.of_Z z else PyStr.of_Z z.

Definition pad4 (z : Z) : string :=
  if z <? 10 then "000" +:+ PyStr.of_Z z
  else if z <? 100 then "00" +:+ PyStr.of_Z z
  else if z <? 1000 then "0" +:+ PyStr.of_Z z
  else PyStr.of_Z z.

Definition pad6 (z : Z) : string :=
  if z <? 10 then "00000" +:+ PyStr.of_Z z
  else if z <? 100 then "0000" +:+ PyStr.of_Z z
  else if z <? 1000 then "000" +:+ PyStr.of_Z z
  else if z <? 10000 then "00" +:+ PyStr.of_Z z
  else if z <? 100000 then "0" +:+ PyStr.of_Z z
  else PyStr.of_Z z.

(** [datetime.strftime(d, '%Y-%m-%d %H:%M:%S')], the year written with
    four digits. *)
Definition strftime_rc (d : datetime) : string :=
  pad4 (year d) +:+ "-" +:+ pad2 (month d) +:+ "-" +:+ pad2 (day d) +:+ " "
  +:+ pad2 (hour d) +:+ ":" +:+ pad2 (minute d) +:+ ":" +:+ pad2 (second d).

(** [datetime.strftime(d, '%Y%m%d-%H%M%S')]. *)
Definition strftime_f (d : datetime) : string :=
  pad4 (year d) +:+ pad2 (month d) +:+ pad2 (day d) +:+ "-"
  +:+ pad2 (hour d) +:+ pad2 (minute d) +:+ pad2 (second d).

(** [str(d)]: ISO format with a space, microseconds only when non-zero. *)
Definition str (d : datetime) : string :=
  strftime_rc d +:+
  (if microsecond d =? 0 then "" else "." +:+ pad6 (microsecond d)).

(** *** [strptime]

    [datetime.strptime] turns the format into a regular expression and
    matches it with backtracking: a parser here returns every way to match
    a prefix of the input, in the order the matcher tries them, and the
    first one is the match. *)

Definition parser (A : Type) : Type := string -> list (A * string).

Definition pret {A} (a : A) : parser A := fun s => [(a, s)].

Definition pbind {A B} (p : parser A) (k : A -> parser B) : parser B :=
  fun s => flat_map (fun '(a, r) => k a r) (p s).

Definition palt {A} (p q : parser A) : parser A := fun s => (p s ++ q s)%list.

Definition pfail {A} : parser A := fun _ => [].

#[local] Notation "'do' x <- p ; k" := (pbind p (fun x => k))
  (at level 10, x name, p at level 100, k at level 200).
#[local] Notation "p <|> q" := (palt p q) (at level 60, right associativity).

(** One character accepted by [ok]. *)
Definition sat (ok : ascii -> bool) : parser ascii :=
  fun s => match s with
           | String c r => if ok c then [(c, r)] else []
           | EmptyString => []
           end.

Definition lit (c : ascii) : parser ascii := sat (PyStr.char_eqb c).

Definition between (lo hi : Z) (c : ascii) : bool :=
  PyStr.is_digit c && (lo <=? PyStr.digit_val c) && (PyStr.digit_val c <=? hi).

(** A digit in [lo1..hi1] followed by a digit in [lo2..hi2], as a number. *)
Definition two (lo1 hi1 lo2 hi2 : Z) : parser Z :=
  do a <- sat (between lo1 hi1);
  do b <- sat (between lo2 hi2);
  pret (10 * PyStr.digit_val a + PyStr.digit_val b).

Definition one (lo hi : Z) : parser Z :=
  do a <- sat (between lo hi); pret (PyStr.digit_val a).

(** [%Y]: four digits. *)
Definition dir_Y : parser Z :=
  do a <- two 0 9 0 9; do b <- two 0 9 0 9; pret (100 * a + b).

(** [%m]: 1[0-2] | 0[1-9] | [1-9]. *)
Definition dir_m : parser Z := two 1 1 0 2 <|> two 0 0 1 9 <|> one 1 9.

(** [%d]: 3[0-1] | [1-2]\d | 0[1-9] | [1-9] | a space and [1-9]. *)
Definition dir_d : parser Z :=
  two 3 3 0 1 <|> two 1 2 0 9 <|> two 0 0 1 9 <|> one 1 9
  <|> (do _ <- lit " "; one 1 9).

(** [%H]: 2[0-3] | [0-1]\d | \d. *)
Definition dir_H : parser Z := two 2 2 0 3 <|> two 0 1 0 9 <|> one 0 9.

(** [%M]: [0-5]\d | \d. *)
Definition dir_M : parser Z := two 0 5 0 9 <|> one 0 9.

(** [%S]: 6[0-1] | [0-5]\d | \d. *)
Definition dir_S : parser Z := two 6 6 0 1 <|> two 0 5 0 9 <|> one 0 9.

(** The blank of the format becomes [\s+], greedy: longest run first. *)
Fixpoint spaces (s : string) : list (unit * string) :=
  match s with
  | String c r => if PyStr.is_space c then (spaces r ++ [(tt, r)])%list else []
  | EmptyString => []
  end.

Definition rc_regex : parser datetime :=
  do y <- dir_Y; do _ <- lit "-"; do m <- dir_m; do _ <- lit "-";
  do d <- dir_d; do _ <- spaces;
  do h <- dir_H; do _ <- lit ":"; do mi <- dir_M; do _ <- lit ":";
  do s <- dir_S;
  pret (mkDatetime y m d h mi s 0).

(** [datetime.strptime(s, '%Y-%m-%d %H:%M:%S')]; [None] is the
    [ValueError] raised when the text does not match, when text is left
    over after the match, or when the fields are not a date and time. *)
Definition strptime_rc (s : string) : option datetime :=
  match rc_regex s with
  | (d, EmptyString) :: _ => if valid d then Some d else None
  | _ => None
  end.

End Datetime.

(** ** Python values, faults and the outside world *)

(** The values that travel through the settings documents and the registry
    records: YAML scalars, sequences and mappings.  A mapping keeps its keys
    in insertion order, as a Python [dict] does. *)
#[warnings="-register-all"]
Inductive pyval :=
| PNone
| PStr (s : string)
| PInt (z : Z)
| PList (l : list pyval)
| PDict (d : list (pyval * pyval)).

Module Py.

Definition dict := list (pyval * pyval).

(** Equality of two hashable scalars; sequences and mappings are not
    hashable and never are keys. *)
Definition key_eqb (a b : pyval) : bool :=
  match a, b with
  | PNone, PNone => true
  | PStr s, PStr t => String.eqb s t
  | PInt x, PInt y => x =? y
  | _, _ => false
  end.

Fixpoint get (k : pyval) (d : dict) : option pyval :=
  match d with
  | [] => None
  | (k', v) :: rest => if key_eqb k k' then Some v else get k rest
  end.

(** [d[k] = v]: an existing key keeps its place. *)
Fixpoint set (k v : pyval) (d : dict) : dict :=
  match d with
  | [] => [(k, v)]
  | (k', v') :: rest =>
      if key_eqb k k' then (k', v) :: rest else (k', v') :: set k v rest
  end.

Definition keys (d : dict) : list pyval := map fst d.

(** [k in list(d.keys())]. *)
Definition has_key (k : pyval) (d : dict) : bool :=
  existsb (key_eqb k) (keys d).

(** [{**a, **b}]. *)
Definition update (a b : dict) : dict :=
  fold_left (fun acc kv => set (fst kv) (snd kv) acc) b a.

(** Truth value of an object in a condition. *)
Definition truthy (v : pyval) : bool :=
  match v with
  | PNone => false
  | PStr s => negb (String.eqb s "")
  | PInt z => negb (z =? 0)
  | PList l => match l with [] => false | _ => true end
  | PDict d => match d with [] => false | _ => true end
  end.

(** [a == s] for a string [s]. *)
Definition eq_str (a : pyval) (s : string) : bool := key_eqb a (PStr s).

End Py.

(** Faults.  Every value of [exn] is an instance of a subclass of
    [Exception]; [exn_message] is the object's [message] attribute, which a
    built-in exception of Python 3 does not have. *)
Inductive exc_class :=
| DaxError | DaxManagerError
| AttributeError | TypeError | ValueError | KeyError | IndexError
| OSError | OverflowError | AssertionError
| OtherError (name : string).

Record exn := mkExn {
  exn_class : exc_class;
  exn_text : string;
  exn_message : option string }.

Definition class_name (c : exc_class) : string :=
  match c with
  | DaxError => "dax.errors.DaxError"
  | DaxManagerError => "DaxManagerError"
  | AttributeError => "AttributeError"
  | TypeError => "TypeError"
  | ValueError => "ValueError"
  | KeyError => "KeyError"
  | IndexError => "IndexError"
  | OSError => "OSError"
  | OverflowError => "OverflowError"
  | AssertionError => "AssertionError"
  | OtherError n => n
  end.

(** An exception raised by the code under study or by the interpreter:
    it carries no [message] attribute. *)
Definition new_exn (c : exc_class) (text : string) : exn := mkExn c text None.

Inductive res (A : Type) :=
| Ok (a : A)
| Raise (e : exn).
Arguments Ok {A} a.
Arguments Raise {A} e.

(** Computations over a state [S] that return or raise. *)
Definition M (S A : Type) : Type := S -> res A * S.

Definition ret {S A} (a : A) : M S A := fun s => (Ok a, s).

Definition raise {S A} (e : exn) : M S A := fun s => (Raise e, s).

Definition bind {S A B} (c : M S A) (k : A -> M S B) : M S B :=
  fun s => match c s with
           | (Ok a, s') => k a s'
           | (Raise e, s') => (Raise e, s')
           end.

(** [try: c except Exception as e: h e]. *)
Definition try_except {S A} (c : M S A) (h : exn -> M S A) : M S A :=
  fun s => match c s with
           | (Ok a, s') => (Ok a, s')
           | (Raise e, s') => h e s'
           end.

Definition gets {S A} (f : S -> A) : M S A := fun s => (Ok (f s), s).

Definition modify {S} (f : S -> S) : M S unit := fun s => (Ok tt, f s).

(** A pure step that may raise. *)
Definition lift_res {S A} (r : res A) : M S A := fun s => (r, s).

Notation "x <- c ;; k" := (bind c (fun x => k))
  (at level 100, c at next level, right associativity).
Notation "c ;; k" := (bind c (fun _ => k))
  (at level 100, right associativity).

(** [for x in l: body x]. *)
Fixpoint for_each {S A} (l : list A) (body : A -> M S unit) : M S unit :=
  match l with
  | [] => ret tt
  | x :: rest => body x ;; for_each rest body
  end.

(** A loop that threads an accumulator. *)
Fixpoint fold_m {S A B} (l : list A) (acc : B) (body : B -> A -> M S B) : M S B :=
  match l with
  | [] => ret acc
  | x :: rest => acc' <- body acc x ;; fold_m rest acc' body
  end.

(** *** The outside world

    What the program shares with its collaborators: the file system, the
    records sent to the project registry, the log, the modules loaded so
    far and the number of times the clock has been read. *)

Inductive node :=
| RegularFile (content : string) (readable : bool)
| Directory.

Inductive level := DEBUG | INFO | WARNING | CRITICAL.

Record log_entry := mkLog {
  log_logger : string;
  log_file : option string;
  log_level : level;
  log_text : string }.

(** A record exported by the registry: field names and their text. *)
Definition row : Type := list (string * string).

(** One call of [import_records]: the record sent (a field may be [None])
    and what came back. *)
Record import_call := mkImport {
  imp_record : list (string * option string);
  imp_response : res pyval }.

Record world := mkWorld {
  fs : gmap string node;
  imports : list import_call;
  logs : list log_entry;
  loaded : list pyval;
  ticks : nat }.

Definition set_fs (f : gmap string node -> gmap string node) (w : world) : world :=
  mkWorld (f (fs w)) (imports w) (logs w) (loaded w) (ticks w).

Definition add_import (c : import_call) (w : world) : world :=
  mkWorld (fs w) (imports w ++ [c])%list (logs w) (loaded w) (ticks w).

Definition add_log (e : log_entry) (w : world) : world :=
  mkWorld (fs w) (imports w) (logs w ++ [e])%list (loaded w) (ticks w).

Definition add_loaded (p : pyval) (w : world) : world :=
  mkWorld (fs w) (imports w) (logs w) (loaded w ++ [p])%list (ticks w).

Definition tick (w : world) : world :=
  mkWorld (fs w) (imports w) (logs w) (loaded w) (S (ticks w)).

(** Answer of [os.kill(pid, 0)]. *)
Inductive kill_result :=
| Signalled
| NoSuchProcess          (* ProcessLookupError, ESRCH *)
| NotPermitted           (* PermissionError, EPERM *)
| KillFails (e : exn).   (* anything else, e.g. OverflowError *)

(** Answer of [yaml.load]. *)
Inductive yaml_result :=
| YamlDoc (doc : pyval)
| YamlComposerError
| YamlFails (e : exn).

(** The host and the collaborators that are not part of the two files:
    operating system, clock, YAML library, the registry service, the
    launcher class and the dynamic loading of module files. *)
Record env := mkEnv {
  gethostname : string;
  environ_USER : option string;
  get_results_dir : string;
  clock : nat -> Datetime.datetime;
  getpid : Z;
  os_kill : Z -> kill_result;
  (* whether the operating system refuses [os.remove] on an existing file,
     as it does in a directory that may not be written to *)
  remove_denied : string -> bool;
  fd_is_open : Z -> bool;
  (* dax.launcher *)
  BUILD_SUFFIX : string;
  UPDATE_SUFFIX : string;
  LAUNCH_SUFFIX : string;
  Launcher : Py.dict -> res pyval;
  launcher_build : pyval -> string
                   -> option (list (string * option Datetime.datetime))
                   -> M world unit;
  launcher_update_tasks : pyval -> string -> M world unit;
  launcher_launch_jobs : pyval -> string -> M world unit;
  upload_tasks : string -> M world unit;
  (* imp.load_source and the constructor call evaluated on its result *)
  instantiate : string -> pyval -> M world pyval;
  load_py_settings : string -> M world pyval;
  (* PyYAML *)
  yaml_load : string -> yaml_result;
  yaml_dump : Py.dict -> string;
  (* the two REDCap projects; an answer of the project registry may depend
     on the records imported so far *)
  redcap_forms : list string;
  export_form : list import_call -> string -> string -> res (list row);
  export_fields : list import_call -> list string -> option string -> bool
                  -> res (list row);
  import_response : list import_call -> list (string * option string) -> res pyval;
  export_instance : string -> res (list row) }.

(** *** Operating-system and logging primitives *)

Module Sys.

Definition isfile (p : string) (w : world) : bool :=
  match fs w !! p with
  | Some (RegularFile _ _) => true
  | _ => false
  end.

Definition exists_ (p : string) (w : world) : bool :=
  match fs w !! p with
  | Some _ => true
  | None => false
  end.

(** [open(p, 'r')] followed by reading the whole text. *)
Definition read_file (p : string) : M world string :=
  fun w => match fs w !! p with
           | Some (RegularFile c true) => (Ok c, w)
           | _ => (Raise (new_exn OSError p), w)
           end.

(** [os.remove(p)]: it fails on a directory, on a missing file, and on a
    file that the operating system refuses to remove. *)
Definition remove (E : env) (p : string) : M world unit :=
  fun w => match fs w !! p with
           | Some (RegularFile _ _) =>
               if remove_denied E p then (Raise (new_exn OSError p), w)
               else (Ok tt, set_fs (delete p) w)
           | _ => (Raise (new_exn OSError p), w)
           end.

(** [open(p, 'w')] and the writes up to the close: the file is created or
    replaced.  A directory in the way is an error. *)
Definition write_file (p content : string) : M world unit :=
  fun w => match fs w !! p with
           | Some Directory => (Raise (new_exn OSError p), w)
           | _ => (Ok tt, set_fs (<[p := RegularFile content true]>) w)
           end.

Definition dir_prefix (d : string) : string :=
  if PyStr.endswith "/" d then d else d +:+ "/".

(** The name of [p] inside directory [d], when [p] lies directly in it. *)
Definition entry_name (d p : string) : option string :=
  if PyStr.startswith (dir_prefix d) p then
    let n := PyStr.drop (String.length (dir_prefix d)) p in
    if String.eqb n "" || negb (Nat.eqb (PyStr.after_last "/" n O O) O)
    then None else Some n
  else None.

(** [os.listdir(d)], in the order the file system gives. *)
Definition listdir (d : string) : M world (list string) :=
  fun w => match fs w !! d with
           | Some Directory =>
               (Ok (omap (entry_name d) (map fst (map_to_list (fs w)))), w)
           | _ => (Raise (new_exn OSError d), w)
           end.

(** [datetime.now()]. *)
Definition now (E : env) : M world Datetime.datetime :=
  fun w => (Ok (clock E (ticks w)), tick w).

Definition log (name : string) (file : option string) (lvl : level)
           (text : string) : M world unit :=
  modify (add_log (mkLog name file lvl text)).

End Sys.

(** ** [dax/bin.py] *)

Module Bin.

Record logger := mkLogger {
  lg_name : string;
  lg_file : string;
  lg_debug : bool }.

(** [set_logger]: a debug or an info logger named ['dax'] on [logfile]. *)
Definition set_logger (logfile : string) (debug : bool) : logger :=
  mkLogger "dax" logfile debug.

Definition emit (lg : logger) (lvl : level) (text : string) : M world unit :=
  match lvl, lg_debug lg with
  | DEBUG, false => ret tt
  | _, _ => Sys.log (lg_name lg) (Some (lg_file lg)) lvl text
  end.

Definition info (lg : logger) := emit lg INFO.
Definition critical (lg : logger) := emit lg CRITICAL.

(** [v.get(k)] on a value read from YAML. *)
Definition dget (v : pyval) (k : string) : res pyval :=
  match v with
  | PDict d => Ok (default PNone (Py.get (PStr k) d))
  | _ => Raise (new_exn AttributeError "object has no attribute 'get'")
  end.

Fixpoint chars (s : string) : list pyval :=
  match s with
  | EmptyString => []
  | String c r => PStr (String c EmptyString) :: chars r
  end.

(** The items a [for] loop or a comprehension draws from [v]. *)
Definition iter (v : pyval) : res (list pyval) :=
  match v with
  | PList l => Ok l
  | PDict d => Ok (Py.keys d)
  | PStr s => Ok (chars s)
  | PNone | PInt _ => Raise (new_exn TypeError "object is not iterable")
  end.

(** [d[k] = v] where [k] comes from a document. *)
Definition store (k v : pyval) (d : Py.dict) : res Py.dict :=
  match k with
  | PList _ | PDict _ => Raise (new_exn TypeError "unhashable type")
  | _ => Ok (Py.set k v d)
  end.

(** [v.split(',')]. *)
Definition split_commas (v : pyval) : res (list string) :=
  match v with
  | PStr s => Ok (PyStr.split "," s)
  | _ => Raise (new_exn AttributeError "object has no attribute 'split'")
  end.

(** [d[name]] for a name taken from a comma-separated list. *)
Definition index (d : Py.dict) (name : string) : res pyval :=
  match Py.get (PStr name) d with
  | Some v => Ok v
  | None => Raise (new_exn KeyError name)
  end.

Section WithEnv.
Variable E : env.

(** What may follow the two stars of a call: a mapping whose keys are
    strings. *)
Definition keyword_args (args : pyval) : bool :=
  match args with
  | PDict d => forallb (fun k => match k with PStr _ => true | _ => false end)
                       (Py.keys d)
  | _ => false
  end.

(** The two calls [test.<class>( **args)] of [load_from_file].  What the
    source file holds and what its constructor does is the environment's
    [instantiate]; the call itself needs keyword arguments: for any other
    [args] (such as the [None] of a descriptor without arguments) no
    object comes back, the call raises [TypeError] unless loading the file
    or finding the class has already raised. *)
Definition construct (path : string) (args : pyval) : M world pyval :=
  if keyword_args args then instantiate E path args
  else
    fun w => match instantiate E path args w with
             | (Ok _, w') =>
                 (Raise (new_exn TypeError "argument after ** must be a mapping"), w')
             | (Raise e, w') => (Raise e, w')
             end.

Definition load_from_file (filepath args : pyval) (lg : logger) : M world pyval :=
  modify (add_loaded filepath) ;;
  match filepath with
  | PStr path =>
      ex <- gets (Sys.exists_ path) ;;
      if negb ex
      then raise (new_exn DaxError ("File " +:+ path +:+ " does not exists."))
      else if PyStr.endswith ".py" path
           then construct path args
           else ret PNone
  | PInt fd =>
      if fd_is_open E fd
      then raise (new_exn AttributeError "'int' object has no attribute 'endswith'")
      else raise (new_exn DaxError ("File " +:+ PyStr.of_Z fd +:+ " does not exists."))
  | _ => raise (new_exn TypeError "stat: path should be string, bytes, os.PathLike or integer")
  end.

Definition raise_yaml_error_if_no_key (doc : pyval) (yaml_file key : string)
  : res unit :=
  match doc with
  | PDict d =>
      if negb (Py.has_key (PStr key) d)
      then Raise (new_exn DaxError
             ("YAML File " +:+ yaml_file +:+ " does not have " +:+ key
              +:+ " defined. See example."))
      else Ok tt
  | _ => Raise (new_exn AttributeError "object has no attribute 'keys'")
  end.

Definition required_keys : list string :=
  ["projects"; "attrs"; "modules"; "processors"; "yamlprocessors"].

Fixpoint check_keys (yaml_file : string) (doc : pyval) (ks : list string)
  : res unit :=
  match ks with
  | [] => Ok tt
  | key :: rest =>
      match raise_yaml_error_if_no_key doc yaml_file key with
      | Ok _ => check_keys yaml_file doc rest
      | Raise e => Raise e
      end
  end.

Definition check_default_keys (yaml_file : string) (doc : pyval) : res unit :=
  check_keys yaml_file doc required_keys.

(** The loop of [read_yaml_settings] over the module (or processor)
    descriptors: each is loaded and stored under its name. *)
Definition load_all (entries : pyval) (lg : logger) : M world Py.dict :=
  items <- lift_res (iter entries) ;;
  fold_m items [] (fun acc entry =>
    filepath <- lift_res (dget entry "filepath") ;;
    args <- lift_res (dget entry "arguments") ;;
    obj <- load_from_file filepath args lg ;;
    name <- lift_res (dget entry "name") ;;
    lift_res (store name obj acc)).

(** The inner loop over the comma-separated names of one project:
    the first name creates the project's list, the others append to it. *)
Definition assign (table : Py.dict) (project : pyval) (names : list string)
           (per_project : Py.dict) : M world Py.dict :=
  fold_m names per_project (fun acc n =>
    if negb (Py.has_key project acc) then
      obj <- lift_res (index table n) ;;
      lift_res (store project (PList [obj]) acc)
    else
      match Py.get project acc with
      | Some (PList l) =>
          obj <- lift_res (index table n) ;;
          ret (Py.set project (PList (l ++ [obj])%list) acc)
      | _ => raise (new_exn AttributeError "object has no attribute 'append'")
      end).

(** [[_yp.get('yaml_path') for _yp in yamlprocs if _yp.get('name') == yaml_n]] *)
Definition yaml_paths (yamlprocs : pyval) (yaml_n : string) : M world pyval :=
  items <- lift_res (iter yamlprocs) ;;
  paths <- fold_m items [] (fun acc yp =>
    name <- lift_res (dget yp "name") ;;
    if Py.eq_str name yaml_n then
      path <- lift_res (dget yp "yaml_path") ;;
      ret (acc ++ [path])%list
    else ret acc) ;;
  ret (PList paths).

Definition read_yaml_settings (yaml_file : string) (lg : logger) : M world pyval :=
  isf <- gets (Sys.isfile yaml_file) ;;
  if negb isf then raise (new_exn DaxError ("Path not found for " +:+ yaml_file))
  else
    yaml_stream <- Sys.read_file yaml_file ;;
    (* The handler of this call names [yaml.ComposerError], which the
       package does not export: when [yaml.load] raises, of whatever
       class, looking the name up raises [AttributeError] in its place,
       and the [DaxError] of the handler is never reached. *)
    doc <- match yaml_load E yaml_stream with
           | YamlDoc d => ret d
           | YamlComposerError | YamlFails _ =>
               raise (new_exn AttributeError
                        "module 'yaml' has no attribute 'ComposerError'")
           end ;;
    (* Set Inputs from Yaml *)
    lift_res (check_default_keys yaml_file doc) ;;
    attrs <- lift_res (dget doc "attrs") ;;
    (* Read modules and processors *)
    modules <- lift_res (dget doc "modules") ;;
    mods <- load_all modules lg ;;
    processors <- lift_res (dget doc "processors") ;;
    procs <- load_all processors lg ;;
    yamlprocs <- lift_res (dget doc "yamlprocessors") ;;
    projects <- lift_res (dget doc "projects") ;;
    proj_dicts <- lift_res (iter projects) ;;
    tables <- fold_m proj_dicts ([], [], [])
      (fun '(proj_mod, proj_proc, yaml_proc) proj_dict =>
         project <- lift_res (dget proj_dict "project") ;;
         if Py.truthy project then
           pm <- lift_res (dget proj_dict "modules") ;;
           proj_mod' <- (if Py.truthy pm then
                           names <- lift_res (split_commas pm) ;;
                           assign mods project names proj_mod
                         else ret proj_mod) ;;
           pp <- lift_res (dget proj_dict "processors") ;;
           proj_proc' <- (if Py.truthy pp then
                            names <- lift_res (split_commas pp) ;;
                            assign procs project names proj_proc
                          else ret proj_proc) ;;
           py <- lift_res (dget proj_dict "yamlprocessors") ;;
           yaml_proc' <- (if Py.truthy py then
                            names <- lift_res (split_commas py) ;;
                            fold_m names yaml_proc (fun acc yaml_n =>
                              paths <- yaml_paths yamlprocs yaml_n ;;
                              lift_res (store project paths acc))
                          else ret yaml_proc) ;;
           ret (proj_mod', proj_proc', yaml_proc')
         else ret (proj_mod, proj_proc, yaml_proc)) ;;
    let '(proj_mod, proj_proc, yaml_proc) := tables in
    match attrs with
    | PDict a =>
        let a1 := Py.set (PStr "project_process_dict") (PDict proj_proc) a in
        let a2 := Py.set (PStr "project_modules_dict") (PDict proj_mod) a1 in
        let a3 := Py.set (PStr "yaml_dict") (PDict yaml_proc) a2 in
        lift_res (Launcher E a3)
    | _ => raise (new_exn TypeError "object does not support item assignment")
    end.

Definition read_settings (settings_path : string) (lg : logger) (exe : string)
  : M world pyval :=
  info lg ("Current Process ID: " +:+ PyStr.of_Z (getpid E)) ;;
  info lg ("Current Process Name: dax.bin." +:+ exe +:+ "(" +:+ settings_path +:+ ")") ;;
  info lg ("loading settings from: " +:+ settings_path) ;;
  dax_launcher <-
    (if PyStr.endswith ".py" settings_path then load_py_settings E settings_path
     else if PyStr.endswith ".yaml" settings_path then read_yaml_settings settings_path lg
     else raise (new_exn DaxError "Wrong type of settings file given. Please use a python file describing the Launcher object or a YAML file.")) ;;
  t <- Sys.now E ;;
  info lg ("running launcher, Start Time: " +:+ Datetime.str t) ;;
  ret dax_launcher.

(** Modelled from the spec: [Launcher.unlock_flagfile] is part of
    [dax/launcher.py]; the specification describes the release of a lock
    as an unconditional delete that is safe when the file is absent. *)
Definition unlock_flagfile (flagfile : string) : M world unit :=
  modify (set_fs (delete flagfile)).

(** The lock file of a stage:
    [os.path.join(os.path.join(results_dir, 'FlagFiles'), '%s_%s' % (prefix, suffix))]. *)
Definition flag_path (lockfile_prefix suffix : string) : string :=
  PyStr.path_join (PyStr.path_join (get_results_dir E) "FlagFiles")
                  (lockfile_prefix +:+ "_" +:+ suffix).

(** [os.path.splitext(os.path.basename(settings_path))[0]]. *)
Definition lockfile_prefix_of (settings_path : string) : string :=
  PyStr.splitext_root (PyStr.basename settings_path).

(** The fault of reading [e.message] on an object without that
    attribute. *)
Definition no_message_error (e : exn) : exn :=
  new_exn AttributeError
    ("'" +:+ class_name (exn_class e) +:+ "' object has no attribute 'message'").

(** The attribute access [e.message]. *)
Definition get_message (e : exn) : M world string :=
  match exn_message e with
  | Some m => ret m
  | None => raise (no_message_error e)
  end.

(** ['%s' % e.__class__]. *)
Definition class_repr (e : exn) : string :=
  "<class '" +:+ class_name (exn_class e) +:+ "'>".

(** The three entry points below are called by [dax_manager.py] with
    [projects], [sessions], [writeonly], [pbsdir], [force_no_qsub] and
    [mod_delta] at their defaults, which the launcher receives unchanged;
    they are left out. *)

Definition launch_jobs (settings_path logfile : string) (debug : bool)
  : M world unit :=
  let lg := set_logger logfile debug in
  launcher_obj <- read_settings settings_path lg "launch_jobs" ;;
  let lockfile_prefix := lockfile_prefix_of settings_path in
  try_except
    (launcher_launch_jobs E launcher_obj lockfile_prefix)
    (fun e =>
       critical lg "Caught exception launching jobs in bin.launch_jobs" ;;
       message <- get_message e ;;
       critical lg ("Exception Class " +:+ class_repr e
                    +:+ " with message " +:+ message) ;;
       unlock_flagfile (flag_path lockfile_prefix (LAUNCH_SUFFIX E))) ;;
  t <- Sys.now E ;;
  info lg ("finished launcher, End Time: " +:+ Datetime.str t).

Definition build (settings_path logfile : string) (debug : bool)
           (proj_lastrun : option (list (string * option Datetime.datetime)))
  : M world unit :=
  let lg := set_logger logfile debug in
  launcher_obj <- read_settings settings_path lg "build" ;;
  let lockfile_prefix := lockfile_prefix_of settings_path in
  try_except
    (launcher_build E launcher_obj lockfile_prefix proj_lastrun)
    (fun e =>
       critical lg "Caught exception building Project in bin.build" ;;
       message <- get_message e ;;
       critical lg ("Exception Class " +:+ class_repr e
                    +:+ " with message " +:+ message) ;;
       unlock_flagfile (flag_path lockfile_prefix (BUILD_SUFFIX E))) ;;
  t <- Sys.now E ;;
  info lg ("finished build, End Time: " +:+ Datetime.str t).

Definition update_tasks (settings_path logfile : string) (debug : bool)
  : M world unit :=
  let lg := set_logger logfile debug in
  launcher_obj <- read_settings settings_path lg "update_tasks" ;;
  let lockfile_prefix := lockfile_prefix_of settings_path in
  try_except
    (launcher_update_tasks E launcher_obj lockfile_prefix)
    (fun e =>
       critical lg "Caught exception updating tasks in bin.update_tasks" ;;
       message <- get_message e ;;
       critical lg ("Exception Class " +:+ class_repr e
                    +:+ " with message " +:+ message) ;;
       unlock_flagfile (flag_path lockfile_prefix (UPDATE_SUFFIX E))) ;;
  t <- Sys.now E ;;
  info lg ("finished updating tasks, End Time: " +:+ Datetime.str t).

End WithEnv.

End Bin.

(** ** [dax/dax_manager.py]: the functions of the module *)

Module Manager.

(** [LOGGER = log.setup_debug_logger('manager', None)] *)
Definition LOGGER (lvl : level) (text : string) : M world unit :=
  Sys.log "manager" None lvl text.

(** [d[k]] on an exported record. *)
Fixpoint row_get (k : string) (r : row) : option string :=
  match r with
  | [] => None
  | (k', v) :: rest => if String.eqb k k' then Some v else row_get k rest
  end.

Definition item {S} (r : row) (k : string) : M S string :=
  match row_get k r with
  | Some v => ret v
  | None => raise (new_exn KeyError k)
  end.

(** [l[0]]. *)
Definition first {S A} (l : list A) : M S A :=
  match l with
  | x :: _ => ret x
  | [] => raise (new_exn IndexError "list index out of range")
  end.

Section WithEnv.
Variable E : env.

(** The host name up to its first dot. *)
Definition this_host : string := hd "" (PyStr.split "." (gethostname E)).

Definition get_this_instance {S} : M S string :=
  match environ_USER E with
  | Some this_user => ret (this_user +:+ "@" +:+ this_host)
  | None => raise (new_exn KeyError "USER")
  end.

(** The identity string in the words of the specification: the user, an
    at sign, and the lowercased host name without its domain.  It is
    stated here to be compared with [get_this_instance]. *)
Definition spec_identity : option string :=
  (fun user => user +:+ "@" +:+ PyStr.lower this_host) <$> environ_USER E.

Definition pid_exists {S} (pid : Z) : M S bool :=
  if pid <? 0 then ret false   (* NOTE: pid == 0 returns True *)
  else match os_kill E pid with
       | NoSuchProcess => ret false   (* No such process *)
       | NotPermitted => ret true     (* Operation not permitted *)
       | Signalled => ret true
       | KillFails e => raise e
       end.

(** [host, pid = line.split('-')] *)
Definition unpack2 {S} (l : list string) : M S (string * string) :=
  match l with
  | [a; b] => ret (a, b)
  | _ => raise (new_exn ValueError "not enough or too many values to unpack")
  end.

(** [int(s)] *)
Definition int {S} (s : string) : M S Z :=
  match PyStr.to_int s with
  | Some z => ret z
  | None => raise (new_exn ValueError ("invalid literal for int(): " +:+ s))
  end.

(** The first debug call of [check_lockfile] passes the file name as a
    logging argument to a message without a placeholder: the handler
    cannot format the record and drops it. *)
Definition check_lockfile (file : string) : M world unit :=
  try_except
    (content <- Sys.read_file file ;;
     let line := PyStr.readline content in
     parts <- unpack2 (PyStr.split "-" line) ;;
     let '(host, pid_text) := parts in
     pid <- int pid_text ;;
     (* Compare host to current host *)
     if negb (String.eqb host this_host) then ret tt
     else
       running <- pid_exists pid ;;
       if running then LOGGER DEBUG "host matches and PID still exists"
       else
         LOGGER DEBUG "host matches and PID not running, deleting lockfile" ;;
         Sys.remove E file)
    (fun e =>
       match exn_class e with
       | OSError => LOGGER DEBUG ("failed to read from lock file:" +:+ file)
       | ValueError => LOGGER DEBUG ("failed to parse lock file:" +:+ file)
       | _ => raise e
       end).

(** What a lock file records, read the way [check_lockfile] reads it:
    the host and the process id on its first line, around one dash. *)
Definition lock_owner (content : string) : option (string * Z) :=
  match PyStr.split "-" (PyStr.readline content) with
  | [host; pid_text] => pair host <$> PyStr.to_int pid_text
  | _ => None
  end.

Definition clean_lockfiles : M world unit :=
  let lock_dir := PyStr.path_join (get_results_dir E) "FlagFiles" in
  lock_list <- Sys.listdir lock_dir ;;
  (* Make full paths *)
  let lock_list := map (PyStr.path_join lock_dir) lock_list in
  for_each lock_list (fun file =>
    LOGGER DEBUG ("checking lock file:" +:+ file) ;;
    check_lockfile file).

Definition is_locked (settings_path : string) : M world bool :=
  let lockfile_prefix := PyStr.splitext_root (PyStr.basename settings_path) in
  let flagfile :=
    PyStr.path_join (PyStr.path_join (get_results_dir E) "FlagFiles")
                    (lockfile_prefix +:+ "_" +:+ BUILD_SUFFIX E) in
  LOGGER DEBUG ("checking for flag file:" +:+ flagfile) ;;
  gets (Sys.isfile flagfile).

End WithEnv.

End Manager.

(** ** [class DaxProjectSettings] *)

Module DaxProjectSettings.

Record t := mk {
  general : Py.dict;
  processors : list pyval;
  modules : list pyval;
  projects : list pyval }.

(** [__init__] *)
Definition init : t := mk [] [] [] [].

(** [{**self.general, 'modules': ..., 'yamlprocessors': ..., 'projects': ...}] *)
Definition dump (self : t) : Py.dict :=
  Py.set (PStr "projects") (PList (projects self))
    (Py.set (PStr "yamlprocessors") (PList (processors self))
       (Py.set (PStr "modules") (PList (modules self))
          (Py.update [] (general self)))).

Definition set_general (self : t) (g : Py.dict) : t :=
  mk g (processors self) (modules self) (projects self).

Definition add_processor (self : t) (processor : pyval) : t :=
  mk (general self) (processors self ++ [processor])%list (modules self) (projects self).

Definition add_module (self : t) (module : pyval) : t :=
  mk (general self) (processors self) (modules self ++ [module])%list (projects self).

Definition add_project (self : t) (project : pyval) : t :=
  mk (general self) (processors self) (modules self) (projects self ++ [project])%list.

(** [x['name']] on a descriptor. *)
Definition name_of (x : pyval) : res pyval :=
  match x with
  | PDict d =>
      match Py.get (PStr "name") d with
      | Some v => Ok v
      | None => Raise (new_exn KeyError "name")
      end
  | PStr _ => Raise (new_exn TypeError "string indices must be integers")
  | PList _ => Raise (new_exn TypeError "list indices must be integers or slices, not str")
  | PNone | PInt _ => Raise (new_exn TypeError "object is not subscriptable")
  end.

(** [[x['name'] for x in l]] *)
Fixpoint names (l : list pyval) : res (list pyval) :=
  match l with
  | [] => Ok []
  | x :: rest =>
      match name_of x with
      | Ok n =>
          match names rest with
          | Ok ns => Ok (n :: ns)
          | Raise e => Raise e
          end
      | Raise e => Raise e
      end
  end.

Definition processor_names (self : t) : res (list pyval) := names (processors self).

Definition module_names (self : t) : res (list pyval) := names (modules self).

(** The loop shared by [module_byname] and [processor_byname]: the first
    descriptor of [l] whose name equals [name], [None] when the loop ends
    without a [break]. *)
Fixpoint byname (l : list pyval) (name : string) : res (option pyval) :=
  match l with
  | [] => Ok None
  | m :: rest =>
      match name_of m with
      | Ok n => if Py.eq_str n name then Ok (Some m) else byname rest name
      | Raise e => Raise e
      end
  end.

Definition module_byname (self : t) (name : string) : res (option pyval) :=
  byname (modules self) name.

Definition processor_byname (self : t) (name : string) : res (option pyval) :=
  byname (processors self) name.

End DaxProjectSettings.

(** ** [class DaxProjectSettingsManager] *)

Module DaxProjectSettingsManager.

Import Manager.

Record t := mk {
  general_form : string;
  local_dir : string;
  instance_settings : row }.

Definition nl : string := String "010"%char EmptyString.
Definition crlf : string := String "013"%char nl.

Definition MOD_PREFIX : string := "module_".
Definition PROC_PREFIX : string := "processor_".

Definition FILE_HEADER : string :=
  "# This file generated by dax manager." +:+ nl +:+
  "# Edits should be made on REDCap." +:+ nl.

(** The comment line ['# {}\n'.format(str(timestamp))]. *)
Definition stamp_line (timestamp : Datetime.datetime) : string :=
  "# " +:+ Datetime.str timestamp +:+ nl.

(** What [write_settings_file] writes around the dumped document. *)
Definition stamped (timestamp : Datetime.datetime) (body : string) : string :=
  FILE_HEADER +:+ stamp_line timestamp +:+ body.

(** [raise DaxManagerError(message)] *)
Definition DaxManagerError_ (message : string) : exn :=
  new_exn DaxManagerError ("Error with dax manager:" +:+ message).

(** [datetime.strptime(s, self.RCDATEFORMAT)] *)
Definition strptime {S} (s : string) : M S Datetime.datetime :=
  match Datetime.strptime_rc s with
  | Some d => ret d
  | None => raise (new_exn ValueError
              ("time data '" +:+ s +:+ "' does not match format '%Y-%m-%d %H:%M:%S'"))
  end.

Definition duration (start_time finish_time : string) : M world (option string) :=
  try_except
    (finish <- strptime finish_time ;;
     start <- strptime start_time ;;
     let secs := Datetime.total_seconds finish start in
     let hours := secs / 3600 in
     let mins := (secs mod 3600) / 60 in
     if hours >? 0
     then ret (Some (PyStr.of_Z hours +:+ " hrs " +:+ PyStr.of_Z mins +:+ " mins"))
     else ret (Some (PyStr.of_Z mins +:+ " mins")))
    (fun e => LOGGER DEBUG (exn_text e) ;; ret None).

(** ['count' in response] *)
Definition has_count (response : pyval) : res bool :=
  match response with
  | PDict d => Ok (Py.has_key (PStr "count") d)
  | PList l => Ok (existsb (fun v => Py.eq_str v "count") l)
  | PStr s => Ok (PyStr.contains "count" s)
  | PNone | PInt _ => Raise (new_exn TypeError "argument is not iterable")
  end.

(** The arguments text of a record, one [key: value] per line. *)
Definition parse_arguments {S} (text : string) : M S Py.dict :=
  let rlist := PyStr.split crlf (PyStr.strip text) in
  fold_m rlist [] (fun rdict arg =>
    match PyStr.split_max ":" 1 arg with
    | [key; val] => ret (Py.set (PStr key) (PStr (PyStr.strip val)) rdict)
    | _ => raise (new_exn ValueError "not enough values to unpack")
    end).

Section WithEnv.
Variable E : env.

(** The calls made on [self._redcap]. *)
Definition export_records_form (form project : string) : M world (list row) :=
  fun w => (export_form E (imports w) form project, w).

Definition export_records_fields (fields : list string) (record : option string)
           (label : bool) : M world (list row) :=
  fun w => (export_fields E (imports w) fields record label, w).

Definition import_records (rec : list (string * option string)) : M world pyval :=
  fun w => let r := import_response E (imports w) rec in
           (r, add_import (mkImport rec r) w).

Definition general_defaults (self : t) : M world Py.dict :=
  let ins := instance_settings self in
  processorlib <- item ins "main_processorlib" ;;
  modulelib <- item ins "main_modulelib" ;;
  imagedir <- item ins "main_singularityimagedir" ;;
  queuelimit <- item ins "main_queuelimit" ;;
  queue_limit <- int queuelimit ;;
  jobemailoptions <- item ins "main_jobemailoptions" ;;
  xnathost <- item ins "main_xnathost" ;;
  ret [ (PStr "processorlib", PStr processorlib);
        (PStr "modulelib", PStr modulelib);
        (PStr "singularity_imagedir", PStr imagedir);
        (PStr "attrs", PDict [ (PStr "queue_limit", PInt queue_limit);
                               (PStr "job_email_options", PStr jobemailoptions);
                               (PStr "xnat_host", PStr xnathost) ]) ].

Definition load_defaults (self : t) (settings : DaxProjectSettings.t)
  : M world DaxProjectSettings.t :=
  (* First set the general section *)
  g <- general_defaults self ;;
  ret (DaxProjectSettings.set_general settings g).

(** [[x.split(p)[1] for x in self._redcap.forms if x.startswith(p)]] *)
Definition names_with_prefix (p : string) : list string :=
  map (fun x => nth 1 (PyStr.split p x) "")
      (List.filter (PyStr.startswith p) (redcap_forms E)).

Definition load_module_names : list string := names_with_prefix MOD_PREFIX.

Definition load_processor_names : list string := names_with_prefix PROC_PREFIX.

Definition load_module_record (module project : string) : M world pyval :=
  let form := MOD_PREFIX +:+ module in
  recs <- export_records_form form project ;;
  rc_rec <- first recs ;;
  (* Find module prefix *)
  let key := List.filter (PyStr.endswith "_file") (map fst rc_rec) in
  match key with
  | _ :: _ :: _ =>
      raise (DaxManagerError_ ("multiple _file keys for module:" +:+ module))
  | [] => raise (DaxManagerError_ ("no _file key for module:" +:+ module))
  | [file_key] =>
      let key_prefix := hd "" (PyStr.split "_file" file_key) in
      (* Get the filepath *)
      filepath <- item rc_rec file_key ;;
      (* Parse arguments *)
      args <- item rc_rec (key_prefix +:+ "_args") ;;
      if negb (String.eqb args "") then
        rdict <- parse_arguments args ;;
        ret (PDict [ (PStr "name", PStr module); (PStr "filepath", PStr filepath);
                     (PStr "arguments", PDict rdict) ])
      else
        ret (PDict [ (PStr "name", PStr module); (PStr "filepath", PStr filepath) ])
  end.

Definition load_processor_record (processor project : string) : M world pyval :=
  let form := PROC_PREFIX +:+ processor in
  recs <- export_records_form form project ;;
  rc_rec <- first recs ;;
  (* Find processor prefix *)
  let key := List.filter (PyStr.endswith "_file") (map fst rc_rec) in
  match key with
  | _ :: _ :: _ =>
      raise (DaxManagerError_ ("multiple _file keys for proc:" +:+ processor))
  | [] => raise (DaxManagerError_ ("no _file key found for proc:" +:+ processor))
  | [file_key] =>
      let key_prefix := hd "" (PyStr.split "_file" file_key) in
      (* Get the filepath *)
      filepath <- item rc_rec file_key ;;
      (* Check for arguments *)
      args <- item rc_rec (key_prefix +:+ "_args") ;;
      if negb (String.eqb args "") then
        rdict <- parse_arguments args ;;
        ret (PDict [ (PStr "name", PStr processor); (PStr "filepath", PStr filepath);
                     (PStr "arguments", PDict rdict) ])
      else
        ret (PDict [ (PStr "name", PStr processor); (PStr "filepath", PStr filepath) ])
  end.

Definition is_enabled_module (module project : string) : M world bool :=
  let form := MOD_PREFIX +:+ module in
  recs <- export_records_form form project ;;
  rec <- first recs ;;
  complete <- item rec (form +:+ "_complete") ;;
  ret (String.eqb complete "2").

Definition is_enabled_processor (processor project : string) : M world bool :=
  let form := PROC_PREFIX +:+ processor in
  recs <- export_records_form form project ;;
  rec <- first recs ;;
  complete <- item rec (form +:+ "_complete") ;;
  ret (String.eqb complete "2").

Definition project_names (self : t) : M world (list string) :=
  let complete_field := general_form self +:+ "_complete" in
  let instance_field := "gen_daxinstance" in
  let name_field := "project_name" in
  (* Get projects from REDCap *)
  plist <- export_records_fields [name_field; instance_field; complete_field]
                                 None true ;;
  (* Filter to only include projects for this instance *)
  this_instance <- get_this_instance E ;;
  plist <- fold_m plist [] (fun acc x =>
             instance <- item x instance_field ;;
             ret (if String.eqb instance this_instance
                  then (acc ++ [x])%list else acc)) ;;
  (* Return project names that are enabled *)
  fold_m plist [] (fun acc x =>
    complete <- item x complete_field ;;
    if String.eqb complete "Complete"
    then name <- item x name_field ;; ret (acc ++ [name])%list
    else ret acc).

(** [rec['name'] = name] on a record just loaded. *)
Definition with_name (rec : pyval) (name : string) : pyval :=
  match rec with
  | PDict d => PDict (Py.set (PStr "name") (PStr name) d)
  | other => other
  end.

Definition load_project (settings : DaxProjectSettings.t) (project : string)
  : M world (DaxProjectSettings.t * pyval) :=
  (* Get the project modules *)
  let mod_names := load_module_names in
  st <- fold_m mod_names (settings, [])
    (fun '(settings, proj_mod) name =>
       enabled <- is_enabled_module name project ;;
       if negb enabled then ret (settings, proj_mod)
       else
         (* Make a new module *)
         mod_ <- load_module_record name project ;;
         let mod_ := with_name mod_ name in
         (* Add the custom module to our settings *)
         ret (DaxProjectSettings.add_module settings mod_,
              (proj_mod ++ [name])%list)) ;;
  let '(settings, proj_mod) := st in
  (* Get the project processors *)
  let proc_names := load_processor_names in
  st <- fold_m proc_names (settings, [])
    (fun '(settings, proj_proc) name =>
       enabled <- is_enabled_processor name project ;;
       if negb enabled then ret (settings, proj_proc)
       else
         (* Make a new custom processor *)
         proc <- load_processor_record name project ;;
         let proc := with_name proc name in
         (* Add the custom module to our settings *)
         ret (DaxProjectSettings.add_processor settings proc,
              (proj_proc ++ [name])%list)) ;;
  let '(settings, proj_proc) := st in
  ret (settings,
       PDict [ (PStr "project", PStr project);
               (PStr "modules", PStr (PyStr.join "," proj_mod));
               (PStr "yamlprocessors", PStr (PyStr.join "," proj_proc)) ]).

(** The text of a settings file: header, time stamp comment, document. *)
Definition settings_text (settings : DaxProjectSettings.t)
           (timestamp : Datetime.datetime) : string :=
  stamped timestamp (yaml_dump E (DaxProjectSettings.dump settings)).

Definition write_settings_file (filename : string)
           (settings : DaxProjectSettings.t) (timestamp : Datetime.datetime)
  : M world unit :=
  LOGGER INFO ("Writing settings to file:" +:+ filename) ;;
  Sys.write_file filename (settings_text settings timestamp).

Definition settings_filename (self : t) (name : string) : string :=
  PyStr.path_join (local_dir self) ("settings-" +:+ name +:+ ".yaml").

(** The body of the loop of [write_each] for the project [name]. *)
Definition write_project (self : t) (default_settings : DaxProjectSettings.t)
           (now : Datetime.datetime) (name : string) : M world unit :=
  let settings := default_settings in   (* copy.deepcopy *)
  LOGGER INFO ("Loading project: " +:+ name) ;;
  loaded_ <- load_project settings name ;;
  let '(settings, project) := loaded_ in
  let settings := DaxProjectSettings.add_project settings project in
  (* Write project file *)
  let filename := settings_filename self name in
  write_settings_file filename settings now.

Definition write_each (self : t) : M world unit :=
  now <- Sys.now E ;;
  (* First load the settings from our defaults project *)
  default_settings <- load_defaults self DaxProjectSettings.init ;;
  names <- project_names self ;;
  for_each names (write_project self default_settings now).

Definition delete_disabled (self : t) : M world unit :=
  (* Get disabled project names from REDCap *)
  let field := general_form self +:+ "_complete" in
  rlist <- export_records_fields ["project_name"; field] None false ;;
  disabled_list <- fold_m rlist [] (fun acc x =>
                     complete <- item x field ;;
                     if negb (String.eqb complete "2")
                     then name <- item x "project_name" ;; ret (acc ++ [name])%list
                     else ret acc) ;;
  (* Delete disabled project settings files *)
  for_each disabled_list (fun name =>
    let filename := settings_filename self name in
    ex <- gets (Sys.exists_ filename) ;;
    if ex then
      LOGGER INFO ("deleting disabled project:" +:+ filename) ;;
      Sys.remove E filename
    else ret tt).

Definition get_last_start_time (project : string) : M world string :=
  recs <- export_records_fields ["build_laststarttime"] (Some project) false ;;
  rec <- first recs ;;
  item rec "build_laststarttime".

Definition get_last_run (project : string) : M world (option Datetime.datetime) :=
  recs <- export_records_fields
            ["build_lastcompletestarttime"; "build_lastcompletefinishtime"]
            (Some project) false ;;
  rec <- first recs ;;
  last_start <- item rec "build_lastcompletestarttime" ;;
  last_finish <- item rec "build_lastcompletefinishtime" ;;
  if negb (String.eqb last_start "") && negb (String.eqb last_finish "")
     && PyStr.ltb last_start last_finish
  then last_run <- strptime last_start ;; ret (Some last_run)
  else ret None.

(** The record sent when a build starts. *)
Definition start_record (project last_start : string)
  : list (string * option string) :=
  [ ("project_name", Some project);
    ("build_laststarttime", Some last_start);
    ("build_status_complete", Some "1") ].

Definition set_last_build_start (project : string) : M world unit :=
  now <- Sys.now E ;;
  let last_start := Datetime.strftime_rc now in
  let rec := start_record project last_start in
  LOGGER INFO ("set last build start: project=" +:+ project +:+ ", " +:+ last_start) ;;
  try_except
    (response <- import_records rec ;;
     counted <- lift_res (has_count response) ;;
     if counted then ret tt else raise (new_exn AssertionError ""))
    (fun e =>
       match exn_class e with
       | AssertionError =>
           let err := "redcap import failed" in
           LOGGER INFO err ;;
           raise (DaxManagerError_ err)
       | _ =>
           let err := "connection to REDCap interrupted" in
           LOGGER INFO (exn_text e) ;;
           raise (DaxManagerError_ err)
       end).

(** The record sent when a build has returned. *)
Definition complete_record (project last_start last_finish : string)
           (last_duration : option string) : list (string * option string) :=
  [ ("project_name", Some project);
    ("build_lastcompletestarttime", Some last_start);
    ("build_lastcompletefinishtime", Some last_finish);
    ("build_lastcompleteduration", last_duration);
    ("build_status_complete", Some "2") ].

Definition set_last_build_complete (project : string) : M world unit :=
  now <- Sys.now E ;;
  let last_finish := Datetime.strftime_rc now in
  last_start <- get_last_start_time project ;;
  last_duration <- duration last_start last_finish ;;
  let rec := complete_record project last_start last_finish last_duration in
  LOGGER INFO ("set last build: project=" +:+ project +:+ ", start=" +:+ last_start
               +:+ ", finish=" +:+ last_finish) ;;
  try_except
    (response <- import_records rec ;;
     counted <- lift_res (has_count response) ;;
     if counted then ret tt else raise (new_exn AssertionError ""))
    (fun e =>
       match exn_class e with
       | AssertionError => raise (DaxManagerError_ "redcap import failed")
       | _ => raise (DaxManagerError_ "connection to REDCap interrupted")
       end).

End WithEnv.

End DaxProjectSettingsManager.

(** ** [class DaxManager] and the main program *)

Module DaxManager.

Import Manager.

Record t := mk {
  instance_settings : row;
  settings_dir : string;
  log_dir : string;
  settings_manager : DaxProjectSettingsManager.t;
  settings_list : list string }.

(** The arguments of one [apply_async(self.run_build, ...)]. *)
Record task := mkTask {
  task_project : string;
  task_settings : string;
  task_log : string;
  task_lastrun : option Datetime.datetime }.

(** What the coordinating process does, in program order. *)
Inductive event :=
| ReapBegin | ReapEnd
| CatalogBegin | CatalogEnd
| Submit (b : task)
| PoolClose
| UpdateCall (settings : string) | UpdateReturn (settings : string)
| LaunchCall (settings : string) | LaunchReturn (settings : string)
| UploadStart | UploadJoin
| PoolJoin.

(** State of the coordinating process: the shared world, its own history,
    the build tasks submitted to the pool and not yet run, and the number
    of points passed at which pool workers may have made progress. *)
Record coord := mkCoord {
  cw : world;
  trace : list event;
  queue : list task;
  yields : nat }.

Definition lift {A} (c : M world A) : M coord A :=
  fun s => let '(r, w) := c (cw s) in
           (r, mkCoord w (trace s) (queue s) (yields s)).

Definition emit (e : event) : M coord unit :=
  modify (fun s => mkCoord (cw s) (trace s ++ [e])%list (queue s) (yields s)).

(** ['{}'.format(lastrun)] and [str(list)] as they appear in the log. *)
Definition str_lastrun (d : option Datetime.datetime) : string :=
  match d with
  | Some t => Datetime.str t
  | None => "None"
  end.

Definition repr_list (l : list string) : string :=
  "[" +:+ PyStr.join ", " (map (fun x => "'" +:+ x +:+ "'") l) +:+ "]".

Definition repr_row (r : row) : string :=
  "{" +:+ PyStr.join ", "
            (map (fun kv => "'" +:+ fst kv +:+ "': '" +:+ snd kv +:+ "'") r)
  +:+ "}".

Definition project_from_settings {S} (settings_file : string) : M S string :=
  match PyStr.split "settings-" settings_file with
  | _ :: rest :: _ => ret (hd "" (PyStr.split ".yaml" rest))
  | _ => raise (new_exn IndexError "list index out of range")
  end.

Definition log_name (self : t) (runtype project : string)
           (timestamp : Datetime.datetime) : string :=
  PyStr.path_join (log_dir self)
    (runtype +:+ "_" +:+ project +:+ "_" +:+ Datetime.strftime_f timestamp +:+ ".log").

Section WithEnv.
Variable E : env.

Definition list_settings_files (settings_dir : string) : M world (list string) :=
  slist <- Sys.listdir settings_dir ;;
  (* Make full paths *)
  let slist := map (PyStr.path_join settings_dir) slist in
  (* Only yaml files *)
  w <- gets id ;;
  ret (List.filter (fun f => PyStr.endswith ".yaml" f && Sys.isfile f w) slist).

Definition refresh_settings (self : t) : M world t :=
  (* Delete existing settings files *)
  old <- list_settings_files (settings_dir self) ;;
  for_each old (Sys.remove E) ;;
  (* Write settings files *)
  DaxProjectSettingsManager.write_each E (settings_manager self) ;;
  (* Load settings files *)
  slist <- list_settings_files (settings_dir self) ;;
  LOGGER INFO (repr_list slist) ;;
  ret (mk (instance_settings self) (settings_dir self) (log_dir self)
          (settings_manager self) slist).

Definition load_instance_settings : M world row :=
  (* get this instance name *)
  instance_name <- get_this_instance E ;;
  LOGGER DEBUG ("instance=" +:+ instance_name) ;;
  (* Return the record associated with this instance_name *)
  recs <- lift_res (export_instance E instance_name) ;;
  first recs.

(** [DaxManager(api_url, api_key_instances, api_key_projects)] *)
Definition init : M world t :=
  (* Load settings for this instance *)
  ins <- load_instance_settings ;;
  LOGGER DEBUG (repr_row ins) ;;
  settings_dir <- item ins "main_projectsettingsdir" ;;
  log_dir <- item ins "main_logdir" ;;
  (* Create our settings manager and update our settings directory *)
  let sm := DaxProjectSettingsManager.mk "general" settings_dir ins in
  refresh_settings (mk ins settings_dir log_dir sm []).

Definition set_last_build_start (self : t) (project : string) : M world unit :=
  DaxProjectSettingsManager.set_last_build_start E project.

Definition set_last_build_complete (self : t) (project : string) : M world unit :=
  DaxProjectSettingsManager.set_last_build_complete E project.

Definition get_last_run (self : t) (project : string)
  : M world (option Datetime.datetime) :=
  DaxProjectSettingsManager.get_last_run E project.

Definition run_build (self : t) (project settings_file log_file : string)
           (lastrun : option Datetime.datetime) : M world unit :=
  (* Check for existing lock *)
  locked <- is_locked E settings_file ;;
  if locked then
    LOGGER WARNING ("cannot build, lock exists:" +:+ settings_file)
  else
    (* dax.bin.build expects a map of project to lastrun *)
    let proj_lastrun := [(project, lastrun)] in
    LOGGER INFO ("run_build:" +:+ project +:+ "," +:+ str_lastrun lastrun) ;;
    set_last_build_start self project ;;
    Bin.build E settings_file log_file true (Some proj_lastrun) ;;
    set_last_build_complete self project ;;
    LOGGER INFO ("run_build:done:" +:+ project).

(** [run_launch], [run_update] and [run_upload] end by emptying the
    handler list of the ['dax'] logger, which has no counterpart in the
    log kept here. *)
Definition run_launch (self : t) (settings_file log_file : string) : M world unit :=
  Bin.launch_jobs E settings_file log_file true.

Definition run_update (self : t) (settings_file log_file : string) : M world unit :=
  Bin.update_tasks E settings_file log_file true.

(** [dax.dax_tools_utils.upload_tasks(log_file, True, None)] *)
Definition run_upload (self : t) (log_file : string) : M world unit :=
  upload_tasks E log_file.

(** [all_ready(results)]: [results] holds what [res.ready()] answers for
    each result accessor, in the order of the list. *)
Definition all_ready (results : list bool) : M world bool :=
  fold_m (imap (fun i res => (i, res)) results) true (fun ready ir =>
    if negb (snd ir) then
      LOGGER DEBUG ("not ready:" +:+ PyStr.of_Z (Z.of_nat (fst ir))) ;;
      ret false
    else ret ready).

(** The lock file [run_build] looks for. *)
Definition build_lock (settings_file : string) : string :=
  Bin.flag_path E (Bin.lockfile_prefix_of settings_file) (BUILD_SUFFIX E).

(** The world in which the bookkeeping of an unlocked build starts: the
    lock has been looked up and the two log lines written. *)
Definition entered (project settings_file : string)
           (lastrun : option Datetime.datetime) (w : world) : world :=
  add_log (mkLog "manager" None INFO
             ("run_build:" +:+ project +:+ "," +:+ str_lastrun lastrun))
    (add_log (mkLog "manager" None DEBUG
                ("checking for flag file:" +:+ build_lock settings_file)) w).

(** *** The worker pool

    Builds run in worker processes while the coordinator goes on.  The
    model lets workers make progress at the points marked [yield]: there,
    the schedule [sched] says how many of the queued tasks are carried out
    (each in one piece, in submission order) before the coordinator takes
    its next step.  A fault raised by a task ends up in the result object
    of [apply_async], which [run] never inspects. *)

Variable sched : nat -> nat.

Definition run_task (self : t) (b : task) (w : world) : world :=
  snd (run_build self (task_project b) (task_settings b) (task_log b)
                 (task_lastrun b) w).

Fixpoint progress (self : t) (n : nat) (q : list task) (w : world)
  : list task * world :=
  match n, q with
  | S k, b :: rest => progress self k rest (run_task self b w)
  | _, _ => (q, w)
  end.

Definition yield (self : t) : M coord unit :=
  modify (fun s =>
    let '(q, w) := progress self (sched (yields s)) (queue s) (cw s) in
    mkCoord w (trace s) q (S (yields s))).

(** [build_pool.apply_async(self.run_build, [...])] *)
Definition apply_async (b : task) : M coord unit :=
  modify (fun s => mkCoord (cw s) (trace s ++ [Submit b])%list
                           (queue s ++ [b])%list (yields s)).

(** [build_pool.join()]: every task still queued is carried out. *)
Definition join_pool (self : t) : M coord unit :=
  modify (fun s =>
    let '(q, w) := progress self (length (queue s)) (queue s) (cw s) in
    mkCoord w (trace s ++ [PoolJoin])%list q (yields s)).

(** [upload_process.join()]: the child process has run [run_upload] to its
    end; a fault there ends the child, not the coordinator. *)
Definition join_upload (self : t) (log_file : string) : M coord unit :=
  modify (fun s =>
    mkCoord (snd (run_upload self log_file (cw s)))
            (trace s ++ [UploadJoin])%list (queue s) (yields s)).

Definition queue_builds (self : t) (settings_list : list string) : M coord unit :=
  (* Run each *)
  for_each settings_list (fun settings_path =>
    yield self ;;
    proj <- project_from_settings settings_path ;;
    now <- lift (Sys.now E) ;;
    let log_path := log_name self "build" proj now in
    last_run <- lift (get_last_run self proj) ;;
    lift (LOGGER INFO ("SETTINGS:" +:+ settings_path)) ;;
    lift (LOGGER INFO ("PROJECT:" +:+ proj)) ;;
    lift (LOGGER INFO ("LOG:" +:+ log_path)) ;;
    lift (LOGGER INFO ("LASTRUN:" +:+ str_lastrun last_run)) ;;
    apply_async (mkTask proj settings_path log_path last_run)).

Definition run (self : t) : M coord unit :=
  (* Build *)
  queue_builds self (settings_list self) ;;
  emit PoolClose ;;
  (* Update *)
  lift (LOGGER INFO "updating") ;;
  for_each (settings_list self) (fun settings_path =>
    proj <- project_from_settings settings_path ;;
    lift (LOGGER INFO ("updating jobs:" +:+ proj)) ;;
    now <- lift (Sys.now E) ;;
    let log := log_name self "update" proj now in
    yield self ;;
    emit (UpdateCall settings_path) ;;
    lift (run_update self settings_path log) ;;
    emit (UpdateReturn settings_path)) ;;
  (* Launch - report to log if locked *)
  lift (LOGGER INFO "launching") ;;
  for_each (settings_list self) (fun settings_path =>
    proj <- project_from_settings settings_path ;;
    lift (LOGGER INFO ("launching jobs:" +:+ proj)) ;;
    now <- lift (Sys.now E) ;;
    let log := log_name self "launch" proj now in
    yield self ;;
    emit (LaunchCall settings_path) ;;
    lift (run_launch self settings_path log) ;;
    emit (LaunchReturn settings_path)) ;;
  (* Upload - report to log if locked *)
  now <- lift (Sys.now E) ;;
  let log := log_name self "upload" "" now in
  lift (LOGGER INFO "starting upload") ;;
  yield self ;;
  emit UploadStart ;;
  lift (LOGGER INFO "waiting for upload") ;;
  yield self ;;
  join_upload self log ;;
  lift (LOGGER INFO "upload complete") ;;
  (* Wait for builds to finish *)
  lift (LOGGER INFO "waiting for builds to finish") ;;
  join_pool self.

(** [if __name__ == '__main__':] once the three credentials have been
    read from the process environment. *)
Definition main : M coord unit :=
  (* Clean up existing lock files *)
  emit ReapBegin ;;
  lift (clean_lockfiles E) ;;
  emit ReapEnd ;;
  (* Make our dax manager *)
  emit CatalogBegin ;;
  manager <- lift init ;;
  emit CatalogEnd ;;
  (* And run it *)
  run manager ;;
  lift (LOGGER INFO "ALL DONE!").

Definition start (w : world) : coord := mkCoord w [] [] O.

End WithEnv.

End DaxManager.

(** ** A small concrete installation

    One host, one registry and trivial collaborators, used to run the
    definitions on concrete inputs. *)

Module Sample.

Definition lf : string := String "010"%char EmptyString.

(** The [n]-th reading of the clock: one minute later each time. *)
Definition clock0 (n : nat) : Datetime.datetime :=
  Datetime.mkDatetime 2020 1 1 (10 + Z.of_nat n / 60) (Z.of_nat n mod 60) 0 0.

(** Process 4242 is gone, process 1 belongs to somebody else, every other
    process can be signalled. *)
Definition kill0 (pid : Z) : kill_result :=
  if pid =? 4242 then NoSuchProcess
  else if pid =? 1 then NotPermitted
  else Signalled.

(** The record of this instance in the registry of instances. *)
Definition instance0 : row :=
  [ ("main_projectsettingsdir", "/settings");
    ("main_logdir", "/logs");
    ("main_processorlib", "/lib/processors");
    ("main_modulelib", "/lib/modules");
    ("main_singularityimagedir", "/images");
    ("main_queuelimit", "20");
    ("main_jobemailoptions", "FAIL");
    ("main_xnathost", "https://xnat.example.org") ].

(** Three projects: [ALPHA] is complete and ours, [BETA] is ours but not
    complete, [GAMMA] belongs to another instance. *)
Definition projects0 : list row :=
  [ [ ("project_name", "ALPHA"); ("gen_daxinstance", "dax@Node1");
      ("general_complete", "Complete") ];
    [ ("project_name", "BETA"); ("gen_daxinstance", "dax@Node1");
      ("general_complete", "Incomplete") ];
    [ ("project_name", "GAMMA"); ("gen_daxinstance", "dax@node2");
      ("general_complete", "Complete") ] ].

(** The start time last imported for a project, if any. *)
Fixpoint last_start (project : string) (calls : list import_call)
         (found : string) : string :=
  match calls with
  | [] => found
  | c :: rest =>
      match imp_record c with
      | ("project_name", Some p) :: ("build_laststarttime", Some t) :: _ =>
          last_start project rest (if String.eqb p project then t else found)
      | _ => last_start project rest found
      end
  end.

Definition export_fields0 (calls : list import_call) (fields : list string)
           (record : option string) (label : bool) : res (list row) :=
  match record with
  | None => Ok projects0
  | Some p =>
      Ok [ map (fun f => (f, if String.eqb f "build_laststarttime"
                             then last_start p calls "" else "")) fields ]
  end.

(** Every project has one module form, enabled, without arguments. *)
Definition export_form0 (calls : list import_call) (form project : string)
  : res (list row) :=
  Ok [ [ ("project_name", project); ("mod_file", "/lib/modules/" +:+ form +:+ ".py");
         ("mod_args", ""); (form +:+ "_complete", "2") ] ].

(** The document the catalog writes for [ALPHA]. *)
Definition general0 : Py.dict :=
  [ (PStr "processorlib", PStr "/lib/processors");
    (PStr "modulelib", PStr "/lib/modules");
    (PStr "singularity_imagedir", PStr "/images");
    (PStr "attrs",
     PDict [ (PStr "queue_limit", PInt 20);
             (PStr "job_email_options", PStr "FAIL");
             (PStr "xnat_host", PStr "https://xnat.example.org") ]) ].

Definition settings_alpha : DaxProjectSettings.t :=
  DaxProjectSettings.mk general0 []
    [ PDict [ (PStr "name", PStr "dcm2nii");
              (PStr "filepath", PStr "/lib/modules/module_dcm2nii.py") ] ]
    [ PDict [ (PStr "project", PStr "ALPHA");
              (PStr "modules", PStr "dcm2nii");
              (PStr "yamlprocessors", PStr "") ] ].

Definition doc_alpha : pyval := PDict (DaxProjectSettings.dump settings_alpha).

(** A complete settings document, written by hand: the module comes
    with arguments and the [processors] list is there, empty. *)
Definition settings_full : DaxProjectSettings.t :=
  DaxProjectSettings.mk general0 []
    [ PDict [ (PStr "name", PStr "dcm2nii");
              (PStr "filepath", PStr "/lib/modules/module_dcm2nii.py");
              (PStr "arguments", PDict [ (PStr "overwrite", PStr "no") ]) ] ]
    [ PDict [ (PStr "project", PStr "ALPHA");
              (PStr "modules", PStr "dcm2nii");
              (PStr "yamlprocessors", PStr "") ] ].

Definition doc_full : pyval :=
  PDict (Py.set (PStr "processors") (PList [])
           (DaxProjectSettings.dump settings_full)).

Definition dump0 (d : Py.dict) : string :=
  "---" +:+ lf +:+
  PyStr.join lf (map (fun kv => match fst kv with
                                | PStr k => k +:+ ":"
                                | _ => "?"
                                end) d) +:+ lf.

(** An installation with the given YAML reader and launcher methods. *)
Definition make_env (yload : string -> yaml_result)
           (build : pyval -> string
                    -> option (list (string * option Datetime.datetime))
                    -> M world unit)
           (update launch : pyval -> string -> M world unit) : env :=
  {| gethostname := "Node1.cluster.example.org";
     environ_USER := Some "dax";
     get_results_dir := "/res";
     clock := clock0;
     getpid := 100;
     os_kill := kill0;
     remove_denied := fun _ => false;
     fd_is_open := fun _ => false;
     BUILD_SUFFIX := "BUILD_RUNNING.txt";
     UPDATE_SUFFIX := "UPDATE_RUNNING.txt";
     LAUNCH_SUFFIX := "LAUNCHER_RUNNING.txt";
     Launcher := fun attrs => Ok (PDict attrs);
     launcher_build := build;
     launcher_update_tasks := update;
     launcher_launch_jobs := launch;
     upload_tasks := fun _ => ret tt;
     instantiate := fun path args =>
                      if Bin.keyword_args args then ret (PStr path)
                      else raise (new_exn TypeError
                                    "argument after ** must be a mapping");
     load_py_settings := fun _ => ret PNone;
     yaml_load := yload;
     yaml_dump := dump0;
     redcap_forms := ["general"; "module_dcm2nii"];
     export_form := export_form0;
     export_fields := export_fields0;
     import_response := fun _ _ => Ok (PDict [(PStr "count", PInt 1)]);
     export_instance := fun _ => Ok [instance0] |}.

(** The launcher takes the lock of its stage and releases it at the end. *)
Definition stage_ok (suffix : string) (_ : pyval) (prefix : string) : M world unit :=
  modify (set_fs (fun f => delete ("/res/FlagFiles/" +:+ prefix +:+ "_" +:+ suffix)
                      (<["/res/FlagFiles/" +:+ prefix +:+ "_" +:+ suffix
                         := RegularFile ("Node1-100" +:+ lf) true]> f))).

(** The launcher takes the lock and then fails with [e]. *)
Definition stage_fails (suffix : string) (e : exn) (_ : pyval) (prefix : string)
  : M world unit :=
  modify (set_fs (<["/res/FlagFiles/" +:+ prefix +:+ "_" +:+ suffix
                    := RegularFile ("Node1-100" +:+ lf) true]>)) ;;
  raise e.

(** Every stage succeeds; the settings files read back as the catalog
    wrote them. *)
Definition E0 : env :=
  make_env (fun _ => YamlDoc doc_alpha)
           (fun l p _ => stage_ok "BUILD_RUNNING.txt" l p)
           (stage_ok "UPDATE_RUNNING.txt") (stage_ok "LAUNCHER_RUNNING.txt").

(** The same installation reading complete settings documents. *)
Definition E_full : env :=
  make_env (fun _ => YamlDoc doc_full)
           (fun l p _ => stage_ok "BUILD_RUNNING.txt" l p)
           (stage_ok "UPDATE_RUNNING.txt") (stage_ok "LAUNCHER_RUNNING.txt").

(** The update stage fails with a built-in exception. *)
Definition E_update_fails : env :=
  make_env (fun _ => YamlDoc doc_full)
           (fun l p _ => stage_ok "BUILD_RUNNING.txt" l p)
           (stage_fails "UPDATE_RUNNING.txt" (new_exn ValueError "boom"))
           (stage_ok "LAUNCHER_RUNNING.txt").

(** The build of the launcher fails with an exception that carries a
    [message] attribute. *)
Definition xnat_error : exn := mkExn (OtherError "XnatAccessError") "boom" (Some "boom").

Definition E_build_fails : env :=
  make_env (fun _ => YamlDoc doc_full)
           (fun l p _ => stage_fails "BUILD_RUNNING.txt" xnat_error l p)
           (stage_ok "UPDATE_RUNNING.txt") (stage_ok "LAUNCHER_RUNNING.txt").

(** The launch stage fails with a built-in exception. *)
Definition E_launch_fails : env :=
  make_env (fun _ => YamlDoc doc_full)
           (fun l p _ => stage_ok "BUILD_RUNNING.txt" l p)
           (stage_ok "UPDATE_RUNNING.txt")
           (stage_fails "LAUNCHER_RUNNING.txt" (new_exn KeyError "scan")).

Definition settings_A : string := "/settings/settings-ALPHA.yaml".

(** The directories and one settings file for [ALPHA]. *)
Definition w_settings : world :=
  mkWorld {[ "/settings" := Directory; "/res/FlagFiles" := Directory;
             "/lib/modules/module_dcm2nii.py" := RegularFile "" true;
             settings_A := RegularFile "---" true ]} [] [] [] O.

Definition lock_A : string := "/res/FlagFiles/settings-ALPHA_BUILD_RUNNING.txt".

(** A world with one stale build lock of this host. *)
Definition w_stale : world :=
  mkWorld {[ lock_A := RegularFile ("Node1-4242" +:+ lf) true ]} [] [] [] O.

(** Locks held by a process of another user, by a live process and by
    a process of another host. *)
Definition w_foreign : world :=
  mkWorld {[ lock_A := RegularFile ("Node1-1" +:+ lf) true ]} [] [] [] O.

Definition w_alive : world :=
  mkWorld {[ lock_A := RegularFile ("Node1-7" +:+ lf) true ]} [] [] [] O.

Definition w_remote : world :=
  mkWorld {[ lock_A := RegularFile ("node2-4242" +:+ lf) true ]} [] [] [] O.

Definition w_garbled : world :=
  mkWorld {[ lock_A := RegularFile ("big-node-4242" +:+ lf) true ]} [] [] [] O.

(** The same world while a build of [ALPHA] holds its lock. *)
Definition w_locked : world :=
  set_fs (<[lock_A := RegularFile ("Node1-7" +:+ lf) true]>) w_settings.

Definition manager0 : DaxProjectSettingsManager.t :=
  DaxProjectSettingsManager.mk "general" "/settings" instance0.

Definition w_empty : world := mkWorld ∅ [] [] [] O.

Definition dax0 : DaxManager.t :=
  DaxManager.mk instance0 "/settings" "/logs" manager0 [settings_A].

End Sample.

(** ** Notions used to state the properties of the catalog *)

Module Catalog.

(** The world with some more log records. *)
Definition append_logs (ls : list log_entry) (w : world) : world :=
  mkWorld (fs w) (imports w) (logs w ++ ls)%list (loaded w) (ticks w).

(** A computation that only consults the project registry and writes to
    the log: its result depends on the world through the imports alone. *)
Definition reader {A} (c : M world A) : Prop :=
  (forall w, exists ls, snd (c w) = append_logs ls w)
  /\ (forall w w', imports w = imports w' -> fst (c w) = fst (c w')).

(** Two entries of the file system that are equal, or are two settings
    files that differ in their time stamp line only. *)
Definition same_but_stamp (t t' : Datetime.datetime) (a b : option node) : Prop :=
  a = b
  \/ exists body,
       a = Some (RegularFile (DaxProjectSettingsManager.stamped t body) true)
       /\ b = Some (RegularFile (DaxProjectSettingsManager.stamped t' body) true).

(** A regeneration seen as a list of writes: file name and document. *)
Definition apply_writes (t : Datetime.datetime) (writes : list (string * string))
           (f : gmap string node) : gmap string node :=
  fold_left (fun f wr =>
               <[fst wr := RegularFile (DaxProjectSettingsManager.stamped t (snd wr)) true]> f)
            writes f.

(** The document last written to [p], if any. *)
Fixpoint last_write (p : string) (writes : list (string * string)) : option string :=
  match writes with
  | [] => None
  | wr :: rest =>
      match last_write p rest with
      | Some b => Some b
      | None => if String.eqb p (fst wr) then Some (snd wr) else None
      end
  end.

Definition same_dirs (f f' : gmap string node) : Prop :=
  forall p, f !! p = Some Directory <-> f' !! p = Some Directory.

(** Two runs, started in [w] at time [t] and in [w'] at time [t'], that
    end the same way after the same list of writes. *)
Definition agree (t t' : Datetime.datetime) (r r' : res unit * world)
           (w w' : world) : Prop :=
  exists writes,
    fst r = fst r'
    /\ fs (snd r) = apply_writes t writes (fs w)
    /\ fs (snd r') = apply_writes t' writes (fs w')
    /\ imports (snd r) = imports w /\ imports (snd r') = imports w'
    /\ same_dirs (fs w) (fs (snd r)) /\ same_dirs (fs w') (fs (snd r')).

End Catalog.

(** ** Notions used to state the order of a cycle *)

Module Order.

Import DaxManager.

(** Every occurrence of [b] in the history comes after an occurrence
    of [a]. *)
Definition precedes (a b : event) (t : list event) : Prop :=
  forall j, t !! j = Some b -> exists i, (i < j)%nat /\ t !! i = Some a.

(** The order of a cycle: reaping and catalog are finished before any
    build is submitted, the update of a settings file has returned before
    its launch is called, and the upload is joined before the pool. *)
Definition ordered (t : list event) : Prop :=
  (forall b, precedes ReapEnd (Submit b) t /\ precedes CatalogEnd (Submit b) t)
  /\ (forall s, precedes (UpdateReturn s) (LaunchCall s) t)
  /\ precedes UploadJoin PoolJoin t.

(** What must already have happened for [e] to come next. *)
Definition ready (e : event) (t : list event) : Prop :=
  match e with
  | Submit _ => In ReapEnd t /\ In CatalogEnd t
  | LaunchCall s => In (UpdateReturn s) t
  | PoolJoin => In UploadJoin t
  | _ => True
  end.

(** Stages of the history of a cycle. *)
Definition prepared (t : list event) : Prop :=
  ordered t /\ In ReapEnd t /\ In CatalogEnd t.

Definition updated (done : list string) (t : list event) : Prop :=
  ordered t /\ forall x, In x done -> In (UpdateReturn x) t.

Definition uploaded (t : list event) : Prop :=
  ordered t /\ In UploadJoin t.

(** A step of the coordinator started with a history satisfying [P] ends
    with one satisfying [Q] when it returns, and with an ordered one when
    it raises. *)
Definition triple {A} (P : list event -> Prop) (c : M coord A)
           (Q : A -> list event -> Prop) : Prop :=
  forall s, P (trace s) ->
            match c s with
            | (Ok a, s') => Q a (trace s')
            | (Raise _, s') => ordered (trace s')
            end.

End Order.

(** ** Notions used to state further properties *)

Module Stamp.

Import Datetime.

(** A date and time cut to the second, as the registry format keeps it. *)
Definition to_second (d : datetime) : datetime :=
  mkDatetime (year d) (month d) (day d) (hour d) (minute d) (second d) 0.

(** [a] is earlier than [b] by at least a second: the fields compared
    from the year down to the second. *)
Definition before (a b : datetime) : bool :=
  (year a <? year b) || ((year a =? year b) &&
  ((month a <? month b) || ((month a =? month b) &&
  ((day a <? day b) || ((day a =? day b) &&
  ((hour a <? hour b) || ((hour a =? hour b) &&
  ((minute a <? minute b) || ((minute a =? minute b) &&
  (second a <? second b)))))))))).

Definition year_length (y : Z) : Z := if is_leap y then 366 else 365.

End Stamp.

(** A registry that keeps what it is sent: the value exported for a field of
    a project is the one last imported for it, the empty text before. *)
Module Registry.

Fixpoint field_of (field : string) (rec : list (string * option string))
  : option string :=
  match rec with
  | [] => None
  | (k, v) :: rest => if String.eqb k field then v else field_of field rest
  end.

Fixpoint stored (project field : string) (calls : list import_call)
         (found : string) : string :=
  match calls with
  | [] => found
  | c :: rest =>
      stored project field rest
        (match field_of "project_name" (imp_record c), field_of field (imp_record c) with
         | Some p, Some v => if String.eqb p project then v else found
         | _, _ => found
         end)
  end.

Definition kept_fields (calls : list import_call) (fields : list string)
           (record : option string) (label : bool) : res (list row) :=
  match record with
  | None => Ok Sample.projects0
  | Some p => Ok [ map (fun f => (f, stored p f calls "")) fields ]
  end.

(** The sample installation on such a registry. *)
Definition E_kept : env :=
  {| gethostname := gethostname Sample.E_full;
     environ_USER := environ_USER Sample.E_full;
     get_results_dir := get_results_dir Sample.E_full;
     clock := clock Sample.E_full;
     getpid := getpid Sample.E_full;
     os_kill := os_kill Sample.E_full;
     remove_denied := remove_denied Sample.E_full;
     fd_is_open := fd_is_open Sample.E_full;
     BUILD_SUFFIX := BUILD_SUFFIX Sample.E_full;
     UPDATE_SUFFIX := UPDATE_SUFFIX Sample.E_full;
     LAUNCH_SUFFIX := LAUNCH_SUFFIX Sample.E_full;
     Launcher := Launcher Sample.E_full;
     launcher_build := launcher_build Sample.E_full;
     launcher_update_tasks := launcher_update_tasks Sample.E_full;
     launcher_launch_jobs := launcher_launch_jobs Sample.E_full;
     upload_tasks := upload_tasks Sample.E_full;
     instantiate := instantiate Sample.E_full;
     load_py_settings := load_py_settings Sample.E_full;
     yaml_load := yaml_load Sample.E_full;
     yaml_dump := yaml_dump Sample.E_full;
     redcap_forms := redcap_forms Sample.E_full;
     export_form := export_form Sample.E_full;
     export_fields := kept_fields;
     import_response := import_response Sample.E_full;
     export_instance := export_instance Sample.E_full |}.

(** The world after one build of [ALPHA] on this installation. *)
Definition w_built : world :=
  snd (DaxManager.run_build E_kept Sample.dax0 "ALPHA" Sample.settings_A
         "/logs/build_ALPHA.log" None Sample.w_settings).

End Registry.

(** Lock files: what they record and what [check_lockfile] makes of them. *)
Module Lock.

(** *** The content of a lock file

    A lock file names the host and the process id of its owner, joined by
    a dash, on its first line.  The notions below say which texts record
    which owner in terms of the text alone, without the operations by
    which [check_lockfile] cuts it. *)

Definition line_end (c : ascii) : Prop := c = "010"%char \/ c = "013"%char.

(** A text that can stand for a host on the first line: it holds no dash
    and no end of line. *)
Definition plain (s : string) : Prop :=
  forall c, In c (PyStr.chars_of s) -> c <> "-"%char /\ ~ line_end c.

(** Tabs, vertical tabs, form feeds and spaces. *)
Definition blank (s : string) : Prop :=
  forall c, In c (PyStr.chars_of s) ->
            c = "009"%char \/ c = "011"%char \/ c = "012"%char \/ c = " "%char.

Definition digit (c : ascii) (n : Z) : Prop :=
  In (c, n) [ ("0"%char, 0); ("1"%char, 1); ("2"%char, 2); ("3"%char, 3);
              ("4"%char, 4); ("5"%char, 5); ("6"%char, 6); ("7"%char, 7);
              ("8"%char, 8); ("9"%char, 9) ].

(** The number a decimal numeral writes; one underscore may stand between
    two digits. *)
Inductive numeral : string -> Z -> Prop :=
| numeral_digit (c : ascii) (n : Z) :
    digit c n -> numeral (String c "") n
| numeral_next (s : string) (m : Z) (c : ascii) (n : Z) :
    numeral s m -> digit c n -> numeral (s +:+ String c "") (10 * m + n)
| numeral_group (s : string) (m : Z) (c : ascii) (n : Z) :
    numeral s m -> digit c n ->
    numeral (s +:+ String "_" (String c "")) (10 * m + n).

(** The first line of [content] is [host], a dash and the numeral of
    [pid], which may be padded with blanks and carry a plus sign; the
    line ends with the text or at the first line feed or carriage
    return. *)
Definition records (content host : string) (pid : Z) : Prop :=
  exists before sign digits after rest,
    content = host +:+ "-" +:+ before +:+ sign +:+ digits +:+ after +:+ rest
    /\ plain host /\ blank before /\ (sign = "" \/ sign = "+")
    /\ numeral digits pid /\ blank after
    /\ (rest = "" \/ exists c r, rest = String c r /\ line_end c).

(** The white space that [int] skips, and a text that does not start
    with it. *)
Definition blanks (s : string) : Prop :=
  forall c, In c (PyStr.chars_of s) -> PyStr.is_blank c = true.

Definition starts_solid (s : string) : Prop :=
  s = "" \/ exists c r, s = String c r /\ PyStr.is_blank c = false.

(** A lock left behind on this host by a process that is gone. *)
Definition stale (E : env) (n : option node) : Prop :=
  exists content pid,
    n = Some (RegularFile content true)
    /\ records content (Manager.this_host E) pid
    /\ os_kill E pid = NoSuchProcess.

(** *** What [check_lockfile] makes of the node it finds at a path *)

Inductive verdict :=
| Keep
| Delete
| Denied
| Fail (e : exn).

Definition judge (E : env) (file : string) (n : option node) : verdict :=
  match n with
  | Some (RegularFile content true) =>
      match Manager.lock_owner content with
      | Some (host, pid) =>
          if String.eqb host (Manager.this_host E) then
            match os_kill E pid with
            | NoSuchProcess => if remove_denied E file then Denied else Delete
            | KillFails e =>
                match exn_class e with
                | OSError | ValueError => Keep
                | _ => Fail e
                end
            | Signalled | NotPermitted => Keep
            end
          else Keep
      | None => Keep
      end
  | _ => Keep
  end.

(** The directory of the lock files. *)
Definition lock_dir (E : env) : string :=
  PyStr.path_join (get_results_dir E) "FlagFiles".

(** The lock directory with one stale lock of the sample host in it. *)
Definition w_flags : world :=
  mkWorld {[ "/res/FlagFiles" := Directory;
             Sample.lock_A := RegularFile ("Node1-4242" +:+ Sample.lf) true ]}
          [] [] [] O.

(** The sample installation on a host with another name. *)
Definition on_host (name : string) : env :=
  {| gethostname := name;
     environ_USER := environ_USER Sample.E0;
     get_results_dir := get_results_dir Sample.E0;
     clock := clock Sample.E0;
     getpid := getpid Sample.E0;
     os_kill := os_kill Sample.E0;
     remove_denied := remove_denied Sample.E0;
     fd_is_open := fd_is_open Sample.E0;
     BUILD_SUFFIX := BUILD_SUFFIX Sample.E0;
     UPDATE_SUFFIX := UPDATE_SUFFIX Sample.E0;
     LAUNCH_SUFFIX := LAUNCH_SUFFIX Sample.E0;
     Launcher := Launcher Sample.E0;
     launcher_build := launcher_build Sample.E0;
     launcher_update_tasks := launcher_update_tasks Sample.E0;
     launcher_launch_jobs := launcher_launch_jobs Sample.E0;
     upload_tasks := upload_tasks Sample.E0;
     instantiate := instantiate Sample.E0;
     load_py_settings := load_py_settings Sample.E0;
     yaml_load := yaml_load Sample.E0;
     yaml_dump := yaml_dump Sample.E0;
     redcap_forms := redcap_forms Sample.E0;
     export_form := export_form Sample.E0;
     export_fields := export_fields Sample.E0;
     import_response := import_response Sample.E0;
     export_instance := export_instance Sample.E0 |}.

(** The sample installation with a lock directory in which nothing may
    be removed. *)
Definition read_only : env :=
  {| gethostname := gethostname Sample.E0;
     environ_USER := environ_USER Sample.E0;
     get_results_dir := get_results_dir Sample.E0;
     clock := clock Sample.E0;
     getpid := getpid Sample.E0;
     os_kill := os_kill Sample.E0;
     remove_denied := PyStr.startswith "/res/FlagFiles/";
     fd_is_open := fd_is_open Sample.E0;
     BUILD_SUFFIX := BUILD_SUFFIX Sample.E0;
     UPDATE_SUFFIX := UPDATE_SUFFIX Sample.E0;
     LAUNCH_SUFFIX := LAUNCH_SUFFIX Sample.E0;
     Launcher := Launcher Sample.E0;
     launcher_build := launcher_build Sample.E0;
     launcher_update_tasks := launcher_update_tasks Sample.E0;
     launcher_launch_jobs := launcher_launch_jobs Sample.E0;
     upload_tasks := upload_tasks Sample.E0;
     instantiate := instantiate Sample.E0;
     load_py_settings := load_py_settings Sample.E0;
     yaml_load := yaml_load Sample.E0;
     yaml_dump := yaml_dump Sample.E0;
     redcap_forms := redcap_forms Sample.E0;
     export_form := export_form Sample.E0;
     export_fields := export_fields Sample.E0;
     import_response := import_response Sample.E0;
     export_instance := export_instance Sample.E0 |}.

(** A stale lock written on the host [big-node]. *)
Definition w_dashed : world :=
  mkWorld {[ "/res/FlagFiles" := Directory;
             Sample.lock_A := RegularFile ("big-node-4242" +:+ Sample.lf) true ]}
          [] [] [] O.

End Lock.

(** The history of a complete cycle of the coordinator. *)
Module Cycle.

Import DaxManager.

Definition updates (l : list string) : list event :=
  flat_map (fun s => [UpdateCall s; UpdateReturn s]) l.

Definition launches (l : list string) : list event :=
  flat_map (fun s => [LaunchCall s; LaunchReturn s]) l.

(** What [run] adds to the history once the builds [tasks] are queued. *)
Definition stages (l : list string) : list event :=
  ([PoolClose] ++ updates l ++ launches l ++ [UploadStart; UploadJoin; PoolJoin])%list.

Definition history (tasks : list task) : list event :=
  ([ReapBegin; ReapEnd; CatalogBegin; CatalogEnd] ++ map Submit tasks
   ++ stages (map task_settings tasks))%list.

(** The project of a task is the one its settings file is named after. *)
Definition named (b : task) : Prop :=
  forall w : world,
    project_from_settings (task_settings b) w = (Ok (task_project b), w).

(** A step of the coordinator adds an initial part of [H] to the history,
    and all of [H] when it returns. *)
Definition follows {A} (c : M coord A) (H : list event) : Prop :=
  forall s, exists t,
    trace (snd (c s)) = (trace s ++ t)%list
    /\ (exists rest, H = (t ++ rest)%list)
    /\ (forall a, fst (c s) = Ok a -> t = H).

End Cycle.

(** Notions about the settings document read by [read_yaml_settings]. *)
Module Settings.

(** [[_yp.get('yaml_path') for _yp in yamlprocs if _yp.get('name') == n]]
    for a list of mappings. *)
Definition paths_named (yamlprocs : list Py.dict) (n : string) : list pyval :=
  map (fun d => default PNone (Py.get (PStr "yaml_path") d))
      (List.filter (fun d => Py.eq_str (default PNone (Py.get (PStr "name") d)) n)
                   yamlprocs).

(** The objects a table of modules (or processors) per project holds for
    the project [p]. *)
Definition entry_of (p : string) (per_project : Py.dict) : list pyval :=
  match Py.get (PStr p) per_project with
  | Some (PList l) => l
  | _ => []
  end.

(** A document with two YAML processors and one project that names both. *)
Definition yamlprocs2 : list Py.dict :=
  [ [ (PStr "name", PStr "fs"); (PStr "yaml_path", PStr "/yaml/fs.yaml") ];
    [ (PStr "name", PStr "dti"); (PStr "yaml_path", PStr "/yaml/dti.yaml") ] ].

Definition project2 : Py.dict :=
  [ (PStr "project", PStr "ALPHA"); (PStr "modules", PStr "");
    (PStr "yamlprocessors", PStr "fs,dti") ].

Definition doc2 : Py.dict :=
  [ (PStr "attrs", PDict [ (PStr "queue_limit", PInt 20) ]);
    (PStr "modules", PList []);
    (PStr "processors", PList []);
    (PStr "yamlprocessors", PList (map PDict yamlprocs2));
    (PStr "projects", PList [ PDict project2 ]) ].

Definition E2 : env :=
  Sample.make_env (fun _ => YamlDoc (PDict doc2))
    (fun l p _ => Sample.stage_ok "BUILD_RUNNING.txt" l p)
    (Sample.stage_ok "UPDATE_RUNNING.txt") (Sample.stage_ok "LAUNCHER_RUNNING.txt").

(** The sample installation when the settings file holds no document:
    [yaml.load] answers [None]. *)
Definition E_blank : env :=
  Sample.make_env (fun _ => YamlDoc PNone)
    (fun l p _ => Sample.stage_ok "BUILD_RUNNING.txt" l p)
    (Sample.stage_ok "UPDATE_RUNNING.txt") (Sample.stage_ok "LAUNCHER_RUNNING.txt").

End Settings.

(** The results of a pool that are not ready yet. *)
Module Results.

(** The positions of the results that are not ready, counted from [i]. *)
Fixpoint pending_from (i : nat) (results : list bool) : list nat :=
  match results with
  | [] => []
  | r :: rest => ((if r then [] else [i]) ++ pending_from (S i) rest)%list
  end.

Definition pending (results : list bool) : list nat := pending_from 0 results.

(** The line [all_ready] logs for the result at position [i]. *)
Definition line (i : nat) : log_entry :=
  mkLog "manager" None DEBUG ("not ready:" +:+ PyStr.of_Z (Z.of_nat i)).

End Results.


(** * Properties *)

(** ** Texts: concatenation, prefixes and cuts *)

Section Text.

Lemma sapp_cons (c : ascii) (a b : string) : String c a +:+ b = String c (a +:+ b).
Proof. reflexivity. Qed.

Lemma sapp_nil_r (s : string) : s +:+ "" = s.
Proof. induction s as [ | c s IH]; [ reflexivity | ]. rewrite sapp_cons, IH. reflexivity. Qed.

Lemma sapp_assoc (a b c : string) : (a +:+ b) +:+ c = a +:+ b +:+ c.
Proof.
  induction a as [ | x a IH]; [ reflexivity | ].
  rewrite !sapp_cons, IH. reflexivity.
Qed.

Lemma length_sapp (a b : string) :
  String.length (a +:+ b) = (String.length a + String.length b)%nat.
Proof.
  induction a as [ | x a IH]; [ reflexivity | ].
  rewrite sapp_cons. cbn [String.length]. rewrite IH. reflexivity.
Qed.

Lemma snoc_sapp (cur : string) (c : ascii) (a : string) :
  PyStr.snoc cur c +:+ a = cur +:+ String c a.
Proof. unfold PyStr.snoc. rewrite sapp_assoc. reflexivity. Qed.

Lemma drop_sapp (a b : string) : PyStr.drop (String.length a) (a +:+ b) = b.
Proof. induction a as [ | x a IH]; [ destruct b; reflexivity | exact IH ]. Qed.

Lemma take_sapp (a b : string) : PyStr.take (String.length a) (a +:+ b) = a.
Proof.
  induction a as [ | x a IH]; [ destruct b; reflexivity | ].
  rewrite sapp_cons. cbn [String.length PyStr.take]. rewrite IH. reflexivity.
Qed.

Lemma char_eqb_eq (a b : ascii) : PyStr.char_eqb a b = true <-> a = b.
Proof. unfold PyStr.char_eqb. apply Ascii.eqb_eq. Qed.

Lemma startswith_refl (p s : string) : PyStr.startswith p (p +:+ s) = true.
Proof.
  induction p as [ | c p IH]; [ reflexivity | ].
  rewrite sapp_cons. cbn [PyStr.startswith]. rewrite IH.
  unfold PyStr.char_eqb. rewrite Ascii.eqb_refl. reflexivity.
Qed.

Lemma startswith_inv (p s : string) :
  PyStr.startswith p s = true -> s = p +:+ PyStr.drop (String.length p) s.
Proof.
  revert s. induction p as [ | c p IH]; intros s H.
  - destruct s; reflexivity.
  - destruct s as [ | d s]; [ discriminate | ].
    cbn [PyStr.startswith] in H. apply andb_true_iff in H. destruct H as [Hc Hp].
    apply char_eqb_eq in Hc. subst d.
    rewrite sapp_cons. cbn [String.length PyStr.drop]. f_equal. apply IH, Hp.
Qed.

Lemma startswith_sapp_l (p a r : string) :
  PyStr.startswith p a = true -> PyStr.startswith p (a +:+ r) = true.
Proof.
  intros H. rewrite (startswith_inv _ _ H), sapp_assoc. apply startswith_refl.
Qed.

(** A match at the start of [a +:+ r] lies inside [a] or runs over its
    end. *)
Lemma startswith_sapp_inv (sep a r : string) :
  PyStr.startswith sep (a +:+ r) = true ->
  PyStr.startswith sep a = true
  \/ exists t, sep = a +:+ t /\ PyStr.startswith t r = true.
Proof.
  revert sep. induction a as [ | c a IH]; intros sep H.
  - right. exists sep. split; [ reflexivity | exact H ].
  - destruct sep as [ | d sep]; [ left; reflexivity | ].
    rewrite sapp_cons in H. cbn [PyStr.startswith] in H.
    apply andb_true_iff in H. destruct H as [Hc Hp].
    apply char_eqb_eq in Hc. subst d.
    destruct (IH sep Hp) as [Hin | (t & -> & Ht)].
    + left. cbn [PyStr.startswith]. rewrite Hin.
      unfold PyStr.char_eqb. rewrite Ascii.eqb_refl. reflexivity.
    + right. exists t. split; [ reflexivity | exact Ht ].
Qed.

Lemma contains_suffix (sub x y : string) :
  PyStr.contains sub (x +:+ y) = false -> PyStr.startswith sub y = false.
Proof.
  induction x as [ | c x IH].
  - destruct y; cbn [PyStr.contains String.append]; intros H;
      apply orb_false_iff in H; apply H.
  - rewrite sapp_cons. cbn [PyStr.contains]. intros H.
    apply orb_false_iff in H. apply IH, H.
Qed.

(** The suffixes of a text that ends with the character [c]. *)
Lemma suffix_snoc (a : string) (c : ascii) (x y : string) :
  a +:+ String c "" = x +:+ y -> y <> "" ->
  exists y0, y = y0 +:+ String c "" /\ a = x +:+ y0.
Proof.
  revert x. induction a as [ | e a IH]; intros x H Hy.
  - destruct x as [ | d x].
    + exists "". split; [ symmetry; exact H | reflexivity ].
    + rewrite sapp_cons in H. injection H as _ H.
      destruct x; destruct y; try discriminate. contradiction.
  - destruct x as [ | d x].
    + exists (String e a). split; [ symmetry; exact H | reflexivity ].
    + rewrite !sapp_cons in H. injection H as <- H.
      destruct (IH x H Hy) as (y0 & -> & ->).
      exists y0. split; reflexivity.
Qed.

Lemma chars_of_sapp (a b : string) :
  PyStr.chars_of (a +:+ b) = (PyStr.chars_of a ++ PyStr.chars_of b)%list.
Proof.
  induction a as [ | c a IH]; [ reflexivity | ].
  rewrite sapp_cons. cbn [PyStr.chars_of]. rewrite IH. reflexivity.
Qed.

(** *** Cutting a text at a separator *)

Lemma split_go_skip (sep : string) (b : option nat) (cur x rest : string) :
  PyStr.split_go sep b (String.length x) cur (x +:+ rest)
  = PyStr.split_go sep b O cur rest.
Proof.
  induction x as [ | c x IH]; [ reflexivity | ].
  rewrite sapp_cons. cbn [String.length PyStr.split_go]. exact IH.
Qed.

(** No match of [sep] starts inside [a] when [a] is followed by [rest]. *)
Lemma split_go_free (sep : string) (b : option nat) (cur a rest : string) :
  b <> Some O ->
  (forall x y, a = x +:+ y -> y <> "" -> PyStr.startswith sep (y +:+ rest) = false) ->
  PyStr.split_go sep b O cur (a +:+ rest)
  = PyStr.split_go sep b O (cur +:+ a) rest.
Proof.
  intros Hb. revert cur. induction a as [ | c a IH]; intros cur Hfree.
  - rewrite sapp_nil_r. reflexivity.
  - rewrite sapp_cons. cbn [PyStr.split_go].
    assert (Hc : PyStr.startswith sep (String c (a +:+ rest)) = false).
    { apply (Hfree "" (String c a)); [ reflexivity | discriminate ]. }
    rewrite Hc.
    assert (Hnext : PyStr.split_go sep b O (PyStr.snoc cur c) (a +:+ rest)
                    = PyStr.split_go sep b O (cur +:+ String c a) rest).
    { rewrite IH; [ rewrite snoc_sapp; reflexivity | ].
      intros x y -> Hy. apply (Hfree (String c x) y); [ reflexivity | exact Hy ]. }
    destruct b as [[ | n] | ]; [ contradiction | exact Hnext | exact Hnext ].
Qed.

Lemma split_go_hit (sep : string) (b : option nat) (cur rest : string) :
  sep <> "" -> b <> Some O ->
  PyStr.split_go sep b O cur (sep +:+ rest)
  = cur :: PyStr.split_go sep (pred <$> b) O "" rest.
Proof.
  intros Hsep Hb. destruct sep as [ | c sep]; [ contradiction | ].
  pose proof (startswith_refl (String c sep) rest) as Hhit.
  rewrite sapp_cons in *. cbn [PyStr.split_go]. rewrite Hhit.
  replace (String.length (String c sep) - 1)%nat with (String.length sep)
    by (cbn [String.length]; lia).
  rewrite split_go_skip.
  destruct b as [[ | n] | ]; [ contradiction | reflexivity | reflexivity ].
Qed.

Lemma split_go_exhausted (sep cur s : string) :
  PyStr.split_go sep (Some O) O cur s = [cur +:+ s].
Proof.
  revert cur. induction s as [ | c s IH]; intros cur.
  - rewrite sapp_nil_r. reflexivity.
  - cbn [PyStr.split_go]. rewrite IH, snoc_sapp. reflexivity.
Qed.

(** The first piece of a cut ends at the first match of the separator. *)
Lemma split_first (sep a rest : string) :
  sep <> "" ->
  (forall x y, a = x +:+ y -> y <> "" ->
               PyStr.startswith sep (y +:+ sep +:+ rest) = false) ->
  PyStr.split sep (a +:+ sep +:+ rest) = a :: PyStr.split sep rest.
Proof.
  intros Hsep Hfree. unfold PyStr.split.
  rewrite split_go_free by (discriminate || assumption).
  rewrite split_go_hit by (discriminate || assumption). reflexivity.
Qed.

Lemma split_none (sep a : string) :
  (forall x y, a = x +:+ y -> y <> "" -> PyStr.startswith sep y = false) ->
  PyStr.split sep a = [a].
Proof.
  intros Hfree. unfold PyStr.split.
  rewrite <- (sapp_nil_r a) at 1.
  rewrite split_go_free; [ reflexivity | discriminate | ].
  intros x y Ha Hy. rewrite sapp_nil_r. eapply Hfree; eassumption.
Qed.

End Text.

Section Paths.

Lemma rev_acc_sapp (s acc : string) :
  PyStr.rev_acc s acc = PyStr.rev_acc s "" +:+ acc.
Proof.
  revert acc. induction s as [ | c s IH]; intros acc; [ reflexivity | ].
  cbn [PyStr.rev_acc]. rewrite (IH (String c acc)), (IH (String c "")), sapp_assoc.
  reflexivity.
Qed.

Lemma rev_sapp (a b : string) : PyStr.rev (a +:+ b) = PyStr.rev b +:+ PyStr.rev a.
Proof.
  unfold PyStr.rev. induction a as [ | c a IH].
  - rewrite sapp_nil_r. reflexivity.
  - rewrite sapp_cons. cbn [PyStr.rev_acc].
    rewrite (rev_acc_sapp (a +:+ b)), (rev_acc_sapp a), IH, sapp_assoc. reflexivity.
Qed.

Lemma rev_involutive (s : string) : PyStr.rev (PyStr.rev s) = s.
Proof.
  induction s as [ | c s IH]; [ reflexivity | ].
  change (String c s) with (String c "" +:+ s) at 1.
  rewrite rev_sapp, rev_sapp, IH. reflexivity.
Qed.

Lemma endswith_inv (p s : string) :
  PyStr.endswith p s = true -> exists s0, s = s0 +:+ p.
Proof.
  unfold PyStr.endswith. intros H. apply startswith_inv in H.
  exists (PyStr.rev (PyStr.drop (String.length (PyStr.rev p)) (PyStr.rev s))).
  rewrite <- (rev_involutive s) at 1. rewrite H at 1.
  rewrite rev_sapp, rev_involutive. reflexivity.
Qed.

Lemma endswith_refl (p s : string) : PyStr.endswith p (s +:+ p) = true.
Proof. unfold PyStr.endswith. rewrite rev_sapp. apply startswith_refl. Qed.

(** [os.path.join] puts a relative name behind the directory, which then
    is empty or ends with a slash. *)
Lemma path_join_shape (a b : string) :
  PyStr.startswith "/" b = false ->
  PyStr.path_join a b = b /\ a = ""
  \/ (exists a0, PyStr.path_join a b = (a0 +:+ "/") +:+ b
                 /\ (a = a0 \/ a = a0 +:+ "/")).
Proof.
  intros Hb. unfold PyStr.path_join. rewrite Hb.
  destruct (String.eqb_spec a "") as [-> | Ha]; cbn [orb].
  - left. split; reflexivity.
  - right. destruct (PyStr.endswith "/" a) eqn:Hend.
    + destruct (endswith_inv _ _ Hend) as [a0 ->]. exists a0.
      split; [ reflexivity | right; reflexivity ].
    + exists a. split; [ rewrite sapp_assoc; reflexivity | left; reflexivity ].
Qed.

(** No match of [sep] starts in [a] and runs into a text that begins
    with a character foreign to [sep]. *)
Lemma free_before (sep a rest : string) (c : ascii) :
  ~ In c (PyStr.chars_of sep) ->
  (forall x y0, a = x +:+ y0 -> PyStr.startswith sep y0 = false) ->
  forall x y0, a = x +:+ y0 -> PyStr.startswith sep (y0 +:+ String c rest) = false.
Proof.
  intros Hc Hfree x y0 Ha.
  destruct (PyStr.startswith sep (y0 +:+ String c rest)) eqn:Hhit; [ | reflexivity ].
  exfalso. apply startswith_sapp_inv in Hhit.
  destruct Hhit as [Hin | (t & -> & Ht)].
  - rewrite (Hfree x y0 Ha) in Hin. discriminate.
  - destruct t as [ | d t].
    + specialize (Hfree x y0 Ha). rewrite sapp_nil_r in Hfree.
      rewrite <- (sapp_nil_r y0) in Hfree at 2.
      rewrite startswith_refl in Hfree. discriminate.
    + cbn [PyStr.startswith] in Ht. apply andb_true_iff in Ht.
      destruct Ht as [Hd _]. apply char_eqb_eq in Hd. subst d.
      apply Hc. rewrite chars_of_sapp. apply in_or_app. right. left. reflexivity.
Qed.

(** The same when the text that follows is the separator itself, whose
    first character does not come back in it. *)
Lemma free_before_self (c : ascii) (sep' a rest : string) :
  ~ In c (PyStr.chars_of sep') ->
  (forall x y0, a = x +:+ y0 -> PyStr.startswith (String c sep') y0 = false) ->
  forall x y, a = x +:+ y -> y <> "" ->
              PyStr.startswith (String c sep') (y +:+ String c sep' +:+ rest) = false.
Proof.
  intros Hc Hfree x y Ha Hy.
  destruct (PyStr.startswith (String c sep') (y +:+ String c sep' +:+ rest)) eqn:Hhit;
    [ | reflexivity ].
  exfalso. apply startswith_sapp_inv in Hhit.
  destruct Hhit as [Hin | (t & Hsep & Ht)].
  - rewrite (Hfree x y Ha) in Hin. discriminate.
  - destruct y as [ | d y]; [ contradiction | ].
    rewrite sapp_cons in Hsep. injection Hsep as <- Hsep.
    destruct t as [ | e t].
    + specialize (Hfree x (String c y) Ha). rewrite sapp_nil_r in Hsep. subst sep'.
      rewrite <- (sapp_nil_r (String c y)) in Hfree at 2.
      rewrite startswith_refl in Hfree. discriminate.
    + rewrite sapp_cons in Ht. cbn [PyStr.startswith] in Ht.
      apply andb_true_iff in Ht. destruct Ht as [He _].
      apply char_eqb_eq in He. subst e. apply Hc. rewrite Hsep, chars_of_sapp.
      apply in_or_app. right. left. reflexivity.
Qed.

Lemma contains_free (sep a : string) :
  PyStr.contains sep a = false ->
  forall x y0, a = x +:+ y0 -> PyStr.startswith sep y0 = false.
Proof. intros H x y0 ->. eapply contains_suffix, H. Qed.

Lemma contains_free_l (sep a b : string) :
  PyStr.contains sep (a +:+ b) = false ->
  forall x y0, a = x +:+ y0 -> PyStr.startswith sep y0 = false.
Proof.
  intros H x y0 ->.
  destruct (PyStr.startswith sep y0) eqn:Hhit; [ | reflexivity ].
  rewrite sapp_assoc in H. apply contains_suffix in H.
  rewrite (startswith_sapp_l _ _ _ Hhit) in H. discriminate.
Qed.

End Paths.



(** ** The text of a lock file *)

Section Dashes.

(** No piece of a text cut at every dash contains a dash. *)

Lemma chars_of_app (a b : string) :
  PyStr.chars_of (a +:+ b) = (PyStr.chars_of a ++ PyStr.chars_of b)%list.
Proof. induction a as [ | c a IH]; simpl; [ reflexivity | now rewrite IH ]. Qed.

Lemma dashless_snoc (s : string) (c : ascii) :
  PyStr.dashless s -> c <> "-"%char -> PyStr.dashless (PyStr.snoc s c).
Proof.
  unfold PyStr.dashless, PyStr.snoc. intros Hs Hc. rewrite chars_of_app, in_app_iff.
  simpl. intros [H | [H | []]]; [ now apply Hs | now apply Hc ].
Qed.

Lemma startswith_dash (c : ascii) (s : string) :
  PyStr.startswith "-" (String c s) = PyStr.char_eqb "-" c.
Proof. simpl. apply andb_true_r. Qed.

Lemma split_go_dashless (s cur : string) :
  PyStr.dashless cur ->
  Forall PyStr.dashless (PyStr.split_go "-" None O cur s).
Proof.
  revert cur. induction s as [ | c s IH]; intros cur Hcur.
  - simpl. constructor; [ assumption | constructor ].
  - cbn [PyStr.split_go].
    destruct (PyStr.startswith "-" (String c s)) eqn:Hd.
    + constructor; [ assumption | ]. apply IH. unfold PyStr.dashless. simpl. tauto.
    + apply IH. apply dashless_snoc; [ assumption | ].
      intros ->. rewrite startswith_dash in Hd. discriminate.
Qed.

Lemma split_dashless (s : string) : Forall PyStr.dashless (PyStr.split "-" s).
Proof. apply split_go_dashless. unfold PyStr.dashless. simpl. tauto. Qed.

Lemma chars_of_rev_acc (s acc : string) (c : ascii) :
  In c (PyStr.chars_of (PyStr.rev_acc s acc)) <-> In c (PyStr.chars_of s) \/ In c (PyStr.chars_of acc).
Proof.
  revert acc. induction s as [ | d s IH]; intros acc; simpl.
  - tauto.
  - rewrite IH. simpl. tauto.
Qed.

Lemma chars_of_rev (s : string) (c : ascii) :
  In c (PyStr.chars_of (PyStr.rev s)) <-> In c (PyStr.chars_of s).
Proof. unfold PyStr.rev. rewrite chars_of_rev_acc. simpl. tauto. Qed.

Lemma in_chars_sapp (c : ascii) (a b : string) :
  In c (PyStr.chars_of (a +:+ b)) <-> In c (PyStr.chars_of a) \/ In c (PyStr.chars_of b).
Proof. rewrite chars_of_app. apply in_app_iff. Qed.

End Dashes.

Section Cuts.

(** *** Cutting a text at every occurrence of one character *)

Variable c : ascii.

Lemma startswith_char (d : ascii) (s : string) :
  PyStr.startswith (String c "") (String d s) = PyStr.char_eqb c d.
Proof. cbn [PyStr.startswith]. apply andb_true_r. Qed.

Lemma startswith_other (y rest : string) :
  y <> "" -> ~ In c (PyStr.chars_of y) -> PyStr.startswith (String c "") (y +:+ rest) = false.
Proof.
  intros Hy Hc. destruct y as [ | d y]; [ contradiction | ].
  rewrite sapp_cons, startswith_char.
  destruct (PyStr.char_eqb c d) eqn:Hd; [ | reflexivity ].
  apply char_eqb_eq in Hd. subst d. exfalso. apply Hc. left. reflexivity.
Qed.

Lemma split_char_none (a : string) :
  ~ In c (PyStr.chars_of a) -> PyStr.split (String c "") a = [a].
Proof.
  intros Ha. apply split_none. intros x y -> Hy.
  rewrite <- (sapp_nil_r y). apply startswith_other; [ exact Hy | ].
  intros Hin. apply Ha. apply in_chars_sapp. right. exact Hin.
Qed.

Lemma split_char_first (a rest : string) :
  ~ In c (PyStr.chars_of a) ->
  PyStr.split (String c "") (a +:+ String c rest) = a :: PyStr.split (String c "") rest.
Proof.
  intros Ha. change (String c rest) with (String c "" +:+ rest).
  apply split_first; [ discriminate | ].
  intros x y -> Hy. apply startswith_other; [ exact Hy | ].
  intros Hin. apply Ha. apply in_chars_sapp. right. exact Hin.
Qed.

(** A text is free of [c] or has a first occurrence of it. *)
Lemma cut_at (s : string) :
  ~ In c (PyStr.chars_of s)
  \/ exists a r, s = a +:+ String c r /\ ~ In c (PyStr.chars_of a).
Proof.
  induction s as [ | d s IH].
  - left. intros [].
  - destruct (ascii_dec c d) as [<- | Hne].
    + right. exists "", s. split; [ reflexivity | intros [] ].
    + destruct IH as [Hfree | (a & r & -> & Ha)].
      * left. intros [H | H]; [ congruence | contradiction ].
      * right. exists (String d a), r. split; [ reflexivity | ].
        intros [H | H]; [ congruence | contradiction ].
Qed.

Lemma split_nonempty (s : string) : PyStr.split (String c "") s <> [].
Proof.
  destruct (cut_at s) as [Hfree | (a & r & -> & Ha)].
  - rewrite split_char_none by assumption. discriminate.
  - rewrite split_char_first by assumption. discriminate.
Qed.

(** A cut in exactly two pieces: the text holds [c] once, between them. *)
Lemma split_char_two (s a b : string) :
  PyStr.split (String c "") s = [a; b] <->
  s = a +:+ String c b
  /\ ~ In c (PyStr.chars_of a) /\ ~ In c (PyStr.chars_of b).
Proof.
  split.
  - intros H. destruct (cut_at s) as [Hfree | (a' & r & -> & Ha)].
    + rewrite split_char_none in H by assumption. discriminate.
    + rewrite split_char_first in H by assumption. injection H as -> H.
      destruct (cut_at r) as [Hfree | (a'' & r' & -> & Ha')].
      * rewrite split_char_none in H by assumption. injection H as ->.
        repeat split; assumption.
      * rewrite split_char_first in H by assumption. injection H as _ H.
        destruct (split_nonempty _ H).
  - intros (-> & Ha & Hb).
    rewrite split_char_first by assumption.
    rewrite split_char_none by assumption. reflexivity.
Qed.

End Cuts.

Section FirstLine.

(** *** The first line *)

Lemma line_end_test (c : ascii) :
  PyStr.char_eqb c "010" || PyStr.char_eqb c "013" = true <-> Lock.line_end c.
Proof.
  unfold Lock.line_end. rewrite orb_true_iff, !char_eqb_eq. reflexivity.
Qed.

Lemma readline_end (c : ascii) (r : string) :
  Lock.line_end c -> PyStr.readline (String c r) = String "010" "".
Proof.
  intros Hc. apply line_end_test in Hc. cbn [PyStr.readline]. rewrite Hc. reflexivity.
Qed.

Lemma readline_plain (p rest : string) :
  (forall c, In c (PyStr.chars_of p) -> ~ Lock.line_end c) ->
  PyStr.readline (p +:+ rest) = p +:+ PyStr.readline rest.
Proof.
  induction p as [ | d p IH]; intros Hp; [ reflexivity | ].
  rewrite !sapp_cons. cbn [PyStr.readline].
  destruct (PyStr.char_eqb d "010" || PyStr.char_eqb d "013") eqn:Hd.
  - apply line_end_test in Hd. destruct (Hp d); [ left; reflexivity | exact Hd ].
  - rewrite IH; [ reflexivity | ]. intros c Hc. apply Hp. right. exact Hc.
Qed.

(** The first line is the text up to its first end of line, closed by a
    line feed when there is such an end. *)
Lemma readline_shape (content : string) :
  exists body rest,
    content = body +:+ rest
    /\ (forall c, In c (PyStr.chars_of body) -> ~ Lock.line_end c)
    /\ ((rest = "" /\ PyStr.readline content = body)
        \/ ((exists c r, rest = String c r /\ Lock.line_end c)
            /\ PyStr.readline content = body +:+ String "010" "")).
Proof.
  induction content as [ | d s IH].
  - exists "", "". split; [ reflexivity | ]. split; [ intros c [] | ].
    left. split; reflexivity.
  - cbn [PyStr.readline].
    destruct (PyStr.char_eqb d "010" || PyStr.char_eqb d "013") eqn:Hd.
    + apply line_end_test in Hd. exists "", (String d s).
      split; [ reflexivity | ]. split; [ intros c [] | ].
      right. split; [ exists d, s; split; [ reflexivity | exact Hd ] | reflexivity ].
    + destruct IH as (body & rest & -> & Hbody & Hrest).
      exists (String d body), rest. split; [ reflexivity | ]. split.
      * intros c [<- | Hc]; [ | apply Hbody, Hc ].
        intros Hend. apply line_end_test in Hend. congruence.
      * destruct Hrest as [[-> ->] | [Hr ->]].
        -- left. split; reflexivity.
        -- right. split; [ exact Hr | reflexivity ].
Qed.

End FirstLine.

Section Numerals.

(** *** Decimal numerals and [int] *)

Lemma digit_test (c : ascii) (n : Z) :
  Lock.digit c n <-> PyStr.is_digit c = true /\ n = PyStr.digit_val c.
Proof.
  unfold Lock.digit. split.
  - intros H. cbn [In] in H.
    repeat (destruct H as [H | H]; [ injection H as <- <-; split; reflexivity | ]).
    destruct H.
  - intros [H ->].
    destruct c as [[] [] [] [] [] [] [] []]; try discriminate H;
      vm_compute; tauto.
Qed.

Lemma digit_not_blank (c : ascii) :
  PyStr.is_digit c = true -> PyStr.is_blank c = false.
Proof.
  unfold PyStr.is_digit, PyStr.is_blank. intros H.
  apply andb_true_iff in H. destruct H as [H1 H2].
  apply Z.leb_le in H1. apply Z.leb_le in H2.
  apply orb_false_iff. split.
  - apply andb_false_iff. right. apply Z.leb_gt. lia.
  - apply Z.eqb_neq. lia.
Qed.

Lemma digit_not_sign (c : ascii) :
  PyStr.is_digit c = true -> c <> "-"%char /\ c <> "+"%char.
Proof. intros H. split; intros ->; discriminate H. Qed.

Lemma numeral_nonneg (s : string) (n : Z) : Lock.numeral s n -> 0 <= n.
Proof.
  induction 1 as [c n Hd | s m c n _ IH Hd | s m c n _ IH Hd];
    apply digit_test in Hd; destruct Hd as [Hd ->];
    unfold PyStr.is_digit, PyStr.digit_val in *; lia.
Qed.

(** A numeral starts and ends with a digit, and holds digits and
    underscores only. *)
Lemma numeral_first (s : string) (n : Z) :
  Lock.numeral s n -> exists c r, s = String c r /\ PyStr.is_digit c = true.
Proof.
  induction 1 as [c n Hd | s m c n _ IH Hd | s m c n _ IH Hd].
  - apply digit_test in Hd. exists c, "". split; [ reflexivity | apply Hd ].
  - destruct IH as (d & r & -> & Hdig). eexists d, _. split; [ reflexivity | exact Hdig ].
  - destruct IH as (d & r & -> & Hdig). eexists d, _. split; [ reflexivity | exact Hdig ].
Qed.

Lemma numeral_last (s : string) (n : Z) :
  Lock.numeral s n ->
  exists c r, PyStr.rev s = String c r /\ PyStr.is_digit c = true.
Proof.
  induction 1 as [c n Hd | s m c n _ _ Hd | s m c n _ _ Hd];
    apply digit_test in Hd; destruct Hd as [Hd _].
  - exists c, "". split; [ reflexivity | exact Hd ].
  - rewrite rev_sapp. eexists c, _. split; [ reflexivity | exact Hd ].
  - change (String "_" (String c "")) with (String "_" "" +:+ String c "").
    rewrite <- sapp_assoc, rev_sapp. eexists c, _. split; [ reflexivity | exact Hd ].
Qed.

Lemma numeral_chars (s : string) (n : Z) (c : ascii) :
  Lock.numeral s n -> In c (PyStr.chars_of s) ->
  PyStr.is_digit c = true \/ c = "_"%char.
Proof.
  induction 1 as [d n Hd | s m d n _ IH Hd | s m d n _ IH Hd];
    apply digit_test in Hd; destruct Hd as [Hd _].
  - intros [<- | []]. left. exact Hd.
  - rewrite in_chars_sapp. intros [H | [<- | []]]; [ apply IH, H | left; exact Hd ].
  - rewrite in_chars_sapp.
    intros [H | [<- | [<- | []]]];
      [ apply IH, H | right; reflexivity | left; exact Hd ].
Qed.

(** [int_digits] reads a numeral from left to right. *)
Lemma numeral_read (s : string) (n : Z) :
  Lock.numeral s n ->
  forall t, PyStr.int_digits 0 false (s +:+ t) = PyStr.int_digits n true t.
Proof.
  induction 1 as [c n Hd | s m c n _ IH Hd | s m c n _ IH Hd]; intros t;
    apply digit_test in Hd; destruct Hd as [Hd ->].
  - rewrite sapp_cons. cbn [PyStr.int_digits]. rewrite Hd. reflexivity.
  - rewrite sapp_assoc, IH, sapp_cons. cbn [PyStr.int_digits]. rewrite Hd. reflexivity.
  - rewrite sapp_assoc, IH, !sapp_cons. cbn [PyStr.int_digits].
    replace (PyStr.is_digit "_") with false by reflexivity.
    replace (PyStr.char_eqb "_" "_") with true by reflexivity.
    cbn [andb]. rewrite Hd. reflexivity.
Qed.

Lemma read_numeral (s : string) :
  forall (p : string) (m n : Z),
    Lock.numeral p m ->
    (PyStr.int_digits m true s = Some n -> Lock.numeral (p +:+ s) n)
    /\ (PyStr.int_digits m false s = Some n ->
        Lock.numeral (p +:+ String "_" s) n).
Proof.
  induction s as [ | c s IH]; intros p m n Hp.
  - cbn [PyStr.int_digits]. split; [ | discriminate ].
    intros [= <-]. rewrite sapp_nil_r. exact Hp.
  - cbn [PyStr.int_digits].
    destruct (PyStr.is_digit c) eqn:Hc.
    + assert (Hd : Lock.digit c (PyStr.digit_val c))
        by (apply digit_test; split; [ exact Hc | reflexivity ]).
      split; intros H.
      * apply (IH (p +:+ String c "") _ n (Lock.numeral_next _ _ _ _ Hp Hd)) in H.
        rewrite sapp_assoc in H. exact H.
      * apply (IH (p +:+ String "_" (String c "")) _ n
                  (Lock.numeral_group _ _ _ _ Hp Hd)) in H.
        rewrite sapp_assoc in H. exact H.
    + split; [ | rewrite andb_false_r; discriminate ].
      rewrite andb_true_r.
      destruct (PyStr.char_eqb c "_") eqn:Hu; [ | discriminate ].
      apply char_eqb_eq in Hu. subst c.
      destruct s as [ | d s]; [ discriminate | ].
      destruct (PyStr.is_digit d); [ | discriminate ].
      intros H. apply (proj2 (IH p m n Hp)), H.
Qed.

Lemma int_digits_numeral (s : string) (n : Z) :
  PyStr.int_digits 0 false s = Some n <-> Lock.numeral s n.
Proof.
  split.
  - destruct s as [ | c s]; [ discriminate | ].
    cbn [PyStr.int_digits].
    destruct (PyStr.is_digit c) eqn:Hc.
    + assert (Hd : Lock.digit c (PyStr.digit_val c))
        by (apply digit_test; split; [ exact Hc | reflexivity ]).
      intros H. change (10 * 0 + PyStr.digit_val c) with (PyStr.digit_val c) in H.
      apply (proj1 (read_numeral s (String c "") _ n (Lock.numeral_digit _ _ Hd))), H.
    + rewrite andb_false_r. discriminate.
  - intros H. rewrite <- (sapp_nil_r s), (numeral_read _ _ H). reflexivity.
Qed.

(** *** The white space around a numeral *)

Lemma skip_blanks_app (b x : string) :
  Lock.blanks b -> Lock.starts_solid x -> PyStr.skip_blanks (b +:+ x) = x.
Proof.
  intros Hb Hx. induction b as [ | d b IH].
  - destruct Hx as [-> | (c & r & -> & Hc)]; [ reflexivity | ].
    change ("" +:+ String c r) with (String c r).
    cbn [PyStr.skip_blanks]. rewrite Hc. reflexivity.
  - rewrite sapp_cons. cbn [PyStr.skip_blanks].
    rewrite (Hb d) by (left; reflexivity).
    apply IH. intros c Hc. apply Hb. right. exact Hc.
Qed.

Lemma skip_blanks_split (s : string) :
  exists b, s = b +:+ PyStr.skip_blanks s /\ Lock.blanks b
            /\ Lock.starts_solid (PyStr.skip_blanks s).
Proof.
  induction s as [ | d s IH].
  - exists "". split; [ reflexivity | ]. split; [ intros c [] | left; reflexivity ].
  - cbn [PyStr.skip_blanks]. destruct (PyStr.is_blank d) eqn:Hd.
    + destruct IH as (b & Hs & Hb & Hsolid). exists (String d b).
      split; [ rewrite sapp_cons; f_equal; exact Hs | ].
      split; [ | exact Hsolid ].
      intros c [<- | Hc]; [ exact Hd | apply Hb, Hc ].
    + exists "". split; [ reflexivity | ]. split; [ intros c [] | ].
      right. exists d, s. split; [ reflexivity | exact Hd ].
Qed.

Lemma blanks_rev (s : string) : Lock.blanks s -> Lock.blanks (PyStr.rev s).
Proof. intros H c Hc. apply H. apply chars_of_rev, Hc. Qed.

(** What [int] keeps of a text: the part between the blanks. *)
Lemma int_strip_shape (s : string) :
  exists b a,
    s = b +:+ PyStr.rev (PyStr.skip_blanks (PyStr.rev (PyStr.skip_blanks s))) +:+ a
    /\ Lock.blanks b /\ Lock.blanks a.
Proof.
  destruct (skip_blanks_split s) as (b & Hs & Hb & _).
  destruct (skip_blanks_split (PyStr.rev (PyStr.skip_blanks s))) as (a & Hr & Ha & _).
  exists b, (PyStr.rev a). split; [ | split; [ exact Hb | apply blanks_rev, Ha ] ].
  rewrite <- rev_sapp, <- Hr, rev_involutive. exact Hs.
Qed.

Lemma int_strip_of (b t a : string) :
  Lock.blanks b -> Lock.blanks a -> Lock.starts_solid t -> Lock.starts_solid (PyStr.rev t) ->
  PyStr.rev (PyStr.skip_blanks (PyStr.rev (PyStr.skip_blanks (b +:+ t +:+ a)))) = t.
Proof.
  intros Hb Ha Ht Hrt.
  destruct (String.eqb_spec t "") as [-> | Hne].
  - change ("" +:+ a) with a.
    assert (Hall : PyStr.skip_blanks (b +:+ a) = "").
    { clear Ht Hrt. induction b as [ | d b IH].
      - change ("" +:+ a) with a. induction a as [ | d a IH]; [ reflexivity | ].
        cbn [PyStr.skip_blanks]. rewrite (Ha d) by (left; reflexivity).
        apply IH. intros c Hc. apply Ha. right. exact Hc.
      - rewrite sapp_cons. cbn [PyStr.skip_blanks].
        rewrite (Hb d) by (left; reflexivity).
        apply IH. intros c Hc. apply Hb. right. exact Hc. }
    rewrite Hall. reflexivity.
  - rewrite skip_blanks_app.
    + rewrite rev_sapp, skip_blanks_app by (apply blanks_rev, Ha || exact Hrt).
      apply rev_involutive.
    + exact Hb.
    + destruct Ht as [-> | (c & r & -> & Hc)]; [ contradiction | ].
      right. exists c, (r +:+ a). split; [ reflexivity | exact Hc ].
Qed.

Lemma to_int_head (s : string) :
  PyStr.to_int s
  = match PyStr.rev (PyStr.skip_blanks (PyStr.rev (PyStr.skip_blanks s))) with
    | "" => None
    | String c d =>
        if Ascii.eqb c "-" then Z.opp <$> PyStr.int_digits 0 false d
        else if Ascii.eqb c "+" then PyStr.int_digits 0 false d
             else PyStr.int_digits 0 false (String c d)
    end.
Proof.
  unfold PyStr.to_int.
  destruct (PyStr.rev (PyStr.skip_blanks (PyStr.rev (PyStr.skip_blanks s))))
    as [ | c d]; [ reflexivity | ].
  destruct c as [[] [] [] [] [] [] [] []]; reflexivity.
Qed.

(** [int] reads exactly the numerals, with Lock.blanks around them and a plus
    sign in front if there is one; in a text without dash there is no
    minus sign. *)
Lemma to_int_numeral (b sign d a : string) (n : Z) :
  Lock.blanks b -> Lock.blanks a -> sign = "" \/ sign = "+" -> Lock.numeral d n ->
  PyStr.to_int (b +:+ sign +:+ d +:+ a) = Some n.
Proof.
  intros Hb Ha Hsign Hd.
  destruct (numeral_first _ _ Hd) as (c & r & Hfirst & Hc).
  destruct (numeral_last _ _ Hd) as (c' & r' & Hlast & Hc').
  rewrite to_int_head.
  rewrite <- (sapp_assoc sign d a), int_strip_of.
  - destruct Hsign as [-> | ->].
    + change ("" +:+ d) with d. rewrite Hfirst.
      destruct (digit_not_sign _ Hc) as [Hm Hp].
      apply Ascii.eqb_neq in Hm, Hp. rewrite Hm, Hp, <- Hfirst.
      apply int_digits_numeral, Hd.
    + change ("+" +:+ d) with (String "+" d). cbn [Ascii.eqb Bool.eqb].
      apply int_digits_numeral, Hd.
  - exact Hb.
  - exact Ha.
  - destruct Hsign as [-> | ->].
    + right. exists c, r. split; [ exact Hfirst | apply digit_not_blank, Hc ].
    + right. exists "+"%char, d. split; reflexivity.
  - rewrite rev_sapp, Hlast. right. eexists c', _.
    split; [ reflexivity | apply digit_not_blank, Hc' ].
Qed.

Lemma to_int_inv (s : string) (n : Z) :
  PyStr.dashless s -> PyStr.to_int s = Some n ->
  exists b sign d a,
    s = b +:+ sign +:+ d +:+ a
    /\ Lock.blanks b /\ Lock.blanks a /\ (sign = "" \/ sign = "+") /\ Lock.numeral d n.
Proof.
  intros Hs H. rewrite to_int_head in H.
  destruct (int_strip_shape s) as (b & a & Hshape & Hb & Ha).
  destruct (PyStr.rev (PyStr.skip_blanks (PyStr.rev (PyStr.skip_blanks s))))
    as [ | c t] eqn:Ht; [ discriminate | ].
  destruct (Ascii.eqb_spec c "-") as [-> | Hm].
  { exfalso. apply Hs. rewrite Hshape. apply in_chars_sapp. right.
    left. reflexivity. }
  destruct (Ascii.eqb_spec c "+") as [-> | Hp].
  - exists b, "+", t, a. split; [ exact Hshape | ].
    repeat split; try assumption; [ right; reflexivity | ].
    apply int_digits_numeral, H.
  - exists b, "", (String c t), a. split; [ exact Hshape | ].
    repeat split; try assumption; [ left; reflexivity | ].
    apply int_digits_numeral, H.
Qed.

Lemma to_int_dashless (s : string) (z : Z) :
  PyStr.dashless s -> PyStr.to_int s = Some z -> 0 <= z.
Proof.
  intros Hs H. destruct (to_int_inv s z Hs H) as (b & sign & d & a & _ & _ & _ & _ & Hd).
  eapply numeral_nonneg, Hd.
Qed.

Lemma lock_owner_pid_nonneg (content host : string) (pid : Z) :
  Manager.lock_owner content = Some (host, pid) -> 0 <= pid.
Proof.
  unfold Manager.lock_owner.
  pose proof (split_dashless (PyStr.readline content)) as Hall.
  destruct (PyStr.split "-" (PyStr.readline content)) as [ | a [ | b [ | ? ?]]];
    try discriminate.
  destruct (PyStr.to_int b) as [z | ] eqn:Hz; simpl; [ | discriminate ].
  intros [= <- <-].
  apply (to_int_dashless b); [ | assumption ].
  inversion Hall as [ | ? ? _ Hrest]; subst. inversion Hrest; subst. assumption.
Qed.

End Numerals.

Section Owner.

(** *** The owner read by [check_lockfile] is the owner recorded *)

Lemma blank_blanks (s : string) : Lock.blank s -> Lock.blanks s.
Proof.
  intros H c Hc. destruct (H c Hc) as [-> | [-> | [-> | ->]]]; reflexivity.
Qed.

Lemma blanks_blank (s : string) :
  Lock.blanks s -> (forall c, In c (PyStr.chars_of s) -> ~ Lock.line_end c) -> Lock.blank s.
Proof.
  intros H Hline c Hc. specialize (H c Hc). specialize (Hline c Hc).
  unfold Lock.line_end in Hline.
  destruct c as [[] [] [] [] [] [] [] []]; try discriminate H; tauto.
Qed.

Lemma blank_plain (s : string) : Lock.blank s -> Lock.plain s.
Proof.
  intros H c Hc. unfold Lock.line_end.
  destruct (H c Hc) as [-> | [-> | [-> | ->]]];
    (split; [ discriminate | intros [? | ?]; discriminate ]).
Qed.

Lemma numeral_plain (s : string) (n : Z) : Lock.numeral s n -> Lock.plain s.
Proof.
  intros H c Hc. unfold Lock.line_end.
  destruct (numeral_chars _ _ _ H Hc) as [Hd | ->].
  - split; [ apply digit_not_sign, Hd | ].
    intros [-> | ->]; discriminate Hd.
  - split; [ discriminate | intros [? | ?]; discriminate ].
Qed.

Lemma plain_sapp (a b : string) : Lock.plain a -> Lock.plain b -> Lock.plain (a +:+ b).
Proof.
  intros Ha Hb c Hc. apply in_chars_sapp in Hc.
  destruct Hc as [Hc | Hc]; [ apply Ha, Hc | apply Hb, Hc ].
Qed.

Lemma readline_of_rest (rest : string) :
  rest = "" \/ (exists c r, rest = String c r /\ Lock.line_end c) ->
  PyStr.readline rest = "" /\ rest = ""
  \/ PyStr.readline rest = String "010" "" /\ rest <> "".
Proof.
  intros [-> | (c & r & -> & Hc)].
  - left. split; reflexivity.
  - right. split; [ apply readline_end, Hc | discriminate ].
Qed.

Lemma owner_text (host b sign d a rest : string) :
  host +:+ "-" +:+ b +:+ sign +:+ d +:+ a +:+ rest
  = (host +:+ String "-" (b +:+ sign +:+ d +:+ a)) +:+ rest.
Proof.
  rewrite (sapp_assoc host (String "-" _) rest). f_equal.
  rewrite (sapp_cons "-" (b +:+ sign +:+ d +:+ a) rest), !sapp_assoc. reflexivity.
Qed.

Lemma owner_line (host b sign d a : string) :
  host +:+ String "-" (b +:+ sign +:+ d +:+ a)
  = ((host +:+ String "-" (b +:+ sign)) +:+ d) +:+ a.
Proof. rewrite !sapp_assoc, sapp_cons, !sapp_assoc. reflexivity. Qed.

(** A numeral does not end with a line feed. *)
Lemma numeral_not_line (d : string) (n : Z) (p x : string) :
  Lock.numeral d n -> p +:+ d <> x +:+ String "010" "".
Proof.
  intros Hd H. destruct (numeral_last _ _ Hd) as (c & r & Hlast & Hc).
  apply (f_equal PyStr.rev) in H. rewrite !rev_sapp, Hlast in H.
  change (PyStr.rev (String "010" "")) with (String "010" "") in H.
  rewrite !sapp_cons in H. injection H as -> _. discriminate Hc.
Qed.

Lemma owner_parts (host b sign d a : string) (P : ascii -> Prop) :
  (forall c, In c (PyStr.chars_of (((host +:+ String "-" (b +:+ sign)) +:+ d) +:+ a))
             -> P c) ->
  (forall c, In c (PyStr.chars_of host) -> P c)
  /\ (forall c, In c (PyStr.chars_of b) -> P c)
  /\ (forall c, In c (PyStr.chars_of a) -> P c).
Proof.
  intros H. repeat split; intros c Hc; apply H; rewrite !in_chars_sapp.
  - left. left. left. exact Hc.
  - left. left. right. right. apply in_chars_sapp. left. exact Hc.
  - right. exact Hc.
Qed.

Lemma lock_owner_records (content host : string) (pid : Z) :
  Manager.lock_owner content = Some (host, pid) <-> Lock.records content host pid.
Proof.
  unfold Manager.lock_owner. split.
  - intros H.
    destruct (PyStr.split "-" (PyStr.readline content))
      as [ | h [ | pid_text [ | ? ?]]] eqn:Hsplit; try discriminate.
    destruct (PyStr.to_int pid_text) as [z | ] eqn:Hint; [ | discriminate ].
    cbn in H. injection H as -> ->.
    apply (split_char_two "-") in Hsplit. destruct Hsplit as (Hline & Hhost & Htext).
    destruct (to_int_inv _ _ Htext Hint) as (b & sign & d & a & -> & Hb & Ha & Hsign & Hd).
    rewrite owner_line in Hline.
    destruct (readline_shape content) as (body & rest & -> & Hbody & Hrest).
    assert (Hdone : forall a0,
               body = ((host +:+ String "-" (b +:+ sign)) +:+ d) +:+ a0 ->
               Lock.blanks a0 ->
               (rest = "" \/ exists c r, rest = String c r /\ Lock.line_end c) ->
               Lock.records (body +:+ rest) host pid).
    { intros a0 -> Ha0 Hr. apply owner_parts in Hbody.
      destruct Hbody as (Hh & Hbl & Hal).
      exists b, sign, d, a0, rest.
      split; [ rewrite owner_text, owner_line; reflexivity | ].
      split; [ intros c Hc; split; [ intros ->; contradiction | apply Hh, Hc ] | ].
      split; [ apply blanks_blank; assumption | ].
      split; [ exact Hsign | ]. split; [ exact Hd | ].
      split; [ apply blanks_blank; assumption | exact Hr ]. }
    destruct Hrest as [[-> Hread] | [Hr Hread]]; rewrite Hread in Hline.
    + (* the text ends on its first line *)
      apply (Hdone a); [ exact Hline | exact Ha | left; reflexivity ].
    + (* the first line is closed by an end of line *)
      destruct (String.eqb_spec a "") as [-> | Hane].
      * rewrite sapp_nil_r in Hline. symmetry in Hline.
        destruct (numeral_not_line _ _ _ _ Hd Hline).
      * destruct (suffix_snoc body "010" _ a Hline Hane) as (a0 & -> & Hbody').
        apply (Hdone a0); [ exact Hbody' | | right; exact Hr ].
        intros c Hc. apply Ha. apply in_chars_sapp. left. exact Hc.
  - intros (b & sign & d & a & rest & -> & Hhost & Hb & Hsign & Hd & Ha & Hrest).
    assert (Htext : Lock.plain (b +:+ sign +:+ d +:+ a)).
    { apply plain_sapp; [ apply blank_plain, Hb | ].
      apply plain_sapp.
      - destruct Hsign as [-> | ->]; intros c Hc; [ destruct Hc | ].
        destruct Hc as [<- | []]. unfold Lock.line_end.
        split; [ discriminate | intros [? | ?]; discriminate ].
      - apply plain_sapp; [ apply (numeral_plain _ _ Hd) | apply blank_plain, Ha ]. }
    rewrite owner_text.
    rewrite readline_plain.
    2: { intros c Hc. apply in_chars_sapp in Hc. destruct Hc as [Hc | [<- | Hc]].
         - apply Hhost, Hc.
         - unfold Lock.line_end. intros [? | ?]; discriminate.
         - apply Htext, Hc. }
    assert (Hread : exists e, PyStr.readline rest = e /\ Lock.blanks e
                              /\ (forall c, In c (PyStr.chars_of e) -> c <> "-"%char)).
    { destruct (readline_of_rest rest Hrest) as [[-> _] | [-> _]]; eexists;
        (split; [ reflexivity | ]); split; intros c Hc;
        try destruct Hc as [<- | []]; try destruct Hc; try reflexivity; discriminate. }
    destruct Hread as (e & -> & He & Hedash).
    rewrite sapp_assoc, sapp_cons.
    rewrite (proj2 (split_char_two "-" _ host ((b +:+ sign +:+ d +:+ a) +:+ e))).
    + replace ((b +:+ sign +:+ d +:+ a) +:+ e) with (b +:+ sign +:+ d +:+ a +:+ e)
        by (rewrite !sapp_assoc; reflexivity).
      rewrite (to_int_numeral b sign d (a +:+ e) pid);
        [ reflexivity | apply blank_blanks, Hb | | exact Hsign | exact Hd ].
      intros c Hc. apply in_chars_sapp in Hc.
      destruct Hc as [Hc | Hc]; [ apply (blank_blanks _ Ha), Hc | apply He, Hc ].
    + split; [ reflexivity | ]. split.
      * intros Hc. apply (proj1 (Hhost _ Hc)). reflexivity.
      * intros Hc. apply in_chars_sapp in Hc.
        destruct Hc as [Hc | Hc]; [ apply (proj1 (Htext _ Hc)); reflexivity | ].
        apply (Hedash _ Hc). reflexivity.
Qed.

End Owner.


(** ** Sanity checks of the string and date primitives *)

Example split_dash : PyStr.split "-" "node7-4242" = ["node7"; "4242"].
Proof. reflexivity. Qed.

Example split_trailing : PyStr.split "-" "a-" = ["a"; ""].
Proof. reflexivity. Qed.

Example split_multi : PyStr.split "settings-" "/d/settings-ABC.yaml" = ["/d/"; "ABC.yaml"].
Proof. reflexivity. Qed.

Example split_max_colon : PyStr.split_max ":" 1 "k: a:b" = ["k"; " a:b"].
Proof. reflexivity. Qed.

Example to_int_newline : PyStr.to_int "4242
" = Some 4242.
Proof. reflexivity. Qed.

Example to_int_bad : PyStr.to_int "42x" = None.
Proof. reflexivity. Qed.

Example splitext_yaml : PyStr.splitext_root (PyStr.basename "/d/settings-ABC.yaml") = "settings-ABC".
Proof. reflexivity. Qed.

Example strptime_plain :
  Datetime.strptime_rc "2020-01-01 11:05:00"
  = Some (Datetime.mkDatetime 2020 1 1 11 5 0 0).
Proof. vm_compute. reflexivity. Qed.

Example strptime_short_fields :
  Datetime.strptime_rc "2020-1-1   1:2:3"
  = Some (Datetime.mkDatetime 2020 1 1 1 2 3 0).
Proof. vm_compute. reflexivity. Qed.

Example strptime_feb30 : Datetime.strptime_rc "2021-02-30 00:00:00" = None.
Proof. vm_compute. reflexivity. Qed.

Example strptime_leftover : Datetime.strptime_rc "2021-02-03 00:00:62" = None.
Proof. vm_compute. reflexivity. Qed.

Example strptime_empty : Datetime.strptime_rc "" = None.
Proof. vm_compute. reflexivity. Qed.

Example strftime_roundtrip :
  Datetime.strftime_rc (Datetime.mkDatetime 2020 1 1 11 5 0 0) = "2020-01-01 11:05:00".
Proof. vm_compute. reflexivity. Qed.

Example ordinal_2020 : Datetime.toordinal (Datetime.mkDatetime 2020 1 1 0 0 0 0) = 737425.
Proof. vm_compute. reflexivity. Qed.

(** ** Duration of a build *)

Section Duration.

Import DaxProjectSettingsManager.

Lemma hours_positive (secs : Z) : (secs / 3600 >? 0) = (3600 <=? secs).
Proof.
  destruct (Z.leb_spec 3600 secs) as [H | H];
    destruct (Z.gtb_spec (secs / 3600) 0) as [G | G]; try reflexivity.
  - assert (1 <= secs / 3600) by (apply Z.div_le_lower_bound; lia). lia.
  - assert (secs / 3600 < 1) by (apply Z.div_lt_upper_bound; lia). lia.
Qed.

Lemma minutes_range (secs : Z) : 0 <= (secs mod 3600) / 60 < 60.
Proof.
  pose proof (Z.mod_pos_bound secs 3600 ltac:(lia)) as B.
  split.
  - apply Z.div_pos; lia.
  - apply Z.div_lt_upper_bound; lia.
Qed.

End Duration.

(** C9. [duration] on two time stamps of the registry format gives
    ["H hrs M mins"] when at least one whole hour lies between them and
    ["M mins"] otherwise, with [M] below sixty; the two examples of the
    specification evaluate to ["1 hrs 5 mins"] and ["5 mins"]; and when a
    time stamp cannot be parsed the result is [None], returned normally. *)
Theorem duration_format :
  (forall (start_time finish_time : string) (w : world),
      match Datetime.strptime_rc start_time, Datetime.strptime_rc finish_time with
      | Some s, Some f =>
          let secs := Datetime.total_seconds f s in
          let H := secs / 3600 in
          let Mi := (secs mod 3600) / 60 in
          0 <= Mi < 60 /\
          (3600 <= secs ->
           1 <= H /\
           DaxProjectSettingsManager.duration start_time finish_time w
           = (Ok (Some (PyStr.of_Z H +:+ " hrs " +:+ PyStr.of_Z Mi +:+ " mins")), w)) /\
          (secs < 3600 ->
           DaxProjectSettingsManager.duration start_time finish_time w
           = (Ok (Some (PyStr.of_Z Mi +:+ " mins")), w))
      | _, _ =>
          exists entry,
            DaxProjectSettingsManager.duration start_time finish_time w
            = (Ok None, add_log entry w)
      end)
  /\ (forall w,
         DaxProjectSettingsManager.duration
           "2020-01-01 10:00:00" "2020-01-01 11:05:00" w
         = (Ok (Some "1 hrs 5 mins"), w))
  /\ (forall w,
         DaxProjectSettingsManager.duration
           "2020-01-01 10:00:00" "2020-01-01 10:05:00" w
         = (Ok (Some "5 mins"), w)).
Proof.
  split; [ | split; intros w; vm_compute; reflexivity ].
  intros start_time finish_time w.
  unfold DaxProjectSettingsManager.duration, try_except, bind,
    DaxProjectSettingsManager.strptime.
  destruct (Datetime.strptime_rc start_time) as [s | ] eqn:Hs;
    destruct (Datetime.strptime_rc finish_time) as [f | ] eqn:Hf; cbn.
  - split; [ apply minutes_range | ].
    rewrite hours_positive.
    split; intros Hsecs.
    + split; [ apply Z.div_le_lower_bound; lia | ].
      destruct (Z.leb_spec 3600 (Datetime.total_seconds f s)); [ reflexivity | lia ].
    + destruct (Z.leb_spec 3600 (Datetime.total_seconds f s)); [ lia | reflexivity ].
  - eexists. reflexivity.
  - eexists. reflexivity.
  - eexists. reflexivity.
Qed.

Lemma duration_format_witness :
  DaxProjectSettingsManager.duration
    "2021-03-01 08:15:00" "2021-03-02 09:45:30" (mkWorld ∅ [] [] [] O)
  = (Ok (Some "25 hrs 30 mins"), mkWorld ∅ [] [] [] O)
  /\ DaxProjectSettingsManager.duration
       "2021-03-01 08:15:00" "2021-03-01 08:59:59" (mkWorld ∅ [] [] [] O)
     = (Ok (Some "44 mins"), mkWorld ∅ [] [] [] O).
Proof.
  split.
  - pose proof (proj1 duration_format
                  "2021-03-01 08:15:00" "2021-03-02 09:45:30"
                  (mkWorld ∅ [] [] [] O)) as H.
    vm_compute in H. destruct H as [_ [H _]].
    apply H. intros Hc. discriminate Hc.
  - pose proof (proj1 duration_format
                  "2021-03-01 08:15:00" "2021-03-01 08:59:59"
                  (mkWorld ∅ [] [] [] O)) as H.
    vm_compute in H. destruct H as [_ [_ H]].
    apply H. reflexivity.
Defined.

Example duration_backwards (w : world) :
  DaxProjectSettingsManager.duration "2020-01-01 10:05:00" "2020-01-01 10:00:00" w
  = (Ok (Some "55 mins"), w).
Proof. vm_compute. reflexivity. Qed.

(** ** Lock files *)

(** Two texts at the edge of the format: a carriage return ends the first
    line, and a separator character after the process id is no white space
    for [int]. *)
Example lock_owner_carriage_return :
  Manager.lock_owner ("Node1-4242" +:+ String "013" "left-over-text")
  = Some ("Node1", 4242).
Proof. reflexivity. Qed.

Example lock_owner_separator :
  Manager.lock_owner ("Node1-4242" +:+ String "031" Sample.lf) = None.
Proof. reflexivity. Qed.

Section Reaping.

Variable E : env.

Lemma add_log_fs (e : log_entry) (w : world) : fs (add_log e w) = fs w.
Proof. reflexivity. Qed.

(** The verdicts in terms of what the file records. *)
Lemma judge_delete (file : string) (n : option node) :
  Lock.judge E file n = Lock.Delete
  <-> Lock.stale E n /\ remove_denied E file = false.
Proof.
  unfold Lock.judge, Lock.stale. split.
  - destruct n as [[content [ | ] | ] | ]; try discriminate.
    destruct (Manager.lock_owner content) as [[host pid] | ] eqn:Hown; try discriminate.
    destruct (String.eqb_spec host (Manager.this_host E)) as [-> | ]; try discriminate.
    destruct (os_kill E pid) as [ | | | e] eqn:Hk; try discriminate.
    + destruct (remove_denied E file) eqn:Hden; [ discriminate | ]. intros _.
      split; [ | reflexivity ]. exists content, pid.
      split; [ reflexivity | ]. split; [ apply lock_owner_records, Hown | exact Hk ].
    + destruct (exn_class e); discriminate.
  - intros [(content & pid & -> & Hrec & Hk) Hden].
    apply lock_owner_records in Hrec.
    rewrite Hrec, String.eqb_refl, Hk, Hden. reflexivity.
Qed.

Lemma judge_denied (file : string) (n : option node) :
  Lock.judge E file n = Lock.Denied -> remove_denied E file = true.
Proof.
  unfold Lock.judge.
  destruct n as [[content [ | ] | ] | ]; try discriminate.
  destruct (Manager.lock_owner content) as [[host pid] | ]; try discriminate.
  destruct (String.eqb host (Manager.this_host E)); try discriminate.
  destruct (os_kill E pid) as [ | | | e]; try discriminate.
  - destruct (remove_denied E file); [ reflexivity | discriminate ].
  - destruct (exn_class e); discriminate.
Qed.

(** What [check_lockfile] does, read off the node found at the path. *)
Lemma check_lockfile_judge (file : string) (w : world) :
  let r := Manager.check_lockfile E file w in
  fst r = match Lock.judge E file (fs w !! file) with
          | Lock.Fail e => Raise e
          | _ => Ok tt
          end
  /\ fs (snd r) = match Lock.judge E file (fs w !! file) with
                  | Lock.Delete => delete file (fs w)
                  | _ => fs w
                  end.
Proof.
  cbv zeta. unfold Manager.check_lockfile, try_except, bind, Sys.read_file, Lock.judge.
  destruct (fs w !! file) as [[content [ | ] | ] | ] eqn:Hn;
    try (split; reflexivity).
  unfold Manager.unpack2, Manager.int.
  pose proof (lock_owner_pid_nonneg content) as Hnonneg.
  unfold Manager.lock_owner in *.
  destruct (PyStr.split "-" (PyStr.readline content))
    as [ | host [ | pid_text [ | ? ?]]]; try (split; reflexivity).
  cbn [ret raise].
  destruct (PyStr.to_int pid_text) as [pid | ]; cbn [fmap option_fmap option_map];
    [ | split; reflexivity ].
  cbn [ret].
  destruct (String.eqb host (Manager.this_host E)); cbn [negb]; [ | split; reflexivity ].
  unfold Manager.pid_exists.
  specialize (Hnonneg host pid eq_refl).
  destruct (Z.ltb_spec pid 0) as [Hneg | _]; [ lia | ].
  destruct (os_kill E pid) as [ | | | e]; cbn [ret raise].
  - split; reflexivity.
  - unfold Manager.LOGGER, Sys.log, modify, Sys.remove. cbn. rewrite Hn.
    destruct (remove_denied E file); split; reflexivity.
  - split; reflexivity.
  - destruct (exn_class e); split; reflexivity.
Qed.

(** C3 (amended). A lock file examined by [check_lockfile] is deleted
    exactly when it can be read, its first line records the local short
    host name and a process id, [os.kill] reports that no such process
    exists, and the operating system carries out the removal.  What the
    first line records is said by [Lock.records], in terms of the text
    alone.  In every other case (unreadable or unparsable file, other
    host, process alive, permission denied or any other answer, removal
    refused) the file system is left as it was; no other file is ever
    touched. *)
Theorem check_lockfile_deletes (file : string) (w : world) (n : node) :
  fs w !! file = Some n ->
  let w' := snd (Manager.check_lockfile E file w) in
  (fs w' !! file = None <->
     exists content pid,
       n = RegularFile content true
       /\ Lock.records content (Manager.this_host E) pid
       /\ os_kill E pid = NoSuchProcess
       /\ remove_denied E file = false)
  /\ (fs w' !! file = None \/ fs w' = fs w)
  /\ (forall other, other <> file -> fs w' !! other = fs w !! other).
Proof.
  intros Hn w'. subst w'.
  destruct (check_lockfile_judge file w) as [_ Hfs].
  pose proof (judge_delete file (fs w !! file)) as Hdel.
  rewrite Hfs. clear Hfs.
  destruct (Lock.judge E file (fs w !! file)) eqn:Hj.
  2: { (* deleted *)
       destruct (proj1 Hdel eq_refl) as [(content & pid & Hc & Hrec & Hkill) Hden].
       rewrite Hn in Hc. injection Hc as ->.
       split; [ | split ].
       - split; [ intros _ | intros _; apply lookup_delete_eq ].
         exists content, pid. repeat split; assumption.
       - left. apply lookup_delete_eq.
       - intros other Hother. apply lookup_delete_ne. congruence. }
  all: split; [ | split; [ right; reflexivity | reflexivity ] ];
    (split; [ rewrite Hn; discriminate | ]);
    intros (content & pid & -> & Hrec & Hkill & Hden);
    enough (Hx : Lock.stale E (fs w !! file) /\ remove_denied E file = false)
      by (apply Hdel in Hx; discriminate Hx);
    (split; [ exists content, pid; rewrite Hn; repeat split; assumption | exact Hden ]).
Qed.

End Reaping.

Lemma check_lockfile_deletes_witness :
  fs (snd (Manager.check_lockfile Sample.E0 Sample.lock_A Sample.w_stale))
  !! Sample.lock_A = None.
Proof.
  apply (proj1 (check_lockfile_deletes Sample.E0 Sample.lock_A Sample.w_stale
                  (RegularFile ("Node1-4242" +:+ Sample.lf) true) eq_refl)).
  exists ("Node1-4242" +:+ Sample.lf), 4242.
  split; [ reflexivity | ].
  split; [ apply lock_owner_records; reflexivity | ].
  split; reflexivity.
Defined.

(** C3 as stated fails when the operating system refuses the removal: the
    lock below records this host and a process that is gone, and it is
    still there after [check_lockfile], which returns normally. *)
Lemma stale_lock_not_removable :
  Lock.records ("Node1-4242" +:+ Sample.lf) (Manager.this_host Lock.read_only) 4242
  /\ os_kill Lock.read_only 4242 = NoSuchProcess
  /\ fst (Manager.check_lockfile Lock.read_only Sample.lock_A Sample.w_stale) = Ok tt
  /\ fs (snd (Manager.check_lockfile Lock.read_only Sample.lock_A Sample.w_stale))
     !! Sample.lock_A
     = Some (RegularFile ("Node1-4242" +:+ Sample.lf) true).
Proof.
  split; [ apply lock_owner_records; reflexivity | ].
  split; [ reflexivity | ]. split; vm_compute; reflexivity.
Qed.

(** Locks that stay: permission denied, live process, other host, and a
    host name with a dash in it, which does not parse. *)
Example check_lockfile_keeps :
  fs (snd (Manager.check_lockfile Sample.E0 Sample.lock_A Sample.w_foreign))
  = fs Sample.w_foreign
  /\ fs (snd (Manager.check_lockfile Sample.E0 Sample.lock_A Sample.w_alive))
     = fs Sample.w_alive
  /\ fs (snd (Manager.check_lockfile Sample.E0 Sample.lock_A Sample.w_remote))
     = fs Sample.w_remote
  /\ fs (snd (Manager.check_lockfile Sample.E0 Sample.lock_A Sample.w_garbled))
     = fs Sample.w_garbled.
Proof. repeat split. Qed.

(** ** Which projects enter the catalog *)

Section ProjectNames.

Import Manager DaxProjectSettingsManager.

Variable E : env.

(** The first loop of [project_names]: the records of this instance. *)
Lemma instance_filter (field this : string) (plist acc out : list row) (w w' : world) :
  fold_m plist acc
    (fun acc x =>
       instance <- item x field ;;
       ret (if String.eqb instance this then (acc ++ [x])%list else acc)) w
  = (Ok out, w') ->
  w' = w /\
  forall x, In x out <-> In x acc \/ (In x plist /\ row_get field x = Some this).
Proof.
  revert acc. induction plist as [ | y plist IH]; intros acc; simpl.
  - intros [= <- <-]. split; [ reflexivity | ]. intros x. tauto.
  - unfold bind at 1. unfold bind at 1. unfold item at 1.
    destruct (row_get field y) as [v | ] eqn:Hy; cbn [ret raise]; [ | discriminate ].
    intros H. apply IH in H. destruct H as [-> H]. split; [ reflexivity | ].
    intros x. rewrite H.
    destruct (String.eqb_spec v this) as [-> | Hne].
    + rewrite in_app_iff. simpl. split.
      * intros [[Hx | [<- | []]] | [Hx Hf]]; eauto.
      * intros [Hx | [[<- | Hx] Hf]]; eauto.
    + split.
      * intros [Hx | [Hx Hf]]; eauto.
      * intros [Hx | [[<- | Hx] Hf]]; eauto. congruence.
Qed.

(** The second loop: the names of the records marked complete. *)
Lemma complete_names (cfield nfield : string) (plist : list row)
      (acc out : list string) (w w' : world) :
  fold_m plist acc
    (fun acc x =>
       complete <- item x cfield ;;
       if String.eqb complete "Complete"
       then name <- item x nfield ;; ret (acc ++ [name])%list
       else ret acc) w
  = (Ok out, w') ->
  w' = w /\
  forall n, In n out <->
            In n acc \/ exists x, In x plist
                                  /\ row_get cfield x = Some "Complete"
                                  /\ row_get nfield x = Some n.
Proof.
  revert acc. induction plist as [ | y plist IH]; intros acc; simpl.
  - intros [= <- <-]. split; [ reflexivity | ]. intros n. split; [ tauto | ].
    intros [H | (x & [] & _)]. assumption.
  - unfold bind at 1. unfold bind at 1. unfold item at 1.
    destruct (row_get cfield y) as [c | ] eqn:Hc; cbn [ret raise]; [ | discriminate ].
    destruct (String.eqb_spec c "Complete") as [-> | Hne].
    + unfold bind at 1. unfold item at 1.
      destruct (row_get nfield y) as [m | ] eqn:Hm; cbn [ret raise]; [ | discriminate ].
      intros H. apply IH in H. destruct H as [-> H]. split; [ reflexivity | ].
      intros n. rewrite H, in_app_iff. simpl. split.
      * intros [[Hn | [<- | []]] | (x & Hx & Hxc & Hxn)]; eauto 7.
      * intros [Hn | (x & [<- | Hx] & Hxc & Hxn)]; eauto 7.
        left. right. left. congruence.
    + intros H. apply IH in H. destruct H as [-> H]. split; [ reflexivity | ].
      intros n. rewrite H. split.
      * intros [Hn | (x & Hx & Hxc & Hxn)]; eauto 7.
      * intros [Hn | (x & [<- | Hx] & Hxc & Hxn)]; eauto 7. congruence.
Qed.

(** C4 (amended). When [project_names] returns, a name is in its result
    exactly when some exported record carries that name, has as its
    instance the string [user@host] with the host name cut at its first
    dot and otherwise unchanged (no change of letter case), and has the
    status label ["Complete"]. *)
Theorem project_names_filter (self : DaxProjectSettingsManager.t)
        (w w' : world) (names : list string) :
  project_names E self w = (Ok names, w') ->
  w' = w /\
  exists user plist,
    environ_USER E = Some user
    /\ export_fields E (imports w)
         ["project_name"; "gen_daxinstance"; general_form self +:+ "_complete"]
         None true = Ok plist
    /\ forall name,
         In name names <->
         exists x, In x plist
                   /\ row_get "project_name" x = Some name
                   /\ row_get "gen_daxinstance" x
                      = Some (user +:+ "@" +:+ hd "" (PyStr.split "." (gethostname E)))
                   /\ row_get (general_form self +:+ "_complete") x = Some "Complete".
Proof.
  unfold project_names, export_records_fields, get_this_instance.
  unfold bind at 1.
  destruct (export_fields E (imports w) _ None true) as [plist | e] eqn:Hexp;
    [ | discriminate ].
  unfold bind at 1.
  destruct (environ_USER E) as [user | ] eqn:Huser; cbn [ret raise]; [ | discriminate ].
  unfold bind at 1.
  match goal with
  | |- context [fold_m plist [] ?body w] =>
      destruct (fold_m plist [] body w) as [[mine | e] w1] eqn:Hfirst
  end; [ | discriminate ].
  apply instance_filter in Hfirst. destruct Hfirst as [-> Hmine].
  intros Hsecond. apply complete_names in Hsecond. destruct Hsecond as [-> Hnames].
  split; [ reflexivity | ].
  exists user, plist. repeat split; try reflexivity.
  - rewrite Hnames. intros [[] | (x & Hx & Hc & Hn)].
    apply Hmine in Hx. destruct Hx as [[] | [Hx Hi]].
    exists x. unfold this_host in Hi. tauto.
  - intros (x & Hx & Hn & Hi & Hc). apply Hnames. right.
    exists x. split; [ | tauto ]. apply Hmine. right. unfold this_host. tauto.
Qed.

End ProjectNames.

Lemma project_names_filter_witness :
  In "ALPHA" ["ALPHA"] <->
  exists x, In x Sample.projects0
            /\ Manager.row_get "project_name" x = Some "ALPHA"
            /\ Manager.row_get "gen_daxinstance" x = Some "dax@Node1"
            /\ Manager.row_get "general_complete" x = Some "Complete".
Proof.
  destruct (project_names_filter Sample.E0 Sample.manager0 Sample.w_empty
              Sample.w_empty ["ALPHA"] eq_refl) as (_ & user & plist & Hu & Hp & H).
  injection Hu as <-. injection Hp as <-. exact (H "ALPHA").
Defined.

(** C4 as stated fails: on a host named [Node1], project [ALPHA] enters the
    catalog although no record of that name carries the identity with the
    lowercased host name. *)
Lemma project_names_keeps_case :
  fst (DaxProjectSettingsManager.project_names Sample.E0 Sample.manager0 Sample.w_empty)
  = Ok ["ALPHA"]
  /\ Manager.spec_identity Sample.E0 = Some "dax@node1"
  /\ forall x, In x Sample.projects0 ->
               Manager.row_get "project_name" x = Some "ALPHA" ->
               Manager.row_get "gen_daxinstance" x <> Manager.spec_identity Sample.E0.
Proof.
  split; [ reflexivity | ]. split; [ reflexivity | ].
  intros x [<- | [<- | [<- | []]]]; vm_compute; intros H1 H2;
    (discriminate H1 || discriminate H2).
Qed.

(** ** The documents of the catalog and the keys a stage requires *)

Section CatalogKeys.

Import Manager DaxProjectSettingsManager.

Variable E : env.

(** The general section always has the same four keys. *)
Lemma general_defaults_shape (self : DaxProjectSettingsManager.t)
      (w w' : world) (g : Py.dict) :
  general_defaults self w = (Ok g, w') ->
  exists a b c d, g = [ (PStr "processorlib", a); (PStr "modulelib", b);
                        (PStr "singularity_imagedir", c); (PStr "attrs", d) ].
Proof.
  unfold general_defaults, bind, item, int.
  repeat match goal with
         | |- context [match ?x with Some _ => _ | None => _ end] =>
             destruct x; cbn [ret raise]; try discriminate
         end.
  intros [= <- <-]. eauto.
Qed.

(** C2. Every document built from the general section of
    [general_defaults] has the keys [projects], [attrs], [modules] and
    [yamlprocessors] but not [processors], whatever modules, processors
    and projects were added, and [check_default_keys] rejects it with a
    [DaxError]: the catalog does not write documents with all five
    required keys. *)
Theorem dump_lacks_processors (self : DaxProjectSettingsManager.t)
        (w w' : world) (g : Py.dict)
        (processors modules projects : list pyval) (yaml_file : string) :
  general_defaults self w = (Ok g, w') ->
  let doc := DaxProjectSettings.dump
               (DaxProjectSettings.mk g processors modules projects) in
  Py.has_key (PStr "projects") doc = true
  /\ Py.has_key (PStr "attrs") doc = true
  /\ Py.has_key (PStr "modules") doc = true
  /\ Py.has_key (PStr "yamlprocessors") doc = true
  /\ Py.has_key (PStr "processors") doc = false
  /\ Bin.check_default_keys yaml_file (PDict doc)
     = Raise (new_exn DaxError
                ("YAML File " +:+ yaml_file
                 +:+ " does not have processors defined. See example.")).
Proof.
  intros Hg. apply general_defaults_shape in Hg.
  destruct Hg as (a & b & c & d & ->).
  cbv zeta. repeat split; reflexivity.
Qed.

End CatalogKeys.

Lemma dump_lacks_processors_witness :
  Bin.check_default_keys "/settings/settings-ALPHA.yaml"
    (PDict (DaxProjectSettings.dump
              (DaxProjectSettings.mk
                 [ (PStr "processorlib", PStr "/lib/processors");
                   (PStr "modulelib", PStr "/lib/modules");
                   (PStr "singularity_imagedir", PStr "/images");
                   (PStr "attrs",
                    PDict [ (PStr "queue_limit", PInt 20);
                            (PStr "job_email_options", PStr "FAIL");
                            (PStr "xnat_host", PStr "https://xnat.example.org") ]) ]
                 [] [] [])))
  = Raise (new_exn DaxError
             "YAML File /settings/settings-ALPHA.yaml does not have processors defined. See example.").
Proof.
  exact (proj2 (proj2 (proj2 (proj2 (proj2
    (dump_lacks_processors Sample.manager0 Sample.w_empty Sample.w_empty _
       [] [] [] "/settings/settings-ALPHA.yaml" eq_refl)))))).
Defined.

(** ** Validation of a settings document *)

Section RequiredKeys.

Variable E : env.

Lemma check_keys_missing (yaml_file : string) (d : Py.dict) (ks : list string)
      (key : string) :
  In key ks -> Py.has_key (PStr key) d = false ->
  exists e, Bin.check_keys yaml_file (PDict d) ks = Raise e
            /\ exn_class e = DaxError.
Proof.
  induction ks as [ | k ks IH]; intros Hin Hmiss; [ destruct Hin | ].
  cbn [Bin.check_keys Bin.raise_yaml_error_if_no_key].
  destruct (Py.has_key (PStr k) d) eqn:Hk; cbn [negb].
  - destruct Hin as [-> | Hin]; [ congruence | ]. apply IH; assumption.
  - eexists. split; reflexivity.
Qed.

Lemma check_keys_present (yaml_file : string) (d : Py.dict) (ks : list string) :
  (forall key, In key ks -> Py.has_key (PStr key) d = true) ->
  Bin.check_keys yaml_file (PDict d) ks = Ok tt.
Proof.
  induction ks as [ | k ks IH]; intros Hall; [ reflexivity | ].
  cbn [Bin.check_keys Bin.raise_yaml_error_if_no_key].
  rewrite (Hall k) by (left; reflexivity). cbn [negb].
  apply IH. intros key Hkey. apply Hall. right. assumption.
Qed.

(** The check of the keys comes right after the document is read: when
    it fails, [read_yaml_settings] stops there with its fault. *)
Lemma read_yaml_settings_stops (yaml_file content : string)
      (lg : Bin.logger) (w : world) (d : Py.dict) (e : exn) :
  fs w !! yaml_file = Some (RegularFile content true) ->
  yaml_load E content = YamlDoc (PDict d) ->
  Bin.check_keys yaml_file (PDict d) Bin.required_keys = Raise e ->
  Bin.read_yaml_settings E yaml_file lg w = (Raise e, w).
Proof.
  intros Hfile Hload He.
  unfold Bin.read_yaml_settings, bind at 1, gets, Sys.isfile.
  rewrite Hfile. cbn [negb].
  unfold bind at 1, Sys.read_file. rewrite Hfile.
  unfold bind at 1. rewrite Hload. cbn [ret].
  unfold bind at 1, lift_res, Bin.check_default_keys. rewrite He. reflexivity.
Qed.

(** C8 (amended). When the document read from a settings file is a
    mapping that lacks one of the five required keys, [read_yaml_settings]
    raises a [DaxError] and leaves the world as it found it: no module or
    processor file has been handed to [load_from_file], and no launcher is
    built. *)
Theorem read_yaml_settings_missing_key (yaml_file content : string)
        (lg : Bin.logger) (w : world) (d : Py.dict) (key : string) :
  fs w !! yaml_file = Some (RegularFile content true) ->
  yaml_load E content = YamlDoc (PDict d) ->
  In key Bin.required_keys ->
  Py.has_key (PStr key) d = false ->
  exists e,
    Bin.read_yaml_settings E yaml_file lg w = (Raise e, w)
    /\ exn_class e = DaxError
    /\ loaded (snd (Bin.read_yaml_settings E yaml_file lg w)) = loaded w.
Proof.
  intros Hfile Hload Hin Hmiss.
  destruct (check_keys_missing yaml_file d _ key Hin Hmiss) as (e & He & Hclass).
  exists e.
  rewrite (read_yaml_settings_stops yaml_file content lg w d e Hfile Hload He).
  repeat split; assumption.
Qed.

(** A document that is not a mapping (an empty file, a list) has no
    [keys] method: the check fails with an [AttributeError], again before
    anything is loaded. *)
Lemma read_yaml_settings_no_mapping (yaml_file content : string)
      (lg : Bin.logger) (w : world) (doc : pyval) :
  fs w !! yaml_file = Some (RegularFile content true) ->
  yaml_load E content = YamlDoc doc ->
  (forall d, doc <> PDict d) ->
  exists e,
    Bin.read_yaml_settings E yaml_file lg w = (Raise e, w)
    /\ exn_class e = AttributeError.
Proof.
  intros Hfile Hload Hdoc.
  unfold Bin.read_yaml_settings, bind at 1, gets, Sys.isfile.
  rewrite Hfile. cbn [negb].
  unfold bind at 1, Sys.read_file. rewrite Hfile.
  unfold bind at 1. rewrite Hload. cbn [ret].
  unfold bind at 1, lift_res, Bin.check_default_keys.
  destruct doc as [ | s | z | l | d]; try (eexists; split; reflexivity).
  destruct (Hdoc d eq_refl).
Qed.

(** The fault leaves the stage that asked for the settings: the entry
    points read the settings before they enter their [try] block. *)
Lemma update_aborts_on_missing_key (settings_path logfile content : string)
      (debug : bool) (w : world) (d : Py.dict) (key : string) :
  PyStr.endswith ".py" settings_path = false ->
  PyStr.endswith ".yaml" settings_path = true ->
  fs w !! settings_path = Some (RegularFile content true) ->
  yaml_load E content = YamlDoc (PDict d) ->
  In key Bin.required_keys ->
  Py.has_key (PStr key) d = false ->
  exists e w',
    Bin.update_tasks E settings_path logfile debug w = (Raise e, w')
    /\ exn_class e = DaxError
    /\ fs w' = fs w /\ loaded w' = loaded w /\ imports w' = imports w.
Proof.
  intros Hpy Hyaml Hfile Hload Hin Hmiss.
  unfold Bin.update_tasks, bind at 1, Bin.read_settings.
  unfold bind at 1, Bin.info, Bin.emit, Sys.log, modify. cbn [fst snd].
  unfold bind at 1. unfold bind at 1. unfold bind at 1.
  rewrite Hpy, Hyaml.
  destruct (check_keys_missing settings_path d _ key Hin Hmiss) as (e & He & Hclass).
  match goal with
  | |- context [Bin.read_yaml_settings E settings_path ?lg ?v] =>
      rewrite (read_yaml_settings_stops settings_path content lg v d e);
        try assumption
  end.
  exists e. eexists. split; [ reflexivity | ].
  repeat split; assumption || reflexivity.
Qed.

End RequiredKeys.

Lemma read_yaml_settings_missing_key_witness :
  exists e,
    Bin.read_yaml_settings Sample.E0 Sample.settings_A
      (Bin.set_logger "/logs/update.log" true) Sample.w_settings
    = (Raise e, Sample.w_settings)
    /\ exn_class e = DaxError
    /\ loaded (snd (Bin.read_yaml_settings Sample.E0 Sample.settings_A
                      (Bin.set_logger "/logs/update.log" true) Sample.w_settings))
       = loaded Sample.w_settings.
Proof.
  apply (read_yaml_settings_missing_key Sample.E0 Sample.settings_A "---"
           (Bin.set_logger "/logs/update.log" true) Sample.w_settings
           (DaxProjectSettings.dump Sample.settings_alpha) "processors").
  - vm_compute. reflexivity.
  - reflexivity.
  - vm_compute. tauto.
  - vm_compute. reflexivity.
Defined.

(** C8 as stated fails for a document that is not a mapping.  A settings
    file that holds nothing but the document marker is read as [None]: all
    five keys are missing, and the check stops with an [AttributeError],
    not with a [DaxError]; nothing has been loaded. *)
Lemma read_yaml_settings_empty_document :
  yaml_load Settings.E_blank "---" = YamlDoc PNone
  /\ exists e,
       Bin.read_yaml_settings Settings.E_blank Sample.settings_A
         (Bin.set_logger "/logs/update.log" true) Sample.w_settings
       = (Raise e, Sample.w_settings)
       /\ exn_class e = AttributeError.
Proof.
  split; [ reflexivity | ].
  apply (read_yaml_settings_no_mapping Settings.E_blank Sample.settings_A "---"
           (Bin.set_logger "/logs/update.log" true) Sample.w_settings PNone).
  - vm_compute. reflexivity.
  - reflexivity.
  - discriminate.
Qed.

(** A complete document is read to the end: its module file is loaded. *)
Example read_yaml_settings_loads :
  loaded (snd (Bin.read_yaml_settings Sample.E_full Sample.settings_A
                 (Bin.set_logger "/logs/update.log" true) Sample.w_settings))
  = [PStr "/lib/modules/module_dcm2nii.py"].
Proof. vm_compute. reflexivity. Qed.

(** ** Faults of the update and launch stages *)

Section StageFaults.

Variable E : env.

(** A fault with a [message] attribute is caught, logged twice at
    [CRITICAL] with its class and message, and the lock file of the stage
    is deleted; the call then returns normally. *)
Lemma update_fault_released (settings_path logfile : string) (debug : bool)
      (w w1 w2 : world) (launcher : pyval) (e : exn) (m : string) :
  Bin.read_settings E settings_path (Bin.set_logger logfile debug) "update_tasks" w
  = (Ok launcher, w1) ->
  launcher_update_tasks E launcher (Bin.lockfile_prefix_of settings_path) w1
  = (Raise e, w2) ->
  exn_message e = Some m ->
  exists w3,
    Bin.update_tasks E settings_path logfile debug w = (Ok tt, w3)
    /\ fs w3 = delete (Bin.flag_path E (Bin.lockfile_prefix_of settings_path)
                                      (UPDATE_SUFFIX E)) (fs w2)
    /\ exists rest,
         logs w3 = (logs w2 ++
           [ mkLog "dax" (Some logfile) CRITICAL
               "Caught exception updating tasks in bin.update_tasks";
             mkLog "dax" (Some logfile) CRITICAL
               ("Exception Class " +:+ Bin.class_repr e +:+ " with message " +:+ m) ]
           ++ rest)%list.
Proof.
  intros Hread Hfault Hm.
  unfold Bin.update_tasks, bind at 1. rewrite Hread.
  unfold bind at 1, try_except. rewrite Hfault.
  unfold Bin.get_message. rewrite Hm.
  eexists. split; [ reflexivity | ]. split; [ reflexivity | ].
  cbn. rewrite <- !app_assoc. cbn. eexists. reflexivity.
Qed.

Lemma launch_fault_released (settings_path logfile : string) (debug : bool)
      (w w1 w2 : world) (launcher : pyval) (e : exn) (m : string) :
  Bin.read_settings E settings_path (Bin.set_logger logfile debug) "launch_jobs" w
  = (Ok launcher, w1) ->
  launcher_launch_jobs E launcher (Bin.lockfile_prefix_of settings_path) w1
  = (Raise e, w2) ->
  exn_message e = Some m ->
  exists w3,
    Bin.launch_jobs E settings_path logfile debug w = (Ok tt, w3)
    /\ fs w3 = delete (Bin.flag_path E (Bin.lockfile_prefix_of settings_path)
                                      (LAUNCH_SUFFIX E)) (fs w2)
    /\ exists rest,
         logs w3 = (logs w2 ++
           [ mkLog "dax" (Some logfile) CRITICAL
               "Caught exception launching jobs in bin.launch_jobs";
             mkLog "dax" (Some logfile) CRITICAL
               ("Exception Class " +:+ Bin.class_repr e +:+ " with message " +:+ m) ]
           ++ rest)%list.
Proof.
  intros Hread Hfault Hm.
  unfold Bin.launch_jobs, bind at 1. rewrite Hread.
  unfold bind at 1, try_except. rewrite Hfault.
  unfold Bin.get_message. rewrite Hm.
  eexists. split; [ reflexivity | ]. split; [ reflexivity | ].
  cbn. rewrite <- !app_assoc. cbn. eexists. reflexivity.
Qed.

(** C5. For a fault without a [message] attribute (every built-in
    exception of Python 3) the handler of a stage does not get as far as
    C5 describes: after the first critical record it raises
    [AttributeError] itself on [e.message], so the call does not return
    normally and [unlock_flagfile] is never reached: the file system is
    as the launcher left it.  This holds for [update_tasks] and for
    [launch_jobs]. *)
Theorem stage_fault_handler_fails (settings_path logfile : string) (debug : bool)
        (w w1 w2 : world) (launcher : pyval) (e : exn) :
  exn_message e = None ->
  (Bin.read_settings E settings_path (Bin.set_logger logfile debug) "update_tasks" w
   = (Ok launcher, w1) ->
   launcher_update_tasks E launcher (Bin.lockfile_prefix_of settings_path) w1
   = (Raise e, w2) ->
   exists w3,
     Bin.update_tasks E settings_path logfile debug w
     = (Raise (Bin.no_message_error e), w3)
     /\ fs w3 = fs w2)
  /\
  (Bin.read_settings E settings_path (Bin.set_logger logfile debug) "launch_jobs" w
   = (Ok launcher, w1) ->
   launcher_launch_jobs E launcher (Bin.lockfile_prefix_of settings_path) w1
   = (Raise e, w2) ->
   exists w3,
     Bin.launch_jobs E settings_path logfile debug w
     = (Raise (Bin.no_message_error e), w3)
     /\ fs w3 = fs w2).
Proof.
  intros Hm. split; intros Hread Hfault.
  - unfold Bin.update_tasks, bind at 1. rewrite Hread.
    unfold bind at 1, try_except. rewrite Hfault.
    unfold Bin.get_message. rewrite Hm.
    eexists. split; reflexivity.
  - unfold Bin.launch_jobs, bind at 1. rewrite Hread.
    unfold bind at 1, try_except. rewrite Hfault.
    unfold Bin.get_message. rewrite Hm.
    eexists. split; reflexivity.
Qed.

End StageFaults.

Lemma stage_fault_handler_fails_witness :
  (exists w3,
      Bin.update_tasks Sample.E_update_fails Sample.settings_A "/logs/update.log" true
        Sample.w_settings
      = (Raise (Bin.no_message_error (new_exn ValueError "boom")), w3)
      /\ fs w3 !! "/res/FlagFiles/settings-ALPHA_UPDATE_RUNNING.txt"
         = Some (RegularFile ("Node1-100" +:+ Sample.lf) true))
  /\ (exists w3,
         Bin.launch_jobs Sample.E_launch_fails Sample.settings_A "/logs/launch.log" true
           Sample.w_settings
         = (Raise (Bin.no_message_error (new_exn KeyError "scan")), w3)
         /\ fs w3 !! "/res/FlagFiles/settings-ALPHA_LAUNCHER_RUNNING.txt"
            = Some (RegularFile ("Node1-100" +:+ Sample.lf) true)).
Proof.
  split.
  - pose (r := Bin.read_settings Sample.E_update_fails Sample.settings_A
                 (Bin.set_logger "/logs/update.log" true) "update_tasks"
                 Sample.w_settings).
    pose (l := match fst r with Ok l => l | Raise _ => PNone end).
    destruct (proj1 (stage_fault_handler_fails Sample.E_update_fails
                       Sample.settings_A "/logs/update.log" true Sample.w_settings
                       (snd r)
                       (snd (launcher_update_tasks Sample.E_update_fails l
                               "settings-ALPHA" (snd r)))
                       l (new_exn ValueError "boom") eq_refl))
      as (w3 & Hrun & Hfs).
    + vm_compute. reflexivity.
    + vm_compute. reflexivity.
    + exists w3. split; [ exact Hrun | ]. rewrite Hfs. vm_compute. reflexivity.
  - pose (r := Bin.read_settings Sample.E_launch_fails Sample.settings_A
                 (Bin.set_logger "/logs/launch.log" true) "launch_jobs"
                 Sample.w_settings).
    pose (l := match fst r with Ok l => l | Raise _ => PNone end).
    destruct (proj2 (stage_fault_handler_fails Sample.E_launch_fails
                       Sample.settings_A "/logs/launch.log" true Sample.w_settings
                       (snd r)
                       (snd (launcher_launch_jobs Sample.E_launch_fails l
                               "settings-ALPHA" (snd r)))
                       l (new_exn KeyError "scan") eq_refl))
      as (w3 & Hrun & Hfs).
    + vm_compute. reflexivity.
    + vm_compute. reflexivity.
    + exists w3. split; [ exact Hrun | ]. rewrite Hfs. vm_compute. reflexivity.
Defined.

(** ** Bookkeeping of a build *)

Section Bookkeeping.

Import Manager DaxProjectSettingsManager.

Variable E : env.

(** When [set_last_build_start] returns, the registry has acknowledged
    one more record: the start time read from the clock. *)
Lemma set_last_build_start_inv (project : string) (w w1 : world) :
  set_last_build_start E project w = (Ok tt, w1) ->
  exists r,
    imports w1 = (imports w ++
      [mkImport (start_record project (Datetime.strftime_rc (clock E (ticks w))))
                (Ok r)])%list
    /\ has_count r = Ok true
    /\ fs w1 = fs w.
Proof.
  unfold set_last_build_start, bind at 1, Sys.now.
  unfold bind at 1, LOGGER, Sys.log, modify.
  unfold try_except, bind at 1, import_records. cbn [imports add_log tick].
  destruct (import_response E (imports w) _) as [r | e] eqn:Hr.
  - unfold bind at 1, lift_res.
    destruct (has_count r) as [[ | ] | e] eqn:Hc; cbn.
    + intros [= <-]. exists r. cbn. repeat split; assumption.
    + discriminate.
    + destruct (exn_class e); discriminate.
  - cbn. destruct (exn_class e); discriminate.
Qed.

(** When [set_last_build_complete] returns, the registry has acknowledged
    one more record: the start time it holds for the project, the finish
    time read from the clock and the duration between the two. *)
Lemma set_last_build_complete_inv (project : string) (w w3 : world) :
  set_last_build_complete E project w = (Ok tt, w3) ->
  exists rec recs last_start last_duration r,
    let last_finish := Datetime.strftime_rc (clock E (ticks w)) in
    export_fields E (imports w) ["build_laststarttime"] (Some project) false
    = Ok (rec :: recs)
    /\ row_get "build_laststarttime" rec = Some last_start
    /\ fst (duration last_start last_finish w) = Ok last_duration
    /\ imports w3 = (imports w ++
         [mkImport (complete_record project last_start last_finish last_duration)
                   (Ok r)])%list
    /\ has_count r = Ok true
    /\ fs w3 = fs w.
Proof.
  unfold set_last_build_complete, bind at 1, Sys.now.
  unfold bind at 1, get_last_start_time, bind at 1, export_records_fields.
  cbn [imports tick].
  destruct (export_fields E (imports w) _ _ _) as [recs | e] eqn:Hexp; [ | discriminate ].
  unfold bind at 1, first.
  destruct recs as [ | rec recs]; cbn [ret raise]; [ discriminate | ].
  unfold item.
  destruct (row_get "build_laststarttime" rec) as [last_start | ] eqn:Hls;
    cbn [ret raise]; [ | discriminate ].
  unfold bind at 1.
  set (last_finish := Datetime.strftime_rc (clock E (ticks w))).
  assert (Hdur : forall v,
             exists ls, duration last_start last_finish v
                        = (fst (duration last_start last_finish w),
                           mkWorld (fs v) (imports v) (logs v ++ ls)%list
                                   (loaded v) (ticks v))).
  { intros v. unfold duration, try_except, bind, strptime.
    destruct (Datetime.strptime_rc last_finish);
      [ destruct (Datetime.strptime_rc last_start) | ]; cbn.
    - match goal with |- context [if ?c then _ else _] => destruct c end;
        exists []; cbn; rewrite app_nil_r; destruct v; reflexivity.
    - eexists [_]. reflexivity.
    - eexists [_]. reflexivity. }
  destruct (Hdur (tick w)) as [ls Hd]. rewrite Hd. clear Hd Hdur.
  destruct (fst (duration last_start last_finish w)) as [last_duration | e] eqn:Hd;
    [ | discriminate ].
  unfold bind at 1, LOGGER, Sys.log, modify.
  unfold try_except, bind at 1, import_records. cbn [imports add_log tick].
  destruct (import_response E (imports w) _) as [r | e] eqn:Hr.
  - unfold bind at 1, lift_res.
    destruct (has_count r) as [[ | ] | e] eqn:Hc; cbn.
    + intros [= <-].
      exists rec, recs, last_start, last_duration, r. cbn.
      repeat split; try assumption; reflexivity.
    + discriminate.
    + destruct (exn_class e); discriminate.
  - cbn. destruct (exn_class e); discriminate.
Qed.

(** The registry decides: an acknowledged import makes
    [set_last_build_start] return, anything else makes it raise a
    [DaxManagerError]. *)
Lemma set_last_build_start_ok (project : string) (w : world) (r : pyval) :
  import_response E (imports w)
    (start_record project (Datetime.strftime_rc (clock E (ticks w)))) = Ok r ->
  has_count r = Ok true ->
  exists w1, set_last_build_start E project w = (Ok tt, w1).
Proof.
  intros Hr Hc.
  unfold set_last_build_start, bind at 1, Sys.now.
  unfold bind at 1, LOGGER, Sys.log, modify.
  unfold try_except, bind at 1, import_records. cbn [imports add_log tick].
  rewrite Hr. unfold bind at 1, lift_res. rewrite Hc. eexists. reflexivity.
Qed.

Lemma set_last_build_start_total (project : string) (w : world) :
  exists r w1,
    set_last_build_start E project w = (r, w1)
    /\ match r with
       | Ok _ => True
       | Raise e => exn_class e = DaxManagerError
       end.
Proof.
  unfold set_last_build_start, bind at 1, Sys.now.
  unfold bind at 1, LOGGER, Sys.log, modify.
  unfold try_except, bind at 1, import_records. cbn [imports add_log tick].
  destruct (import_response E (imports w) _) as [r | e].
  - unfold bind at 1, lift_res.
    destruct (has_count r) as [[ | ] | e]; cbn.
    + eexists _, _. split; [ reflexivity | exact I ].
    + eexists _, _. split; [ reflexivity | reflexivity ].
    + destruct (exn_class e); eexists _, _; (split; [ reflexivity | reflexivity ]).
  - cbn. destruct (exn_class e); eexists _, _; (split; [ reflexivity | reflexivity ]).
Qed.

End Bookkeeping.

Section RunBuild.

Import Manager DaxProjectSettingsManager.

Variable E : env.

Lemma run_build_unlocked (self : DaxManager.t)
      (project settings_file log_file : string)
      (lastrun : option Datetime.datetime) (w : world) :
  Sys.isfile (DaxManager.build_lock E settings_file) w = false ->
  DaxManager.run_build E self project settings_file log_file lastrun w
  = (set_last_build_start E project ;;
     Bin.build E settings_file log_file true (Some [(project, lastrun)]) ;;
     set_last_build_complete E project ;;
     LOGGER INFO ("run_build:done:" +:+ project))
      (DaxManager.entered E project settings_file lastrun w).
Proof.
  intros Hfree.
  unfold DaxManager.run_build, bind at 1, is_locked, bind at 1, LOGGER, Sys.log,
    modify, gets.
  change (Sys.isfile _ (add_log ?e w)) with (Sys.isfile (DaxManager.build_lock E settings_file) w).
  rewrite Hfree. reflexivity.
Qed.

(** C6. A build whose lock file exists is skipped: [run_build] returns
    after a warning and sends nothing to the registry.  A build whose lock
    file is absent first has its start time acknowledged by the registry
    (a record of the project with the time read from the clock under
    [build_laststarttime] and status ['1']), then calls [dax.bin.build]
    with the settings file and the map from the project to its last run,
    and when that call returns it has the finish acknowledged: a record of
    the project with the start time the registry then holds for it, the
    finish time read from the clock, the duration between the two and
    status ['2']. *)
Theorem run_build_skips_or_records (self : DaxManager.t)
        (project settings_file log_file : string)
        (lastrun : option Datetime.datetime) (w : world) :
  (Sys.isfile (DaxManager.build_lock E settings_file) w = true ->
   exists w',
     DaxManager.run_build E self project settings_file log_file lastrun w = (Ok tt, w')
     /\ imports w' = imports w
     /\ fs w' = fs w
     /\ In (mkLog "manager" None WARNING
              ("cannot build, lock exists:" +:+ settings_file)) (logs w'))
  /\
  (Sys.isfile (DaxManager.build_lock E settings_file) w = false ->
   forall w1 w2 w3,
     set_last_build_start E project (DaxManager.entered E project settings_file lastrun w)
     = (Ok tt, w1) ->
     Bin.build E settings_file log_file true (Some [(project, lastrun)]) w1
     = (Ok tt, w2) ->
     set_last_build_complete E project w2 = (Ok tt, w3) ->
     exists w' r1 r2 rec recs last_start last_duration,
       let started := Datetime.strftime_rc (clock E (ticks w)) in
       let finished := Datetime.strftime_rc (clock E (ticks w2)) in
       DaxManager.run_build E self project settings_file log_file lastrun w
       = (Ok tt, w')
       /\ imports w1
          = (imports w ++
             [mkImport [ ("project_name", Some project);
                         ("build_laststarttime", Some started);
                         ("build_status_complete", Some "1") ]
                       (Ok r1)])%list
       /\ has_count r1 = Ok true
       /\ export_fields E (imports w2) ["build_laststarttime"] (Some project) false
          = Ok (rec :: recs)
       /\ row_get "build_laststarttime" rec = Some last_start
       /\ fst (duration last_start finished w2) = Ok last_duration
       /\ imports w'
          = (imports w2 ++
             [mkImport [ ("project_name", Some project);
                         ("build_lastcompletestarttime", Some last_start);
                         ("build_lastcompletefinishtime", Some finished);
                         ("build_lastcompleteduration", last_duration);
                         ("build_status_complete", Some "2") ]
                       (Ok r2)])%list
       /\ has_count r2 = Ok true).
Proof.
  split.
  - intros Hlocked.
    unfold DaxManager.run_build, bind at 1, is_locked, bind at 1, LOGGER, Sys.log,
      modify, gets.
    change (Sys.isfile _ (add_log ?e w)) with (Sys.isfile (DaxManager.build_lock E settings_file) w).
    rewrite Hlocked. eexists. split; [ reflexivity | ].
    cbn. repeat split. apply in_or_app. right. left. reflexivity.
  - intros Hfree w1 w2 w3 Hstart Hbuild Hcomplete.
    rewrite (run_build_unlocked _ _ _ _ _ _ Hfree).
    unfold bind at 1. rewrite Hstart.
    unfold bind at 1. rewrite Hbuild.
    unfold bind at 1. rewrite Hcomplete.
    apply set_last_build_start_inv in Hstart.
    destruct Hstart as (r1 & Himp1 & Hc1 & _).
    apply set_last_build_complete_inv in Hcomplete.
    destruct Hcomplete
      as (rec & recs & last_start & last_duration & r2 & Hexp & Hls & Hd & Himp3 & Hc3 & _).
    exists (add_log (mkLog "manager" None INFO ("run_build:done:" +:+ project)) w3),
      r1, r2, rec, recs, last_start, last_duration.
    cbn zeta. repeat split; assumption.
Qed.

(** C1 (amended). With the build lock absent and the start time
    acknowledged, a fault raised by [dax.bin.build] leaves [run_build] as
    it is: the world in which [run_build] ends is the one in which
    [dax.bin.build] failed, so the start record sent before is the last
    thing [run_build] wrote to the registry and no finish record follows. *)
Theorem build_fault_propagates (self : DaxManager.t)
        (project settings_file log_file : string)
        (lastrun : option Datetime.datetime) (w w1 w2 : world) (e : exn) :
  Sys.isfile (DaxManager.build_lock E settings_file) w = false ->
  set_last_build_start E project (DaxManager.entered E project settings_file lastrun w)
  = (Ok tt, w1) ->
  Bin.build E settings_file log_file true (Some [(project, lastrun)]) w1
  = (Raise e, w2) ->
  DaxManager.run_build E self project settings_file log_file lastrun w = (Raise e, w2)
  /\ exists r1,
       imports w1
       = (imports w ++
          [mkImport [ ("project_name", Some project);
                      ("build_laststarttime",
                       Some (Datetime.strftime_rc (clock E (ticks w))));
                      ("build_status_complete", Some "1") ]
                    (Ok r1)])%list
       /\ has_count r1 = Ok true.
Proof.
  intros Hfree Hstart Hbuild.
  rewrite (run_build_unlocked _ _ _ _ _ _ Hfree).
  unfold bind at 1. rewrite Hstart.
  unfold bind at 1. rewrite Hbuild.
  split; [ reflexivity | ].
  apply set_last_build_start_inv in Hstart.
  destruct Hstart as (r1 & Himp1 & Hc1 & _). exists r1. split; assumption.
Qed.

(** A fault of the launcher's build that carries a [message] attribute
    does not leave [dax.bin.build]: it is logged, the build lock is
    deleted and the call returns normally. *)
Lemma build_fault_released (settings_path logfile : string) (debug : bool)
      (proj_lastrun : option (list (string * option Datetime.datetime)))
      (w w1 w2 : world) (launcher : pyval) (e : exn) (m : string) :
  Bin.read_settings E settings_path (Bin.set_logger logfile debug) "build" w
  = (Ok launcher, w1) ->
  launcher_build E launcher (Bin.lockfile_prefix_of settings_path) proj_lastrun w1
  = (Raise e, w2) ->
  exn_message e = Some m ->
  exists w3,
    Bin.build E settings_path logfile debug proj_lastrun w = (Ok tt, w3)
    /\ fs w3 = delete (DaxManager.build_lock E settings_path) (fs w2).
Proof.
  intros Hread Hfault Hm.
  unfold Bin.build, bind at 1. rewrite Hread.
  unfold bind at 1, try_except. rewrite Hfault.
  unfold Bin.get_message. rewrite Hm.
  eexists. split; reflexivity.
Qed.

End RunBuild.

Lemma run_build_skips_or_records_witness :
  (exists w',
      DaxManager.run_build Sample.E_full Sample.dax0 "ALPHA" Sample.settings_A
        "/logs/build_ALPHA.log" None Sample.w_locked = (Ok tt, w')
      /\ imports w' = []
      /\ fs w' = fs Sample.w_locked)
  /\ (exists w',
         DaxManager.run_build Sample.E_full Sample.dax0 "ALPHA" Sample.settings_A
           "/logs/build_ALPHA.log" None Sample.w_settings = (Ok tt, w')
         /\ map imp_record (imports w')
            = [ [ ("project_name", Some "ALPHA");
                  ("build_laststarttime", Some "2020-01-01 10:00:00");
                  ("build_status_complete", Some "1") ];
                [ ("project_name", Some "ALPHA");
                  ("build_lastcompletestarttime", Some "2020-01-01 10:00:00");
                  ("build_lastcompletefinishtime", Some "2020-01-01 10:03:00");
                  ("build_lastcompleteduration", Some "3 mins");
                  ("build_status_complete", Some "2") ] ]).
Proof.
  split.
  - destruct (proj1 (run_build_skips_or_records Sample.E_full Sample.dax0 "ALPHA"
                       Sample.settings_A "/logs/build_ALPHA.log" None Sample.w_locked)
                ltac:(vm_compute; reflexivity))
      as (w' & Hrun & Himp & Hfs & _).
    exists w'. repeat split; assumption.
  - pose (w0 := DaxManager.entered Sample.E_full "ALPHA" Sample.settings_A None
                  Sample.w_settings).
    pose (w1 := snd (DaxProjectSettingsManager.set_last_build_start Sample.E_full
                       "ALPHA" w0)).
    pose (w2 := snd (Bin.build Sample.E_full Sample.settings_A "/logs/build_ALPHA.log"
                       true (Some [("ALPHA", None)]) w1)).
    pose (w3 := snd (DaxProjectSettingsManager.set_last_build_complete Sample.E_full
                       "ALPHA" w2)).
    destruct (proj2 (run_build_skips_or_records Sample.E_full Sample.dax0 "ALPHA"
                       Sample.settings_A "/logs/build_ALPHA.log" None Sample.w_settings)
                ltac:(vm_compute; reflexivity) w1 w2 w3
                ltac:(vm_compute; reflexivity) ltac:(vm_compute; reflexivity)
                ltac:(vm_compute; reflexivity))
      as (w' & r1 & r2 & rec & recs & ls & ld & Hrun & _).
    exists w'. split; [ exact Hrun | ].
    replace w' with (snd (DaxManager.run_build Sample.E_full Sample.dax0 "ALPHA"
                            Sample.settings_A "/logs/build_ALPHA.log" None
                            Sample.w_settings)) by (rewrite Hrun; reflexivity).
    vm_compute. reflexivity.
Defined.

Lemma build_fault_propagates_witness :
  exists e w2,
    DaxManager.run_build Sample.E0 Sample.dax0 "ALPHA" Sample.settings_A
      "/logs/build_ALPHA.log" None Sample.w_settings = (Raise e, w2)
    /\ exn_class e = DaxError
    /\ map imp_record (imports w2)
       = [ [ ("project_name", Some "ALPHA");
             ("build_laststarttime", Some "2020-01-01 10:00:00");
             ("build_status_complete", Some "1") ] ].
Proof.
  pose (w0 := DaxManager.entered Sample.E0 "ALPHA" Sample.settings_A None
                Sample.w_settings).
  pose (w1 := snd (DaxProjectSettingsManager.set_last_build_start Sample.E0 "ALPHA" w0)).
  pose (b := Bin.build Sample.E0 Sample.settings_A "/logs/build_ALPHA.log"
               true (Some [("ALPHA", None)]) w1).
  exists (new_exn DaxError
            "YAML File /settings/settings-ALPHA.yaml does not have processors defined. See example."),
    (snd b).
  split; [ | split; [ reflexivity | vm_compute; reflexivity ] ].
  apply (build_fault_propagates Sample.E0 Sample.dax0 "ALPHA" Sample.settings_A
           "/logs/build_ALPHA.log" None Sample.w_settings w1 (snd b)).
  - vm_compute. reflexivity.
  - vm_compute. reflexivity.
  - vm_compute. reflexivity.
Defined.

(** C1 as stated fails when the fault is raised by the launcher's build and
    carries a [message] attribute: [dax.bin.build] catches it, [run_build]
    returns normally and the finish time is sent to the registry.  The
    settings document is complete and its module, which comes with
    arguments, has been loaded when the launcher fails. *)
Lemma launcher_build_fault_is_caught :
  (forall l p lr w, fst (launcher_build Sample.E_build_fails l p lr w)
                    = Raise Sample.xnat_error)
  /\ exn_message Sample.xnat_error = Some "boom"
  /\ yaml_load Sample.E_build_fails "---" = YamlDoc Sample.doc_full
  /\ Sys.isfile (DaxManager.build_lock Sample.E_build_fails Sample.settings_A)
       Sample.w_settings = false
  /\ fst (DaxManager.run_build Sample.E_build_fails Sample.dax0 "ALPHA"
            Sample.settings_A "/logs/build_ALPHA.log" None Sample.w_settings)
     = Ok tt
  /\ map imp_record
       (imports (snd (DaxManager.run_build Sample.E_build_fails Sample.dax0 "ALPHA"
                        Sample.settings_A "/logs/build_ALPHA.log" None
                        Sample.w_settings)))
     = [ [ ("project_name", Some "ALPHA");
           ("build_laststarttime", Some "2020-01-01 10:00:00");
           ("build_status_complete", Some "1") ];
         [ ("project_name", Some "ALPHA");
           ("build_lastcompletestarttime", Some "2020-01-01 10:00:00");
           ("build_lastcompletefinishtime", Some "2020-01-01 10:03:00");
           ("build_lastcompleteduration", Some "3 mins");
           ("build_status_complete", Some "2") ] ]
  /\ loaded (snd (DaxManager.run_build Sample.E_build_fails Sample.dax0 "ALPHA"
                    Sample.settings_A "/logs/build_ALPHA.log" None Sample.w_settings))
     = [ PStr "/lib/modules/module_dcm2nii.py" ].
Proof.
  split; [ intros; reflexivity | ].
  split; [ reflexivity | ].
  split; [ reflexivity | ].
  split; [ vm_compute; reflexivity | ].
  split; [ vm_compute; reflexivity | ].
  split; vm_compute; reflexivity.
Qed.

(** ** Regenerating the catalog *)

Section Readers.

Import Catalog Manager DaxProjectSettingsManager.

Lemma append_logs_app (ls ls' : list log_entry) (w : world) :
  append_logs ls' (append_logs ls w) = append_logs (ls ++ ls') w.
Proof. unfold append_logs. cbn. rewrite app_assoc. reflexivity. Qed.

Lemma append_logs_nil (w : world) : append_logs [] w = w.
Proof. unfold append_logs. rewrite app_nil_r. destruct w; reflexivity. Qed.

Lemma reader_ret {A} (a : A) : reader (ret a).
Proof.
  split; [ intros w; exists []; symmetry; apply append_logs_nil | reflexivity ].
Qed.

Lemma reader_raise {A} (e : exn) : reader (@raise world A e).
Proof.
  split; [ intros w; exists []; symmetry; apply append_logs_nil | reflexivity ].
Qed.

Lemma reader_lift_res {A} (r : res A) : reader (lift_res r).
Proof.
  split; [ intros w; exists []; symmetry; apply append_logs_nil | reflexivity ].
Qed.

Lemma reader_log (lvl : level) (text : string) : reader (LOGGER lvl text).
Proof. split; [ intros w; eexists [_]; reflexivity | reflexivity ]. Qed.

Lemma reader_bind {A B} (c : M world A) (k : A -> M world B) :
  reader c -> (forall a, reader (k a)) -> reader (bind c k).
Proof.
  intros [Hc1 Hc2] Hk. split.
  - intros w. unfold bind. destruct (Hc1 w) as [ls Hls].
    destruct (c w) as [[a | e] w1]; cbn in Hls; subst w1.
    + destruct (proj1 (Hk a) (append_logs ls w)) as [ls' Hls'].
      exists (ls ++ ls')%list. rewrite Hls'. apply append_logs_app.
    + exists ls. reflexivity.
  - intros w w' Himp. unfold bind.
    pose proof (Hc2 w w' Himp) as Hres.
    destruct (Hc1 w) as [ls Hls]. destruct (Hc1 w') as [ls' Hls'].
    destruct (c w) as [[a | e] w1]; destruct (c w') as [[a' | e'] w1'];
      cbn in *; subst; try discriminate.
    + injection Hres as <-. apply (proj2 (Hk a)). exact Himp.
    + injection Hres as ->. reflexivity.
Qed.

Lemma reader_fold_m {A B} (l : list A) (body : B -> A -> M world B) (acc : B) :
  (forall acc x, reader (body acc x)) -> reader (fold_m l acc body).
Proof.
  intros Hbody. revert acc. induction l as [ | x l IH]; intros acc; simpl.
  - apply reader_ret.
  - apply reader_bind; [ apply Hbody | intros acc'; apply IH ].
Qed.

Variable E : env.

Lemma reader_export_form (form project : string) :
  reader (export_records_form E form project).
Proof.
  split.
  - intros w. exists []. symmetry. apply append_logs_nil.
  - intros w w' Himp. unfold export_records_form. cbn. rewrite Himp. reflexivity.
Qed.

Lemma reader_export_fields (fields : list string) (record : option string)
      (label : bool) :
  reader (export_records_fields E fields record label).
Proof.
  split.
  - intros w. exists []. symmetry. apply append_logs_nil.
  - intros w w' Himp. unfold export_records_fields. cbn. rewrite Himp. reflexivity.
Qed.

(** Breaks a computation down along its binds, branches and loops. *)
Ltac reads1 :=
  first
    [ apply reader_ret | apply reader_raise | apply reader_lift_res
    | apply reader_log | apply reader_export_form | apply reader_export_fields
    | apply reader_bind; [ | intros ? ]
    | apply reader_fold_m; intros ? ?
    | progress cbv zeta
    | match goal with
      | |- reader (match ?x with _ => _ end) => destruct x
      | |- reader (if ?b then _ else _) => destruct b
      end ].

Ltac reads := repeat reads1.

Lemma reader_item (r : row) (k : string) : reader (item r k).
Proof. unfold item. reads. Qed.

Lemma reader_first {A} (l : list A) : reader (first l).
Proof. unfold first. reads. Qed.

Lemma reader_int (s : string) : reader (int s).
Proof. unfold int. reads. Qed.

Lemma reader_get_this_instance : reader (get_this_instance E).
Proof. unfold get_this_instance. reads. Qed.

Lemma reader_parse_arguments (text : string) : reader (parse_arguments text).
Proof. unfold parse_arguments. reads. Qed.

Ltac reads1' :=
  first
    [ apply reader_item | apply reader_first | apply reader_int
    | apply reader_get_this_instance | apply reader_parse_arguments
    | reads1 ].

Ltac reads' := repeat reads1'.

Lemma reader_general_defaults (self : DaxProjectSettingsManager.t) :
  reader (general_defaults self).
Proof. unfold general_defaults. reads'. Qed.

Lemma reader_load_defaults (self : DaxProjectSettingsManager.t)
      (settings : DaxProjectSettings.t) :
  reader (load_defaults self settings).
Proof. unfold load_defaults. reads'. Qed.

Lemma reader_project_names (self : DaxProjectSettingsManager.t) :
  reader (project_names E self).
Proof. unfold project_names. reads'. Qed.

Lemma reader_is_enabled_module (module project : string) :
  reader (is_enabled_module E module project).
Proof. unfold is_enabled_module. reads'. Qed.

Lemma reader_is_enabled_processor (processor project : string) :
  reader (is_enabled_processor E processor project).
Proof. unfold is_enabled_processor. reads'. Qed.

Lemma reader_load_module_record (module project : string) :
  reader (load_module_record E module project).
Proof. unfold load_module_record. reads'. Qed.

Lemma reader_load_processor_record (processor project : string) :
  reader (load_processor_record E processor project).
Proof. unfold load_processor_record. reads'. Qed.

Lemma reader_load_project (settings : DaxProjectSettings.t) (project : string) :
  reader (load_project E settings project).
Proof.
  unfold load_project.
  repeat first
    [ apply reader_is_enabled_module | apply reader_is_enabled_processor
    | apply reader_load_module_record | apply reader_load_processor_record
    | match goal with
      | acc : (DaxProjectSettings.t * list string)%type |- _ => destruct acc; cbv beta
      end
    | reads1' ].
Qed.

End Readers.

Section Regeneration.

Import Catalog Manager DaxProjectSettingsManager.

Variable E : env.

Lemma same_dirs_refl (f : gmap string node) : same_dirs f f.
Proof. intros p. reflexivity. Qed.

Lemma same_dirs_sym (f g : gmap string node) : same_dirs f g -> same_dirs g f.
Proof. intros H p. symmetry. apply H. Qed.

Lemma same_dirs_trans (f g h : gmap string node) :
  same_dirs f g -> same_dirs g h -> same_dirs f h.
Proof. intros H1 H2 p. rewrite (H1 p). apply H2. Qed.

Lemma same_dirs_write (f : gmap string node) (p content : string) :
  f !! p <> Some Directory ->
  same_dirs f (<[p := RegularFile content true]> f).
Proof.
  intros Hp q. destruct (decide (p = q)) as [<- | Hne].
  - rewrite lookup_insert_eq. split; [ contradiction | discriminate ].
  - rewrite lookup_insert_ne by assumption. reflexivity.
Qed.

Lemma apply_writes_app (t : Datetime.datetime) (ws ws' : list (string * string))
      (f : gmap string node) :
  apply_writes t (ws ++ ws') f = apply_writes t ws' (apply_writes t ws f).
Proof. unfold apply_writes. apply fold_left_app. Qed.

(** What one write does, on two worlds that agree on the registry and on
    which paths are directories. *)
Lemma write_file_step (t t' : Datetime.datetime) (p body : string) (w w' : world) :
  imports w = imports w' -> same_dirs (fs w) (fs w') ->
  let r := Sys.write_file p (stamped t body) w in
  let r' := Sys.write_file p (stamped t' body) w' in
  exists writes,
    fst r = fst r'
    /\ fs (snd r) = apply_writes t writes (fs w)
    /\ fs (snd r') = apply_writes t' writes (fs w')
    /\ imports (snd r) = imports w /\ imports (snd r') = imports w'
    /\ same_dirs (fs w) (fs (snd r)) /\ same_dirs (fs w') (fs (snd r')).
Proof.
  intros Himp Hdirs. unfold Sys.write_file.
  pose proof (Hdirs p) as Hp.
  destruct (fs w !! p) as [[c b | ] | ] eqn:Hw;
    destruct (fs w' !! p) as [[c' b' | ] | ] eqn:Hw';
    try (exfalso; destruct Hp as [H1 H2];
         first [ specialize (H1 eq_refl); discriminate H1
               | specialize (H2 eq_refl); discriminate H2 ]).
  1, 2, 4, 5:
    exists [(p, body)]; cbn; repeat split; auto;
    apply same_dirs_write; congruence.
  exists []. cbn. repeat split; auto using same_dirs_refl.
Qed.

Lemma agree_stop (t t' : Datetime.datetime) (r : res unit) (w w' v v' : world) :
  fs v = fs w -> fs v' = fs w' -> imports v = imports w -> imports v' = imports w' ->
  agree t t' (r, v) (r, v') w w'.
Proof.
  intros Hf Hf' Hi Hi'. exists []. cbn. rewrite Hf, Hf'.
  refine (conj _ (conj _ (conj _ (conj _ (conj _ (conj _ _))))));
    auto using same_dirs_refl.
Qed.

Lemma write_project_eq (self : DaxProjectSettingsManager.t)
      (default_settings : DaxProjectSettings.t) (t : Datetime.datetime)
      (name : string) (w : world) :
  write_project E self default_settings t name w
  = match load_project E default_settings name
            (add_log (mkLog "manager" None INFO ("Loading project: " +:+ name)) w) with
    | (Ok (s, p), u) =>
        Sys.write_file (settings_filename self name)
          (stamped t (yaml_dump E (DaxProjectSettings.dump
                                     (DaxProjectSettings.add_project s p))))
          (add_log (mkLog "manager" None INFO
                      ("Writing settings to file:" +:+ settings_filename self name)) u)
    | (Raise e, u) => (Raise e, u)
    end.
Proof.
  unfold write_project, bind, LOGGER, Sys.log, modify. cbn.
  destruct (load_project E default_settings name _) as [[[s p] | e] u]; reflexivity.
Qed.

Lemma write_project_step (self : DaxProjectSettingsManager.t)
      (default_settings : DaxProjectSettings.t) (t t' : Datetime.datetime)
      (name : string) (w w' : world) :
  imports w = imports w' -> same_dirs (fs w) (fs w') ->
  agree t t' (write_project E self default_settings t name w)
             (write_project E self default_settings t' name w') w w'.
Proof.
  intros Himp Hdirs. rewrite !write_project_eq.
  set (v := add_log _ w). set (v' := add_log _ w').
  destruct (reader_load_project E default_settings name) as [Hw Hr].
  destruct (Hw v) as [ls Hls]. destruct (Hw v') as [ls' Hls'].
  assert (Hres : fst (load_project E default_settings name v)
                 = fst (load_project E default_settings name v')) by (apply Hr, Himp).
  destruct (load_project E default_settings name v) as [[[s p] | e] u];
    destruct (load_project E default_settings name v') as [[[s' p'] | e'] u'];
    cbn in Hls, Hls', Hres; subst u u'; try discriminate.
  - injection Hres as <- <-.
    match goal with
    | |- agree _ _ (Sys.write_file ?f _ ?x) (Sys.write_file _ _ ?x') _ _ =>
        destruct (write_file_step t t' f
                    (yaml_dump E (DaxProjectSettings.dump
                                    (DaxProjectSettings.add_project s p)))
                    x x' Himp Hdirs) as (ws & H)
    end.
    exists ws. exact H.
  - injection Hres as <-. apply agree_stop; reflexivity.
Qed.

Lemma write_loop_agree (self : DaxProjectSettingsManager.t)
      (default_settings : DaxProjectSettings.t) (t t' : Datetime.datetime)
      (names : list string) (w w' : world) :
  imports w = imports w' -> same_dirs (fs w) (fs w') ->
  agree t t' (for_each names (write_project E self default_settings t) w)
             (for_each names (write_project E self default_settings t') w') w w'.
Proof.
  revert w w'. induction names as [ | name names IH]; intros w w' Himp Hdirs.
  - cbn. apply agree_stop; reflexivity.
  - cbn [for_each]. unfold bind.
    destruct (write_project_step self default_settings t t' name w w' Himp Hdirs)
      as (ws & Hres & Hfs & Hfs' & Hi & Hi' & Hd & Hd').
    destruct (write_project E self default_settings t name w) as [[[] | e] w1];
      destruct (write_project E self default_settings t' name w') as [[[] | e'] w1'];
      cbn in Hres, Hfs, Hfs', Hi, Hi', Hd, Hd'; try discriminate.
    + assert (Himp1 : imports w1 = imports w1') by congruence.
      assert (Hdirs1 : same_dirs (fs w1) (fs w1')).
      { eapply same_dirs_trans; [ apply same_dirs_sym, Hd | ].
        eapply same_dirs_trans; [ apply Hdirs | apply Hd' ]. }
      destruct (IH w1 w1' Himp1 Hdirs1)
        as (ws2 & Hres2 & Hfs2 & Hfs2' & Hi2 & Hi2' & Hd2 & Hd2').
      exists (ws ++ ws2)%list. rewrite !apply_writes_app, <- Hfs, <- Hfs'.
      refine (conj _ (conj _ (conj _ (conj _ (conj _ (conj _ _))))));
        try assumption; try congruence.
      * eapply same_dirs_trans; eassumption.
      * eapply same_dirs_trans; eassumption.
    + injection Hres as <-. exists ws. cbn.
      refine (conj _ (conj _ (conj _ (conj _ (conj _ (conj _ _))))));
        try assumption; reflexivity.
Qed.

Lemma write_each_eq (self : DaxProjectSettingsManager.t) (w : world) :
  write_each E self w
  = match load_defaults self DaxProjectSettings.init (tick w) with
    | (Ok d, u) =>
        match project_names E self u with
        | (Ok n, u1) => for_each n (write_project E self d (clock E (ticks w))) u1
        | (Raise e, u1) => (Raise e, u1)
        end
    | (Raise e, u) => (Raise e, u)
    end.
Proof. reflexivity. Qed.

Lemma write_each_agree (self : DaxProjectSettingsManager.t) (w w' : world) :
  imports w = imports w' -> same_dirs (fs w) (fs w') ->
  agree (clock E (ticks w)) (clock E (ticks w'))
        (write_each E self w) (write_each E self w') w w'.
Proof.
  intros Himp Hdirs. rewrite !write_each_eq.
  set (t := clock E (ticks w)). set (t' := clock E (ticks w')).
  destruct (reader_load_defaults self DaxProjectSettings.init) as [Hw Hr].
  destruct (Hw (tick w)) as [ls Hls]. destruct (Hw (tick w')) as [ls' Hls'].
  pose proof (Hr (tick w) (tick w') Himp) as Hres.
  destruct (load_defaults self DaxProjectSettings.init (tick w)) as [[d | e] u];
    destruct (load_defaults self DaxProjectSettings.init (tick w')) as [[d' | e'] u'];
    cbn in Hls, Hls', Hres; subst u u'; try discriminate.
  - injection Hres as <-.
    destruct (reader_project_names E self) as [Hw2 Hr2].
    destruct (Hw2 (append_logs ls (tick w))) as [ms Hms].
    destruct (Hw2 (append_logs ls' (tick w'))) as [ms' Hms'].
    pose proof (Hr2 (append_logs ls (tick w)) (append_logs ls' (tick w')) Himp) as Hres2.
    destruct (project_names E self (append_logs ls (tick w))) as [[n | e] u1];
      destruct (project_names E self (append_logs ls' (tick w'))) as [[n' | e'] u1'];
      cbn in Hms, Hms', Hres2; subst u1 u1'; try discriminate.
    + injection Hres2 as <-.
      destruct (write_loop_agree self d t t' n
                  (append_logs ms (append_logs ls (tick w)))
                  (append_logs ms' (append_logs ls' (tick w'))) Himp Hdirs)
        as (ws & H).
      exists ws. exact H.
    + injection Hres2 as <-. apply agree_stop; reflexivity.
  - injection Hres as <-. apply agree_stop; reflexivity.
Qed.

Lemma apply_writes_lookup (t : Datetime.datetime) (ws : list (string * string))
      (f : gmap string node) (p : string) :
  apply_writes t ws f !! p
  = match last_write p ws with
    | Some b => Some (RegularFile (stamped t b) true)
    | None => f !! p
    end.
Proof.
  revert f. induction ws as [ | [q body] ws IH]; intros f; [ reflexivity | ].
  cbn [last_write fst snd]. change (apply_writes t ((q, body) :: ws) f)
    with (apply_writes t ws (<[q := RegularFile (stamped t body) true]> f)).
  rewrite IH. destruct (last_write p ws); [ reflexivity | ].
  destruct (String.eqb_spec p q) as [-> | Hne].
  - apply lookup_insert_eq.
  - apply lookup_insert_ne. congruence.
Qed.

(** C7. A second regeneration right after a first one, with the registry
    as the first one found it, ends the same way, sends nothing to the
    registry, and leaves every file either as the first run left it or
    rewritten with the same document under a different time stamp line. *)
Theorem write_each_twice (self : DaxProjectSettingsManager.t) (w : world) :
  let first_run := write_each E self w in
  let second_run := write_each E self (snd first_run) in
  fst second_run = fst first_run
  /\ imports (snd first_run) = imports w
  /\ imports (snd second_run) = imports w
  /\ forall p,
       same_but_stamp (clock E (ticks w)) (clock E (ticks (snd first_run)))
                      (fs (snd first_run) !! p) (fs (snd second_run) !! p).
Proof.
  cbv zeta.
  destruct (write_each_agree self w w eq_refl (same_dirs_refl _))
    as (ws0 & _ & _ & _ & Hi1 & _ & Hd1 & _).
  destruct (write_each_agree self w (snd (write_each E self w))
              (eq_sym Hi1) Hd1)
    as (ws & Hres & Hfs & Hfs' & _ & Hi2 & _ & _).
  split; [ symmetry; exact Hres | ].
  split; [ exact Hi1 | ].
  split; [ congruence | ].
  intros p. rewrite Hfs', apply_writes_lookup, Hfs, apply_writes_lookup.
  destruct (last_write p ws) as [body | ].
  - right. exists body. split; reflexivity.
  - left. reflexivity.
Qed.

End Regeneration.

(** On the sample installation the two documents written for [ALPHA] differ
    in the minute of their time stamp only. *)
Example write_each_twice_sample :
  let w1 := snd (DaxProjectSettingsManager.write_each Sample.E0 Sample.manager0
                   Sample.w_settings) in
  let w2 := snd (DaxProjectSettingsManager.write_each Sample.E0 Sample.manager0 w1) in
  fs w1 !! Sample.settings_A
  = Some (RegularFile
            (DaxProjectSettingsManager.stamped (Sample.clock0 0)
               (Sample.dump0 (DaxProjectSettings.dump Sample.settings_alpha))) true)
  /\ fs w2 !! Sample.settings_A
     = Some (RegularFile
               (DaxProjectSettingsManager.stamped (Sample.clock0 1)
                  (Sample.dump0 (DaxProjectSettings.dump Sample.settings_alpha))) true).
Proof. split; vm_compute; reflexivity. Qed.

(** ** The order of a cycle *)

Section CycleOrder.

Import DaxManager Order.

Lemma precedes_snoc (a b e : event) (t : list event) :
  precedes a b t -> (e = b -> In a t) -> precedes a b (t ++ [e]).
Proof.
  intros Ht He j Hj.
  destruct (Nat.lt_ge_cases j (length t)) as [Hlt | Hge].
  - rewrite lookup_app_l in Hj by assumption.
    destruct (Ht j Hj) as (i & Hi & Hai). exists i. split; [ assumption | ].
    rewrite lookup_app_l by lia. assumption.
  - rewrite lookup_app_r in Hj by assumption.
    destruct (j - length t)%nat as [ | n] eqn:Hn; cbn in Hj; [ | discriminate ].
    injection Hj as ->.
    destruct (proj1 (list_elem_of_lookup t a)
                (proj2 (list_elem_of_In t a) (He eq_refl))) as (i & Hi).
    exists i. split.
    + apply lookup_lt_Some in Hi. lia.
    + rewrite lookup_app_l by (eapply lookup_lt_Some; eassumption). assumption.
Qed.

Lemma ordered_snoc (e : event) (t : list event) :
  ordered t -> ready e t -> ordered (t ++ [e]).
Proof.
  intros (Hsub & Hlaunch & Hjoin) Hready. split; [ | split ].
  - intros b. destruct (Hsub b) as [H1 H2].
    split; apply precedes_snoc; try assumption; intros ->; apply Hready.
  - intros s. apply precedes_snoc; [ apply Hlaunch | ]. intros ->. exact Hready.
  - apply precedes_snoc; [ assumption | ]. intros ->. exact Hready.
Qed.

Lemma ordered_nil : ordered [].
Proof.
  split; [ | split ]; repeat intro; try split; repeat intro;
    match goal with H : [] !! _ = Some _ |- _ => rewrite lookup_nil in H; discriminate H end.
Qed.

(** *** Rules for the steps of the coordinator *)

Lemma t_ret {A} (a : A) (P : list event -> Prop) :
  triple P (ret a) (fun _ => P).
Proof. intros s Hs. exact Hs. Qed.

Lemma t_raise {A} (e : exn) (P : list event -> Prop) (Q : A -> list event -> Prop) :
  (forall t, P t -> ordered t) -> triple P (raise e) Q.
Proof. intros HP s Hs. apply HP, Hs. Qed.

Lemma t_bind {A B} (c : M coord A) (k : A -> M coord B)
      (P : list event -> Prop) (Q : A -> list event -> Prop)
      (R : B -> list event -> Prop) :
  triple P c Q -> (forall a, triple (Q a) (k a) R) -> triple P (bind c k) R.
Proof.
  intros Hc Hk s Hs. unfold bind. specialize (Hc s Hs).
  destruct (c s) as [[a | e] s']; [ apply Hk, Hc | exact Hc ].
Qed.

Lemma t_weaken {A} (c : M coord A) (P P' : list event -> Prop)
      (Q Q' : A -> list event -> Prop) :
  (forall t, P' t -> P t) -> (forall a t, Q a t -> Q' a t) ->
  triple P c Q -> triple P' c Q'.
Proof.
  intros HP HQ Hc s Hs. specialize (Hc s (HP _ Hs)).
  destruct (c s) as [[a | e] s']; [ apply HQ, Hc | exact Hc ].
Qed.

Lemma t_lift {A} (c : M world A) (P : list event -> Prop) :
  (forall t, P t -> ordered t) -> triple P (lift c) (fun _ => P).
Proof.
  intros HP s Hs. unfold lift.
  destruct (c (cw s)) as [[a | e] w]; cbn; [ exact Hs | apply HP, Hs ].
Qed.

Lemma t_emit (e : event) (P Q : list event -> Prop) :
  (forall t, P t -> Q (t ++ [e])%list) -> triple P (emit e) (fun _ => Q).
Proof. intros H s Hs. cbn. apply H, Hs. Qed.

Section Pool.

Variables (E : env) (sched : nat -> nat) (self : DaxManager.t).

Lemma t_yield (P : list event -> Prop) :
  triple P (yield E sched self) (fun _ => P).
Proof.
  intros s Hs. unfold yield, modify.
  destruct (progress E self (sched (yields s)) (queue s) (cw s)). exact Hs.
Qed.

Lemma t_apply_async (b : task) (P Q : list event -> Prop) :
  (forall t, P t -> Q (t ++ [Submit b])%list) ->
  triple P (apply_async b) (fun _ => Q).
Proof. intros H s Hs. cbn. apply H, Hs. Qed.

Lemma t_join_upload (log_file : string) (P Q : list event -> Prop) :
  (forall t, P t -> Q (t ++ [UploadJoin])%list) ->
  triple P (join_upload E self log_file) (fun _ => Q).
Proof. intros H s Hs. cbn. apply H, Hs. Qed.

Lemma t_join_pool (P Q : list event -> Prop) :
  (forall t, P t -> Q (t ++ [PoolJoin])%list) ->
  triple P (join_pool E self) (fun _ => Q).
Proof.
  intros H s Hs. unfold join_pool, modify.
  destruct (progress E self (length (queue s)) (queue s) (cw s)).
  cbn. apply H, Hs.
Qed.

End Pool.

Lemma t_project_from_settings (settings_file : string) (P : list event -> Prop) :
  (forall t, P t -> ordered t) ->
  triple P (project_from_settings settings_file) (fun _ => P).
Proof.
  intros HP. unfold project_from_settings.
  destruct (PyStr.split "settings-" settings_file) as [ | a [ | b rest]].
  - apply t_raise, HP.
  - apply t_raise, HP.
  - apply t_ret.
Qed.

(** A loop with an invariant that depends on the items already done. *)
Lemma t_for_each {A} (body : A -> M coord unit) (l0 : list A)
      (I : list A -> list event -> Prop) :
  (forall done x, In x l0 ->
                  triple (I done) (body x) (fun _ => I (done ++ [x])%list)) ->
  forall l done, incl l l0 ->
                 triple (I done) (for_each l body) (fun _ => I (done ++ l)%list).
Proof.
  intros Hbody l. induction l as [ | x l IH]; intros done Hincl.
  - cbn. rewrite app_nil_r. apply t_ret.
  - cbn [for_each]. eapply t_bind.
    + apply Hbody. apply Hincl. left. reflexivity.
    + intros []. cbv beta.
      replace (done ++ x :: l)%list with ((done ++ [x]) ++ l)%list
        by (rewrite <- app_assoc; reflexivity).
      apply IH. intros y Hy. apply Hincl. right. assumption.
Qed.

Section Cycle.

Variables (E : env) (sched : nat -> nat).

(** One step that leaves the history alone, followed by the rest. *)
Ltac quiet H :=
  eapply t_bind;
  [ first [ apply t_yield | apply t_lift; exact H
          | apply t_project_from_settings; exact H ]
  | intros ?; cbv beta ].

Lemma prepared_ordered (t : list event) : prepared t -> ordered t.
Proof. intros H. apply H. Qed.

Lemma updated_ordered (done : list string) (t : list event) :
  updated done t -> ordered t.
Proof. intros H. apply H. Qed.

Lemma uploaded_ordered (t : list event) : uploaded t -> ordered t.
Proof. intros H. apply H. Qed.

Lemma prepared_snoc (e : event) (t : list event) :
  prepared t -> ready e t -> prepared (t ++ [e])%list.
Proof.
  intros (Ho & Hr & Hc) He.
  split; [ apply ordered_snoc; assumption | ].
  split; apply in_or_app; left; assumption.
Qed.

Lemma updated_snoc (done : list string) (e : event) (t : list event) :
  updated done t -> ready e t -> updated done (t ++ [e])%list.
Proof.
  intros (Ho & Hd) He. split; [ apply ordered_snoc; assumption | ].
  intros x Hx. apply in_or_app. left. apply Hd, Hx.
Qed.

Lemma queue_builds_order (self : DaxManager.t) (settings_list : list string) :
  triple prepared (queue_builds E sched self settings_list) (fun _ => prepared).
Proof.
  unfold queue_builds.
  refine (t_for_each _ settings_list (fun _ => prepared) _
            settings_list [] (incl_refl _)).
  intros done x Hx. cbv beta.
  do 8 quiet prepared_ordered.
  apply t_apply_async. intros t Ht. apply prepared_snoc; [ assumption | ].
  split; apply Ht.
Qed.

Lemma run_order (self : DaxManager.t) :
  triple prepared (run E sched self) (fun _ => ordered).
Proof.
  unfold run.
  eapply t_bind; [ apply queue_builds_order | intros ?; cbv beta ].
  eapply t_bind;
    [ apply (t_emit PoolClose prepared (updated []));
      intros t Ht; split; [ apply ordered_snoc; [ apply Ht | exact I ]
                          | intros x [] ]
    | intros ?; cbv beta ].
  quiet (updated_ordered []).
  (* the updates *)
  eapply t_bind.
  { refine (t_for_each _ (settings_list self) updated _
              (settings_list self) [] (incl_refl _)).
    intros done x Hx.
    do 4 quiet (updated_ordered done).
    eapply t_bind;
      [ apply (t_emit (UpdateCall x) (updated done) (updated done));
        intros t Ht; apply updated_snoc; [ assumption | exact I ]
      | intros ?; cbv beta ].
    quiet (updated_ordered done).
    apply t_emit. intros t (Ho & Hd). split.
    - apply ordered_snoc; [ assumption | exact I ].
    - intros y Hy. apply in_app_or in Hy. apply in_or_app.
      destruct Hy as [Hy | [<- | []]]; [ left; apply Hd, Hy | right; left; reflexivity ]. }
  intros ?. cbv beta. cbn [app].
  quiet (updated_ordered (settings_list self)).
  (* the launches *)
  eapply t_bind.
  { refine (t_for_each _ (settings_list self)
              (fun _ => updated (settings_list self)) _
              (settings_list self) [] (incl_refl _)).
    intros done x Hx. cbv beta.
    do 4 quiet (updated_ordered (settings_list self)).
    eapply t_bind;
      [ apply (t_emit (LaunchCall x) (updated (settings_list self))
                      (updated (settings_list self)));
        intros t Ht; apply updated_snoc; [ assumption | apply Ht, Hx ]
      | intros ?; cbv beta ].
    quiet (updated_ordered (settings_list self)).
    apply t_emit. intros t Ht. apply updated_snoc; [ assumption | exact I ]. }
  intros ?. cbv beta.
  (* the upload and the two joins *)
  do 3 quiet (updated_ordered (settings_list self)).
  eapply t_bind;
    [ apply (t_emit UploadStart (updated (settings_list self)) ordered);
      intros t Ht; apply ordered_snoc; [ apply Ht | exact I ]
    | intros ?; cbv beta ].
  quiet (fun t (H : ordered t) => H).
  quiet (fun t (H : ordered t) => H).
  eapply t_bind;
    [ apply (t_join_upload E self _ ordered uploaded);
      intros t Ht; split;
      [ apply ordered_snoc; [ assumption | exact I ]
      | apply in_or_app; right; left; reflexivity ]
    | intros ?; cbv beta ].
  do 2 quiet uploaded_ordered.
  apply t_join_pool. intros t (Ho & Hu). apply ordered_snoc; assumption.
Qed.

Lemma main_order :
  triple (fun t => t = []) (main E sched) (fun _ => ordered).
Proof.
  unfold main.
  eapply t_bind;
    [ apply (t_emit ReapBegin (fun t => t = []) ordered);
      intros t ->; apply (ordered_snoc _ []); [ apply ordered_nil | exact I ]
    | intros ?; cbv beta ].
  quiet (fun t (H : ordered t) => H).
  eapply t_bind;
    [ apply (t_emit ReapEnd ordered (fun t => ordered t /\ In ReapEnd t));
      intros t Ht; split;
      [ apply ordered_snoc; [ assumption | exact I ]
      | apply in_or_app; right; left; reflexivity ]
    | intros ?; cbv beta ].
  eapply t_bind;
    [ apply (t_emit CatalogBegin (fun t => ordered t /\ In ReapEnd t)
                    (fun t => ordered t /\ In ReapEnd t));
      intros t (Ho & Hr); split;
      [ apply ordered_snoc; [ assumption | exact I ]
      | apply in_or_app; left; assumption ]
    | intros ?; cbv beta ].
  eapply t_bind;
    [ apply (t_lift _ (fun t => ordered t /\ In ReapEnd t)); intros t Ht; apply Ht
    | intros manager; cbv beta ].
  eapply t_bind;
    [ apply (t_emit CatalogEnd (fun t => ordered t /\ In ReapEnd t) prepared);
      intros t (Ho & Hr); split;
      [ apply ordered_snoc; [ assumption | exact I ]
      | split; apply in_or_app; [ left; assumption | right; left; reflexivity ] ]
    | intros ?; cbv beta ].
  eapply t_bind; [ apply run_order | intros ?; cbv beta ].
  apply (t_lift _ ordered). auto.
Qed.

(** C10. In every cycle the history of the coordinator is ordered: each
    submission of a build comes after the end of the stale-lock pass
    and after the end of the catalog regeneration; each call of the
    launch stage for a settings file comes after the update stage for
    that file has returned; and the pool of builds is joined after the
    upload has been joined.  This holds whether the cycle runs to its
    end or is cut short by a fault, and for every schedule of the
    worker pool. *)
Theorem cycle_order (w : world) :
  let history := trace (snd (main E sched (start w))) in
  (forall b, precedes ReapEnd (Submit b) history
             /\ precedes CatalogEnd (Submit b) history)
  /\ (forall s, precedes (UpdateReturn s) (LaunchCall s) history)
  /\ precedes UploadJoin PoolJoin history.
Proof.
  pose proof (main_order (start w) eq_refl) as H.
  destruct (main E sched (start w)) as [[[] | e] s]; exact H.
Qed.

End Cycle.

End CycleOrder.

(** The complete history of a cycle on the sample installation with
    complete settings documents. *)
Example cycle_sample :
  let r := DaxManager.main Sample.E_full (fun _ => O)
             (DaxManager.start Sample.w_settings) in
  fst r = Ok tt
  /\ DaxManager.trace (snd r)
     = [ DaxManager.ReapBegin; DaxManager.ReapEnd;
         DaxManager.CatalogBegin; DaxManager.CatalogEnd;
         DaxManager.Submit
           (DaxManager.mkTask "ALPHA" Sample.settings_A
              "/logs/build_ALPHA_20200101-100100.log" None);
         DaxManager.PoolClose;
         DaxManager.UpdateCall Sample.settings_A;
         DaxManager.UpdateReturn Sample.settings_A;
         DaxManager.LaunchCall Sample.settings_A;
         DaxManager.LaunchReturn Sample.settings_A;
         DaxManager.UploadStart; DaxManager.UploadJoin; DaxManager.PoolJoin ].
Proof. split; vm_compute; reflexivity. Qed.


(** * Further properties of the two files *)

(** ** The name of a project and the name of its settings file *)

Section SettingsNames.

Import DaxProjectSettingsManager.

Lemma settings_cut (pre name : string) :
  (pre = "" \/ exists a0, pre = a0 +:+ "/"
                          /\ forall x y0, a0 = x +:+ y0 ->
                                          PyStr.startswith "settings-" y0 = false) ->
  PyStr.contains "settings-" name = false ->
  PyStr.split "settings-" (pre +:+ "settings-" +:+ name +:+ ".yaml")
  = [pre; name +:+ ".yaml"].
Proof.
  intros Hpre Hname.
  rewrite split_first.
  - f_equal. unfold PyStr.split. rewrite split_go_free.
    + cbn. unfold PyStr.snoc. rewrite !sapp_assoc. reflexivity.
    + discriminate.
    + intros x y Hxy _.
      apply (free_before "settings-" name "yaml" "." ltac:(cbn; intuition discriminate)
               (contains_free _ _ Hname) x y Hxy).
  - discriminate.
  - intros x y Hxy Hy. destruct Hpre as [-> | (a0 & -> & Hfree)].
    + destruct x; destruct y; try discriminate. contradiction.
    + destruct (suffix_snoc _ _ _ _ Hxy Hy) as (y0 & -> & Ha0).
      rewrite sapp_assoc.
      apply (free_before "settings-" a0 _ "/" ltac:(cbn; intuition discriminate)
               Hfree x y0 Ha0).
Qed.

Lemma yaml_cut (name : string) :
  PyStr.contains ".yaml" name = false ->
  PyStr.split ".yaml" (name +:+ ".yaml") = [name; ""].
Proof.
  intros Hname.
  rewrite <- (sapp_nil_r ".yaml"). rewrite split_first.
  - reflexivity.
  - discriminate.
  - apply (free_before_self "." "yaml" name "").
    + cbn. intuition discriminate.
    + apply contains_free, Hname.
Qed.

(** X1. The project name is recovered from the name of the settings file
    that [write_each] writes for it, provided neither the settings
    directory nor the project name contains ["settings-"] and the project
    name does not contain [".yaml"]. *)
Theorem project_from_settings_filename (self : DaxProjectSettingsManager.t)
        (name : string) (w : world) :
  PyStr.contains "settings-" (local_dir self) = false ->
  PyStr.contains "settings-" name = false ->
  PyStr.contains ".yaml" name = false ->
  DaxManager.project_from_settings (settings_filename self name) w = (Ok name, w).
Proof.
  intros Hdir Hname Hyaml.
  unfold DaxManager.project_from_settings, settings_filename.
  destruct (path_join_shape (local_dir self) ("settings-" +:+ name +:+ ".yaml") eq_refl)
    as [[-> Hd] | (a0 & -> & Hd)].
  - pose proof (settings_cut "" name (or_introl eq_refl) Hname) as Hcut.
    change ("" +:+ "settings-" +:+ name +:+ ".yaml")
      with ("settings-" +:+ name +:+ ".yaml") in Hcut.
    rewrite Hcut, yaml_cut by assumption. reflexivity.
  - rewrite (settings_cut (a0 +:+ "/") name).
    + rewrite yaml_cut by assumption. reflexivity.
    + right. exists a0. split; [ reflexivity | ].
      destruct Hd as [Hd | Hd]; rewrite Hd in Hdir.
      * apply contains_free, Hdir.
      * eapply contains_free_l, Hdir.
    + assumption.
Qed.

End SettingsNames.

Lemma project_from_settings_filename_witness :
  DaxManager.project_from_settings
    (DaxProjectSettingsManager.settings_filename Sample.manager0 "ALPHA") Sample.w_empty
  = (Ok "ALPHA", Sample.w_empty).
Proof. apply project_from_settings_filename; reflexivity. Defined.

(** A settings directory whose own name contains ["settings-"] breaks the
    correspondence: the text after the first ["settings-"] is taken. *)
Example project_from_settings_nested :
  DaxManager.project_from_settings
    (DaxProjectSettingsManager.settings_filename
       (DaxProjectSettingsManager.mk "general" "/opt/settings-prod" Sample.instance0)
       "ALPHA") Sample.w_empty
  = (Ok "prod/", Sample.w_empty).
Proof. reflexivity. Qed.

(** ** The lock file of a project *)

Section LockNames.

Import DaxProjectSettingsManager.

Lemma contains_char (c : ascii) (s : string) :
  PyStr.contains (String c "") s = false <-> ~ In c (PyStr.chars_of s).
Proof.
  induction s as [ | d s IH]; cbn [PyStr.contains PyStr.startswith PyStr.chars_of].
  - split; [ intros _ [] | reflexivity ].
  - rewrite andb_true_r, orb_false_iff, IH. cbn [In].
    split.
    + intros [Hd Hs] [-> | Hin]; [ | contradiction ].
      unfold PyStr.char_eqb in Hd. rewrite Ascii.eqb_refl in Hd. discriminate.
    + intros H. split; [ | tauto ].
      destruct (PyStr.char_eqb c d) eqn:Hcd; [ | reflexivity ].
      apply char_eqb_eq in Hcd. subst d. tauto.
Qed.

Lemma after_last_sapp (c : ascii) (a b : string) (pos best : nat) :
  PyStr.after_last c (a +:+ b) pos best
  = PyStr.after_last c b (pos + String.length a) (PyStr.after_last c a pos best).
Proof.
  revert pos best. induction a as [ | d a IH]; intros pos best.
  - cbn [String.length PyStr.after_last]. rewrite Nat.add_0_r. reflexivity.
  - rewrite sapp_cons. cbn [String.length PyStr.after_last]. rewrite IH.
    f_equal. lia.
Qed.

Lemma after_last_none (c : ascii) (s : string) (pos best : nat) :
  ~ In c (PyStr.chars_of s) -> PyStr.after_last c s pos best = best.
Proof.
  revert pos best. induction s as [ | d s IH]; intros pos best Hc; [ reflexivity | ].
  cbn [PyStr.after_last PyStr.chars_of In] in *.
  destruct (PyStr.char_eqb c d) eqn:Hcd.
  - apply char_eqb_eq in Hcd. subst d. tauto.
  - apply IH. tauto.
Qed.

Lemma basename_path_join (a b : string) :
  ~ In "/"%char (PyStr.chars_of b) -> PyStr.basename (PyStr.path_join a b) = b.
Proof.
  intros Hb.
  assert (Hrel : PyStr.startswith "/" b = false).
  { destruct b as [ | d b]; [ reflexivity | ]. cbn [PyStr.startswith]. rewrite andb_true_r.
    destruct (PyStr.char_eqb "/" d) eqn:Hd; [ | reflexivity ].
    apply char_eqb_eq in Hd. subst d. exfalso. apply Hb. left. reflexivity. }
  unfold PyStr.basename.
  destruct (path_join_shape a b Hrel) as [[-> _] | (a0 & -> & _)].
  - rewrite after_last_none by assumption. reflexivity.
  - rewrite after_last_sapp, (after_last_none _ b) by assumption.
    rewrite after_last_sapp. cbn [PyStr.after_last PyStr.char_eqb String.length].
    rewrite Ascii.eqb_refl.
    replace (S (0 + String.length a0)) with (String.length (a0 +:+ "/"))
      by (rewrite length_sapp; cbn [String.length]; lia).
    apply drop_sapp.
Qed.

(** [os.path.splitext] cuts a name without slashes at its last dot. *)
Lemma splitext_root_sapp (stem ext : string) :
  ~ In "/"%char (PyStr.chars_of stem) ->
  ~ In "/"%char (PyStr.chars_of ext) ->
  ~ In "."%char (PyStr.chars_of ext) ->
  PyStr.all_dots stem = false ->
  PyStr.splitext_root (stem +:+ String "." ext) = stem.
Proof.
  intros Hs He Hd Hstem. unfold PyStr.splitext_root.
  rewrite (after_last_none "/").
  2: { rewrite chars_of_sapp. intros H. apply in_app_or in H.
       destruct H as [H | [H | H]]; [ tauto | discriminate H | tauto ]. }
  rewrite after_last_sapp. cbn [PyStr.after_last PyStr.char_eqb].
  rewrite Ascii.eqb_refl, (after_last_none "." ext) by assumption.
  cbn [Nat.ltb Nat.leb Nat.add PyStr.drop].
  replace (S (String.length stem) - 1 - 0)%nat with (String.length stem) by lia.
  replace (S (String.length stem) - 1)%nat with (String.length stem) by lia.
  rewrite take_sapp, Hstem. reflexivity.
Qed.

Lemma sapp_inj_r (a b t : string) : a +:+ t = b +:+ t -> a = b.
Proof.
  intros H. apply (f_equal PyStr.rev) in H. rewrite !rev_sapp in H.
  apply String.app_inj in H. rewrite <- (rev_involutive a), H. apply rev_involutive.
Qed.

Lemma path_join_inj (a b b' : string) :
  PyStr.path_join a b = PyStr.path_join a b' ->
  PyStr.startswith "/" b = false -> PyStr.startswith "/" b' = false -> b = b'.
Proof.
  unfold PyStr.path_join. intros H Hb Hb'. rewrite Hb, Hb' in H.
  destruct (String.eqb a "" || PyStr.endswith "/" a).
  - eapply String.app_inj, H.
  - apply String.app_inj in H. injection H as H. exact H.
Qed.

Variable E : env.

Lemma lockfile_prefix_of_filename (self : DaxProjectSettingsManager.t) (name : string) :
  PyStr.contains "/" name = false ->
  Bin.lockfile_prefix_of (settings_filename self name) = "settings-" +:+ name.
Proof.
  intros Hname. apply contains_char in Hname.
  unfold Bin.lockfile_prefix_of, settings_filename.
  rewrite basename_path_join.
  - change ("settings-" +:+ name +:+ ".yaml")
      with (("settings-" +:+ name) +:+ String "." "yaml").
    apply splitext_root_sapp.
    + rewrite chars_of_sapp. intros H. apply in_app_or in H.
      destruct H as [H | H]; [ cbn in H; intuition discriminate | tauto ].
    + cbn. intuition discriminate.
    + cbn. intuition discriminate.
    + reflexivity.
  - rewrite !chars_of_sapp. intros H. apply in_app_or in H.
    destruct H as [H | H]; [ cbn in H; intuition discriminate | ].
    apply in_app_or in H.
    destruct H as [H | H]; [ tauto | cbn in H; intuition discriminate ].
Qed.

(** X2. For a project name without a slash, the lock that [run_build]
    looks for, and that [dax.bin.build] releases in its handler, is the
    file [settings-NAME_SUFFIX] in the [FlagFiles] directory, and two
    different projects never share it. *)
Theorem build_lock_of_project (self : DaxProjectSettingsManager.t) (name : string) :
  PyStr.contains "/" name = false ->
  DaxManager.build_lock E (settings_filename self name)
  = PyStr.path_join (PyStr.path_join (get_results_dir E) "FlagFiles")
                    ("settings-" +:+ name +:+ "_" +:+ BUILD_SUFFIX E)
  /\ (forall w, fst (Manager.is_locked E (settings_filename self name) w)
                = Ok (Sys.isfile (DaxManager.build_lock E (settings_filename self name)) w))
  /\ forall other,
       PyStr.contains "/" other = false ->
       DaxManager.build_lock E (settings_filename self other)
       = DaxManager.build_lock E (settings_filename self name) ->
       other = name.
Proof.
  intros Hname.
  assert (Hlock : forall n, PyStr.contains "/" n = false ->
            DaxManager.build_lock E (settings_filename self n)
            = PyStr.path_join (PyStr.path_join (get_results_dir E) "FlagFiles")
                              ("settings-" +:+ n +:+ "_" +:+ BUILD_SUFFIX E)).
  { intros n Hn. unfold DaxManager.build_lock, Bin.flag_path.
    rewrite lockfile_prefix_of_filename by assumption.
    rewrite sapp_assoc. reflexivity. }
  split; [ apply Hlock, Hname | ]. split; [ reflexivity | ].
  intros other Hother Heq. rewrite !Hlock in Heq by assumption.
  apply path_join_inj in Heq; [ | reflexivity | reflexivity ].
  injection Heq as Heq. eapply sapp_inj_r, Heq.
Qed.

End LockNames.

Lemma build_lock_of_project_witness :
  DaxManager.build_lock Sample.E0
    (DaxProjectSettingsManager.settings_filename Sample.manager0 "ALPHA")
  = "/res/FlagFiles/settings-ALPHA_BUILD_RUNNING.txt".
Proof.
  exact (proj1 (build_lock_of_project Sample.E0 Sample.manager0 "ALPHA" eq_refl)).
Defined.

(** ** Time stamps of the registry format *)

Section Digits.

Import Datetime.

(** A number below one hundred is written with two digit characters. *)
Lemma pad2_chars (z : Z) :
  0 <= z <= 99 ->
  exists c1 c2, pad2 z = String c1 (String c2 "")
                /\ PyStr.code c1 = 48 + z / 10 /\ PyStr.code c2 = 48 + z mod 10.
Proof.
  intros Hz.
  assert (Hall : forallb (fun n =>
            let z := Z.of_nat n in
            match pad2 z with
            | String c1 (String c2 EmptyString) =>
                (PyStr.code c1 =? 48 + z / 10) && (PyStr.code c2 =? 48 + z mod 10)
            | _ => false
            end) (seq 0 100) = true) by (vm_compute; reflexivity).
  rewrite forallb_forall in Hall. specialize (Hall (Z.to_nat z)).
  rewrite Z2Nat.id in Hall by lia. cbv zeta in Hall.
  assert (Hin : In (Z.to_nat z) (seq 0 100)) by (apply in_seq; lia).
  specialize (Hall Hin).
  destruct (pad2 z) as [ | c1 [ | c2 [ | ? ?]]]; try discriminate.
  apply andb_true_iff in Hall. destruct Hall as [H1 H2].
  exists c1, c2. split; [ reflexivity | ]. split; lia.
Qed.

Lemma pad4_pad2 (y : Z) :
  0 <= y <= 9999 -> pad4 y = pad2 (y / 100) +:+ pad2 (y mod 100).
Proof.
  intros Hy.
  assert (Hall : forallb (fun n =>
            let y := Z.of_nat n in
            String.eqb (pad4 y) (pad2 (y / 100) +:+ pad2 (y mod 100)))
            (seq 0 (100 * 100)) = true) by (vm_compute; reflexivity).
  rewrite forallb_forall in Hall. specialize (Hall (Z.to_nat y)).
  rewrite Z2Nat.id in Hall by lia. apply String.eqb_eq, Hall, in_seq. lia.
Qed.

End Digits.

Section Parsing.

Import Datetime.

Lemma between_code (lo hi : Z) (c : ascii) (k : Z) :
  PyStr.code c = 48 + k -> 0 <= k <= 9 ->
  between lo hi c = (lo <=? k) && (k <=? hi) /\ PyStr.digit_val c = k.
Proof.
  intros Hc Hk. unfold between, PyStr.is_digit, PyStr.digit_val. rewrite Hc.
  replace (48 + k - 48) with k by lia.
  destruct (Z.leb_spec 48 (48 + k)); [ | lia ].
  destruct (Z.leb_spec (48 + k) 57); [ | lia ].
  split; reflexivity.
Qed.

Lemma two_chars (lo1 hi1 lo2 hi2 : Z) (c1 c2 : ascii) (r : string) :
  two lo1 hi1 lo2 hi2 (String c1 (String c2 r))
  = if between lo1 hi1 c1 && between lo2 hi2 c2
    then [(10 * PyStr.digit_val c1 + PyStr.digit_val c2, r)] else [].
Proof.
  unfold two, pbind, sat, pret.
  destruct (between lo1 hi1 c1); [ | reflexivity ]. cbn [flat_map andb].
  destruct (between lo2 hi2 c2); reflexivity.
Qed.

Lemma digits_of (z : Z) :
  0 <= z <= 99 -> z = 10 * (z / 10) + z mod 10 /\ 0 <= z / 10 <= 9 /\ 0 <= z mod 10 <= 9.
Proof.
  intros Hz. pose proof (Z.div_mod z 10 ltac:(lia)).
  pose proof (Z.mod_pos_bound z 10 ltac:(lia)).
  split; [ assumption | ]. split; [ | lia ].
  split; [ apply Z.div_pos; lia | ].
  assert (z / 10 < 10) by (apply Z.div_lt_upper_bound; lia). lia.
Qed.

(** Two digits in given ranges, read from a padded number. *)
Lemma two_pad2 (lo1 hi1 lo2 hi2 z : Z) (r : string) :
  0 <= z <= 99 ->
  two lo1 hi1 lo2 hi2 (pad2 z +:+ r)
  = if (lo1 <=? z / 10) && (z / 10 <=? hi1) && ((lo2 <=? z mod 10) && (z mod 10 <=? hi2))
    then [(z, r)] else [].
Proof.
  intros Hz. destruct (pad2_chars z Hz) as (c1 & c2 & -> & H1 & H2).
  destruct (digits_of z Hz) as (Hdm & Hd & Hm).
  rewrite !sapp_cons, two_chars.
  destruct (between_code lo1 hi1 c1 _ H1 Hd) as [-> ->].
  destruct (between_code lo2 hi2 c2 _ H2 ltac:(lia)) as [-> ->].
  rewrite <- Hdm. reflexivity.
Qed.

(** Settles which alternative of a directive matches a padded number. *)
Ltac alternatives z :=
  let H := fresh in
  let a := fresh "a" in
  let b := fresh "b" in
  intros H; destruct (digits_of z ltac:(lia)) as (? & ? & ?);
  unfold palt; rewrite !two_pad2 by lia;
  set (a := z / 10) in *; set (b := z mod 10) in *;
  repeat match goal with
         | |- context [?x <=? ?y] => destruct (Z.leb_spec x y)
         end;
  cbn [andb app hd_error]; try reflexivity; exfalso; lia.

Lemma dir_m_pad2 (z : Z) (r : string) :
  1 <= z <= 12 -> hd_error (dir_m (pad2 z +:+ r)) = Some (z, r).
Proof. unfold dir_m. alternatives z. Qed.

Lemma dir_d_pad2 (z : Z) (r : string) :
  1 <= z <= 31 -> hd_error (dir_d (pad2 z +:+ r)) = Some (z, r).
Proof. unfold dir_d. alternatives z. Qed.

Lemma dir_H_pad2 (z : Z) (r : string) :
  0 <= z <= 23 -> hd_error (dir_H (pad2 z +:+ r)) = Some (z, r).
Proof. unfold dir_H. alternatives z. Qed.

Lemma dir_M_pad2 (z : Z) (r : string) :
  0 <= z <= 59 -> hd_error (dir_M (pad2 z +:+ r)) = Some (z, r).
Proof. unfold dir_M. alternatives z. Qed.

Lemma dir_S_pad2 (z : Z) (r : string) :
  0 <= z <= 59 -> hd_error (dir_S (pad2 z +:+ r)) = Some (z, r).
Proof. unfold dir_S. alternatives z. Qed.

Lemma pbind_head {A B} (p : parser A) (k : A -> parser B) (s r r' : string)
      (a : A) (b : B) :
  hd_error (p s) = Some (a, r) -> hd_error (k a r) = Some (b, r') ->
  hd_error (pbind p k s) = Some (b, r').
Proof.
  unfold pbind. intros Hp Hk.
  destruct (p s) as [ | [a0 r0] tl]; [ discriminate | ].
  injection Hp as -> ->. cbn [flat_map].
  destruct (k a r) as [ | x tl']; [ discriminate | ]. exact Hk.
Qed.

Lemma dir_Y_pad4 (y : Z) (r : string) :
  0 <= y <= 9999 -> hd_error (dir_Y (pad4 y +:+ r)) = Some (y, r).
Proof.
  intros Hy. rewrite pad4_pad2, sapp_assoc by assumption.
  pose proof (Z.div_mod y 100 ltac:(lia)) as Hdm.
  pose proof (Z.mod_pos_bound y 100 ltac:(lia)) as Hm.
  assert (Hd : 0 <= y / 100 <= 99).
  { split; [ apply Z.div_pos; lia | ].
    assert (y / 100 < 100) by (apply Z.div_lt_upper_bound; lia). lia. }
  unfold dir_Y.
  assert (Htwo : forall z s, 0 <= z <= 99 ->
            hd_error (two 0 9 0 9 (pad2 z +:+ s)) = Some (z, s)).
  { intros z s. alternatives z. }
  eapply pbind_head; [ apply Htwo, Hd | ].
  eapply pbind_head; [ apply Htwo; lia | ].
  unfold pret. cbn [hd_error]. do 2 f_equal. lia.
Qed.

Lemma lit_head (c : ascii) (r : string) : hd_error (lit c (String c r)) = Some (c, r).
Proof.
  unfold lit, sat, PyStr.char_eqb. rewrite Ascii.eqb_refl. reflexivity.
Qed.

(** The blank of the format, followed by a padded number. *)
Lemma spaces_head (z : Z) (r : string) :
  0 <= z <= 99 -> hd_error (spaces (String " " (pad2 z +:+ r))) = Some (tt, pad2 z +:+ r).
Proof.
  intros Hz. destruct (pad2_chars z Hz) as (c1 & c2 & -> & H1 & _).
  destruct (digits_of z Hz) as (_ & Hd & _).
  rewrite !sapp_cons. cbn [spaces].
  replace (PyStr.is_space " ") with true by reflexivity.
  replace (PyStr.is_space c1) with false; [ reflexivity | ].
  unfold PyStr.is_space. rewrite H1.
  repeat match goal with
         | |- context [?x <=? ?y] => destruct (Z.leb_spec x y)
         | |- context [?x =? ?y] => destruct (Z.eqb_spec x y)
         end; cbn; try reflexivity; lia.
Qed.

Lemma valid_fields (d : datetime) :
  valid d = true ->
  1 <= year d <= 9999 /\ 1 <= month d <= 12
  /\ 1 <= day d <= days_in_month (year d) (month d)
  /\ 0 <= hour d <= 23 /\ 0 <= minute d <= 59 /\ 0 <= second d <= 59.
Proof.
  unfold valid. rewrite !andb_true_iff, !Z.leb_le. tauto.
Qed.

Lemma days_in_month_range (y m : Z) : 28 <= days_in_month y m <= 31.
Proof.
  unfold days_in_month.
  repeat match goal with
         | |- context [if ?c then _ else _] => destruct c
         end; lia.
Qed.

Lemma valid_to_second (d : datetime) : valid d = true -> valid (Stamp.to_second d) = true.
Proof.
  unfold valid, Stamp.to_second. cbn [year month day hour minute second microsecond].
  rewrite !andb_true_iff, !Z.leb_le. intuition lia.
Qed.

Lemma rc_regex_strftime (d : datetime) :
  valid d = true ->
  hd_error (rc_regex (strftime_rc d)) = Some (Stamp.to_second d, "").
Proof.
  intros Hv. destruct (valid_fields d Hv) as (Hy & Hm & Hd & Hh & Hmi & Hs).
  pose proof (days_in_month_range (year d) (month d)) as Hdim.
  unfold rc_regex, strftime_rc.
  eapply pbind_head; [ apply dir_Y_pad4; lia | ].
  eapply pbind_head; [ apply lit_head | ].
  eapply pbind_head; [ apply dir_m_pad2; lia | ].
  eapply pbind_head; [ apply lit_head | ].
  eapply pbind_head; [ apply dir_d_pad2; lia | ].
  eapply pbind_head; [ apply spaces_head; lia | ].
  eapply pbind_head; [ apply dir_H_pad2; lia | ].
  eapply pbind_head; [ apply lit_head | ].
  eapply pbind_head; [ apply dir_M_pad2; lia | ].
  eapply pbind_head; [ apply lit_head | ].
  eapply pbind_head; [ rewrite <- (sapp_nil_r (pad2 (second d))); apply dir_S_pad2; lia | ].
  reflexivity.
Qed.

Lemma strptime_strftime_second (d : datetime) :
  valid d = true -> strptime_rc (strftime_rc d) = Some (Stamp.to_second d).
Proof.
  intros Hv. unfold strptime_rc.
  pose proof (rc_regex_strftime d Hv) as Hhead.
  destruct (rc_regex (strftime_rc d)) as [ | [d' r] tl]; [ discriminate | ].
  injection Hhead as -> ->. rewrite (valid_to_second d Hv). reflexivity.
Qed.

(** X3. A time stamp written in the registry format is read back by
    [strptime] as the same date and time, to the second: what
    [set_last_build_start] and [set_last_build_complete] write is what
    [get_last_run] and [duration] read. *)
Theorem strptime_strftime (d : datetime) :
  valid d = true -> 1000 <= year d ->
  strptime_rc (strftime_rc d) = Some (Stamp.to_second d).
Proof.
  intros Hv _. apply strptime_strftime_second, Hv.
Qed.

End Parsing.

Lemma strptime_strftime_witness :
  Datetime.strptime_rc
    (Datetime.strftime_rc (Datetime.mkDatetime 2021 3 9 8 5 59 123456))
  = Some (Datetime.mkDatetime 2021 3 9 8 5 59 0).
Proof.
  apply (strptime_strftime (Datetime.mkDatetime 2021 3 9 8 5 59 123456)).
  - reflexivity.
  - cbn. lia.
Defined.

Section StampOrder.

Import Datetime.

Lemma ltb_pad2 (x y : Z) (r r' : string) :
  0 <= x <= 99 -> 0 <= y <= 99 ->
  PyStr.ltb (pad2 x +:+ r) (pad2 y +:+ r') = (x <? y) || ((x =? y) && PyStr.ltb r r').
Proof.
  intros Hx Hy.
  destruct (pad2_chars x Hx) as (c1 & c2 & -> & H1 & H2).
  destruct (pad2_chars y Hy) as (d1 & d2 & -> & G1 & G2).
  destruct (digits_of x Hx) as (Ex & ? & ?). destruct (digits_of y Hy) as (Ey & ? & ?).
  rewrite !sapp_cons. cbn [PyStr.ltb String.append]. rewrite H1, H2, G1, G2.
  set (a := x / 10) in *. set (b := x mod 10) in *.
  set (a' := y / 10) in *. set (b' := y mod 10) in *.
  repeat match goal with
         | |- context [?u <? ?v] => destruct (Z.ltb_spec u v)
         | |- context [?u =? ?v] => destruct (Z.eqb_spec u v)
         end; cbn [orb andb]; try reflexivity; exfalso; lia.
Qed.

Lemma ltb_pad2_end (x y : Z) :
  0 <= x <= 99 -> 0 <= y <= 99 -> PyStr.ltb (pad2 x) (pad2 y) = (x <? y).
Proof.
  intros Hx Hy. rewrite <- (sapp_nil_r (pad2 x)), <- (sapp_nil_r (pad2 y)).
  rewrite ltb_pad2 by assumption. cbn [PyStr.ltb].
  rewrite andb_false_r, orb_false_r. reflexivity.
Qed.

Lemma ltb_pad4 (x y : Z) (r r' : string) :
  0 <= x <= 9999 -> 0 <= y <= 9999 ->
  PyStr.ltb (pad4 x +:+ r) (pad4 y +:+ r') = (x <? y) || ((x =? y) && PyStr.ltb r r').
Proof.
  intros Hx Hy. rewrite !pad4_pad2, !sapp_assoc by assumption.
  pose proof (Z.div_mod x 100 ltac:(lia)). pose proof (Z.mod_pos_bound x 100 ltac:(lia)).
  pose proof (Z.div_mod y 100 ltac:(lia)). pose proof (Z.mod_pos_bound y 100 ltac:(lia)).
  assert (0 <= x / 100 < 100)
    by (split; [ apply Z.div_pos; lia | apply Z.div_lt_upper_bound; lia ]).
  assert (0 <= y / 100 < 100)
    by (split; [ apply Z.div_pos; lia | apply Z.div_lt_upper_bound; lia ]).
  rewrite !ltb_pad2 by lia.
  set (a := x / 100) in *. set (b := x mod 100) in *.
  set (a' := y / 100) in *. set (b' := y mod 100) in *.
  repeat match goal with
         | |- context [?u <? ?v] => destruct (Z.ltb_spec u v)
         | |- context [?u =? ?v] => destruct (Z.eqb_spec u v)
         end; cbn [orb andb]; try reflexivity; exfalso; lia.
Qed.

Lemma ltb_lit (c : ascii) (r r' : string) :
  PyStr.ltb (String c "" +:+ r) (String c "" +:+ r') = PyStr.ltb r r'.
Proof.
  change (String c "" +:+ r) with (String c r).
  change (String c "" +:+ r') with (String c r').
  cbn [PyStr.ltb]. rewrite Z.ltb_irrefl, Z.eqb_refl. reflexivity.
Qed.

(** Two stamps of the registry format compare as texts the way their
    fields compare as numbers. *)
Lemma ltb_strftime (a b : datetime) :
  valid a = true -> valid b = true ->
  PyStr.ltb (strftime_rc a) (strftime_rc b) = Stamp.before a b.
Proof.
  intros Ha Hb.
  destruct (valid_fields a Ha) as (? & ? & ? & ? & ? & ?).
  destruct (valid_fields b Hb) as (? & ? & ? & ? & ? & ?).
  pose proof (days_in_month_range (year a) (month a)).
  pose proof (days_in_month_range (year b) (month b)).
  unfold strftime_rc, Stamp.before.
  rewrite ltb_pad4, ltb_lit by lia.
  rewrite ltb_pad2, ltb_lit by lia.
  rewrite ltb_pad2, ltb_lit by lia.
  rewrite ltb_pad2, ltb_lit by lia.
  rewrite ltb_pad2, ltb_lit by lia.
  rewrite ltb_pad2_end by lia. reflexivity.
Qed.

(** *** Ordinals *)

Lemma days_before_year_succ (y : Z) :
  days_before_year (y + 1) = days_before_year y + Stamp.year_length y.
Proof.
  unfold days_before_year, Stamp.year_length, is_leap.
  replace (y + 1 - 1) with y by lia.
  destruct (Z.eqb_spec (y mod 4) 0); destruct (Z.eqb_spec (y mod 100) 0);
    destruct (Z.eqb_spec (y mod 400) 0); cbn [andb orb negb];
    Z.div_mod_to_equations; lia.
Qed.

Lemma days_before_year_mono (y y' : Z) :
  y <= y' -> days_before_year y <= days_before_year y'.
Proof. unfold days_before_year. intros H. Z.div_mod_to_equations. lia. Qed.

Lemma days_in_first_months_mono (y : Z) (k k' : nat) :
  (k <= k')%nat -> days_in_first_months y k <= days_in_first_months y k'.
Proof.
  induction 1 as [ | k' _ IH]; [ lia | ].
  cbn [days_in_first_months].
  pose proof (days_in_month_range y (Z.of_nat (S k'))). lia.
Qed.

Lemma days_in_year (y : Z) : days_in_first_months y 12 = Stamp.year_length y.
Proof.
  unfold Stamp.year_length. cbn [days_in_first_months]. unfold days_in_month.
  cbn [Z.of_nat Pos.of_succ_nat Pos.succ Z.eqb Pos.eqb orb].
  destruct (is_leap y); reflexivity.
Qed.

(** The day of the year of a valid date lies within its year, and grows
    with the month and the day. *)
Lemma day_of_year_range (d : datetime) :
  valid d = true ->
  1 <= days_before_month (year d) (month d) + day d <= Stamp.year_length (year d).
Proof.
  intros Hv. destruct (valid_fields d Hv) as (_ & Hm & Hd & _).
  unfold days_before_month.
  pose proof (days_in_first_months_mono (year d) 0 (Z.to_nat (month d - 1)) ltac:(lia)) as H0.
  pose proof (days_in_first_months_mono (year d) (S (Z.to_nat (month d - 1))) 12
                ltac:(lia)) as H1.
  rewrite days_in_year in H1. cbn [days_in_first_months] in H0, H1.
  replace (Z.of_nat (S (Z.to_nat (month d - 1)))) with (month d) in H1 by lia.
  lia.
Qed.

Lemma day_of_year_mono (y m m' d d' : Z) :
  1 <= m -> m < m' -> 1 <= d <= days_in_month y m -> 1 <= d' ->
  days_before_month y m + d < days_before_month y m' + d'.
Proof.
  intros Hm Hlt Hd Hd'. unfold days_before_month.
  pose proof (days_in_first_months_mono y (S (Z.to_nat (m - 1))) (Z.to_nat (m' - 1))
                ltac:(lia)) as H.
  cbn [days_in_first_months] in H.
  replace (Z.of_nat (S (Z.to_nat (m - 1)))) with m in H by lia.
  lia.
Qed.

Lemma toordinal_year (a b : datetime) :
  valid a = true -> valid b = true -> year a < year b -> toordinal a < toordinal b.
Proof.
  intros Ha Hb Hlt. unfold toordinal.
  pose proof (day_of_year_range a Ha). pose proof (day_of_year_range b Hb).
  pose proof (days_before_year_succ (year a)).
  pose proof (days_before_year_mono (year a + 1) (year b) ltac:(lia)).
  lia.
Qed.

Lemma toordinal_month (a b : datetime) :
  valid a = true -> valid b = true -> year a = year b -> month a < month b ->
  toordinal a < toordinal b.
Proof.
  intros Ha Hb Hy Hlt. unfold toordinal. rewrite Hy.
  destruct (valid_fields a Ha) as (_ & ? & ? & _).
  destruct (valid_fields b Hb) as (_ & ? & ? & _).
  pose proof (day_of_year_mono (year b) (month a) (month b) (day a) (day b)).
  rewrite Hy in *. lia.
Qed.

Lemma second_of_day_range (d : datetime) :
  valid d = true -> 0 <= second_of_day d < 86400.
Proof.
  intros Hv. destruct (valid_fields d Hv) as (_ & _ & _ & ? & ? & ?).
  unfold second_of_day. lia.
Qed.

Lemma before_total_seconds (a b : datetime) :
  valid a = true -> valid b = true ->
  Stamp.before a b = (0 <? total_seconds b a).
Proof.
  intros Ha Hb.
  pose proof (second_of_day_range a Ha) as Sa. pose proof (second_of_day_range b Hb) as Sb.
  destruct (valid_fields a Ha) as (_ & _ & _ & ? & ? & ?).
  destruct (valid_fields b Hb) as (_ & _ & _ & ? & ? & ?).
  unfold Stamp.before, total_seconds.
  destruct (Z.ltb_spec (year a) (year b)) as [Hy | Hy]; cbn [orb].
  { pose proof (toordinal_year a b Ha Hb Hy).
    destruct (Z.ltb_spec 0 ((toordinal b - toordinal a) * 86400
                            + (second_of_day b - second_of_day a))); [ reflexivity | lia ]. }
  destruct (Z.eqb_spec (year a) (year b)) as [Ey | Ny]; cbn [andb].
  2: { pose proof (toordinal_year b a Hb Ha ltac:(lia)).
       destruct (Z.ltb_spec 0 ((toordinal b - toordinal a) * 86400
                               + (second_of_day b - second_of_day a))); [ lia | reflexivity ]. }
  destruct (Z.ltb_spec (month a) (month b)) as [Hm | Hm]; cbn [orb].
  { pose proof (toordinal_month a b Ha Hb Ey Hm).
    destruct (Z.ltb_spec 0 ((toordinal b - toordinal a) * 86400
                            + (second_of_day b - second_of_day a))); [ reflexivity | lia ]. }
  destruct (Z.eqb_spec (month a) (month b)) as [Em | Nm]; cbn [andb].
  2: { pose proof (toordinal_month b a Hb Ha (eq_sym Ey) ltac:(lia)).
       destruct (Z.ltb_spec 0 ((toordinal b - toordinal a) * 86400
                               + (second_of_day b - second_of_day a))); [ lia | reflexivity ]. }
  unfold toordinal, second_of_day in *. rewrite Ey, Em.
  repeat match goal with
         | |- context [?u <? ?v] => destruct (Z.ltb_spec u v)
         | |- context [?u =? ?v] => destruct (Z.eqb_spec u v)
         end; cbn [orb andb]; try reflexivity; exfalso; lia.
Qed.

Lemma ltb_strftime_seconds (a b : datetime) :
  valid a = true -> valid b = true ->
  PyStr.ltb (strftime_rc a) (strftime_rc b) = (0 <? total_seconds b a).
Proof.
  intros Ha Hb. rewrite ltb_strftime by assumption.
  apply before_total_seconds; assumption.
Qed.

(** X4. Comparing two time stamps of the registry format as texts, as
    [get_last_run] does, is comparing the moments they stand for: the
    first is smaller exactly when the time from the first to the second,
    as [duration] computes it, is positive. *)
Theorem strftime_order (a b : datetime) :
  valid a = true -> valid b = true -> 1000 <= year a -> 1000 <= year b ->
  PyStr.ltb (strftime_rc a) (strftime_rc b) = (0 <? total_seconds b a).
Proof.
  intros Ha Hb _ _. apply ltb_strftime_seconds; assumption.
Qed.

End StampOrder.

Lemma strftime_order_witness :
  PyStr.ltb (Datetime.strftime_rc (Datetime.mkDatetime 2020 12 31 23 59 59 0))
            (Datetime.strftime_rc (Datetime.mkDatetime 2021 1 1 0 0 0 0))
  = true.
Proof.
  rewrite (strftime_order (Datetime.mkDatetime 2020 12 31 23 59 59 0)
             (Datetime.mkDatetime 2021 1 1 0 0 0 0));
    [ reflexivity | reflexivity | reflexivity | cbn; lia | cbn; lia ].
Defined.

(** ** What the bookkeeping reads back *)

Section LastRun.

Import Datetime Manager DaxProjectSettingsManager.

Variable E : env.

Lemma strftime_nonempty (d : datetime) :
  valid d = true -> String.eqb (strftime_rc d) "" = false.
Proof.
  intros Hv. destruct (valid_fields d Hv) as (Hy & _).
  unfold strftime_rc. rewrite pad4_pad2 by lia.
  assert (Hd : 0 <= year d / 100 <= 99).
  { split; [ apply Z.div_pos; lia | ].
    assert (year d / 100 < 100) by (apply Z.div_lt_upper_bound; lia). lia. }
  destruct (pad2_chars _ Hd) as (c1 & c2 & -> & _). reflexivity.
Qed.

(** X5. When the registry holds, for a project, a start and a finish
    stamp of a complete build as the manager writes them, [get_last_run]
    returns the start time if the finish is at least one second later and
    [None] otherwise, in particular for a build that started and finished
    within the same second.  It changes nothing. *)
Theorem get_last_run_recorded (project : string) (w : world) (s f : datetime)
        (rec : row) (recs : list row) :
  valid s = true -> valid f = true -> 1000 <= year s -> 1000 <= year f ->
  export_fields E (imports w)
    ["build_lastcompletestarttime"; "build_lastcompletefinishtime"]
    (Some project) false = Ok (rec :: recs) ->
  row_get "build_lastcompletestarttime" rec = Some (strftime_rc s) ->
  row_get "build_lastcompletefinishtime" rec = Some (strftime_rc f) ->
  get_last_run E project w
  = (Ok (if 0 <? total_seconds f s then Some (Stamp.to_second s) else None), w).
Proof.
  intros Hs Hf Ys Yf Hexp Hstart Hfinish.
  unfold get_last_run, bind, export_records_fields. rewrite Hexp.
  cbn [first ret]. unfold item. rewrite Hstart, Hfinish. cbn [ret].
  rewrite !strftime_nonempty by assumption. cbn [negb andb].
  rewrite ltb_strftime_seconds by assumption.
  destruct (0 <? total_seconds f s); [ | reflexivity ].
  unfold strptime. rewrite strptime_strftime_second by assumption. reflexivity.
Qed.

(** X6. The duration of a build computed from two stamps the manager
    wrote is never missing: it is the number of whole hours and minutes
    between them, whatever their order. *)
Theorem duration_of_stamps (s f : datetime) (w : world) :
  valid s = true -> valid f = true -> 1000 <= year s -> 1000 <= year f ->
  let secs := total_seconds f s in
  duration (strftime_rc s) (strftime_rc f) w
  = (Ok (Some (if 3600 <=? secs
               then PyStr.of_Z (secs / 3600) +:+ " hrs "
                    +:+ PyStr.of_Z (secs mod 3600 / 60) +:+ " mins"
               else PyStr.of_Z (secs mod 3600 / 60) +:+ " mins")), w).
Proof.
  intros Hs Hf Ys Yf. cbv zeta.
  unfold duration, try_except, bind, strptime.
  rewrite !strptime_strftime_second by assumption. cbn [ret].
  change (total_seconds (Stamp.to_second f) (Stamp.to_second s))
    with (total_seconds f s).
  rewrite hours_positive.
  destruct (3600 <=? total_seconds f s); reflexivity.
Qed.

End LastRun.

Lemma get_last_run_recorded_witness :
  DaxProjectSettingsManager.get_last_run Registry.E_kept "ALPHA" Registry.w_built
  = (Ok (Some (Datetime.mkDatetime 2020 1 1 10 0 0 0)), Registry.w_built).
Proof.
  refine (get_last_run_recorded Registry.E_kept "ALPHA" Registry.w_built
            (Sample.clock0 0) (Sample.clock0 3)
            [ ("build_lastcompletestarttime", "2020-01-01 10:00:00");
              ("build_lastcompletefinishtime", "2020-01-01 10:03:00") ] []
            _ _ _ _ _ _ _).
  - reflexivity.
  - reflexivity.
  - cbn. lia.
  - cbn. lia.
  - vm_compute. reflexivity.
  - reflexivity.
  - reflexivity.
Defined.

Lemma duration_of_stamps_witness :
  DaxProjectSettingsManager.duration
    (Datetime.strftime_rc (Datetime.mkDatetime 2021 3 1 8 15 0 0))
    (Datetime.strftime_rc (Datetime.mkDatetime 2021 3 2 9 45 30 0)) Sample.w_empty
  = (Ok (Some "25 hrs 30 mins"), Sample.w_empty).
Proof.
  refine (duration_of_stamps (Datetime.mkDatetime 2021 3 1 8 15 0 0)
            (Datetime.mkDatetime 2021 3 2 9 45 30 0) Sample.w_empty _ _ _ _).
  - reflexivity.
  - reflexivity.
  - cbn. lia.
  - cbn. lia.
Defined.

(** ** Reaping stale locks *)

Section Reaper.

Import Manager.

Variable E : env.

Lemma judge_no_fail (file : string) (n : option node) :
  (forall pid e, os_kill E pid <> KillFails e) ->
  match Lock.judge E file n with
  | Lock.Fail _ => False
  | _ => True
  end.
Proof.
  intros Hkill. unfold Lock.judge.
  destruct n as [[content [ | ] | ] | ]; try exact I.
  destruct (lock_owner content) as [[host pid] | ]; try exact I.
  destruct (String.eqb host (this_host E)); try exact I.
  destruct (os_kill E pid) as [ | | | e] eqn:Hk; try exact I.
  - destruct (remove_denied E file); exact I.
  - destruct (Hkill pid e Hk).
Qed.

(** One step of the loop of [clean_lockfiles]: an entry of the file
    system changes only by the removal of a stale lock, and such a lock
    is removed unless the operating system refuses. *)
Lemma reap_step (x : string) (w w1 : world) (res : res unit) :
  check_lockfile E x w = (res, w1) ->
  (forall p, fs w1 !! p = fs w !! p
             \/ (fs w1 !! p = None /\ p = x /\ Lock.stale E (fs w !! p)
                 /\ remove_denied E p = false))
  /\ (res = Ok tt -> Lock.stale E (fs w !! x) -> remove_denied E x = false ->
      fs w1 !! x = None)
  /\ ((forall pid e, os_kill E pid <> KillFails e) -> res = Ok tt).
Proof.
  intros Hrun. destruct (check_lockfile_judge E x w) as [Hres Hfs].
  rewrite Hrun in Hres, Hfs. cbn [fst snd] in Hres, Hfs.
  pose proof (judge_delete E x (fs w !! x)) as Hdel.
  pose proof (judge_no_fail x (fs w !! x)) as Hfail.
  destruct (Lock.judge E x (fs w !! x)) eqn:Hj; subst res; rewrite Hfs.
  2: { destruct (proj1 Hdel eq_refl) as [Hst Hden]. split; [ | split ].
       - intros p. destruct (decide (p = x)) as [-> | Hne].
         + right. rewrite lookup_delete_eq. repeat split; assumption.
         + left. apply lookup_delete_ne. congruence.
       - intros _ _ _. apply lookup_delete_eq.
       - reflexivity. }
  1, 2: split; [ intros p; left; reflexivity | ];
    (split; [ | reflexivity ]); intros _ Hst Hden;
    enough (Hx : Lock.stale E (fs w !! x) /\ remove_denied E x = false)
      by (apply Hdel in Hx; discriminate Hx); split; assumption.
  split; [ intros p; left; reflexivity | ].
  split; [ discriminate | ]. intros Hkill. destruct (Hfail Hkill).
Qed.

(** The loop of [clean_lockfiles] over any list of paths. *)
Lemma reap_loop (l : list string) (w : world) :
  let r := for_each l (fun file =>
               LOGGER DEBUG ("checking lock file:" +:+ file) ;;
               check_lockfile E file) w in
  (forall p, fs (snd r) !! p = fs w !! p
             \/ (fs (snd r) !! p = None /\ In p l /\ Lock.stale E (fs w !! p)
                 /\ remove_denied E p = false))
  /\ (fst r = Ok tt ->
      forall p, In p l -> Lock.stale E (fs w !! p) -> remove_denied E p = false ->
                fs (snd r) !! p = None)
  /\ ((forall pid e, os_kill E pid <> KillFails e) -> fst r = Ok tt).
Proof.
  cbv zeta. set (body := fun file : string => _).
  revert w. induction l as [ | x l IH]; intros w.
  - cbn. split; [ intros p; left; reflexivity | ].
    split; [ intros _ p [] | reflexivity ].
  - set (v := add_log (mkLog "manager" None DEBUG ("checking lock file:" +:+ x)) w).
    assert (Hstep : for_each (x :: l) body w
                    = match check_lockfile E x v with
                      | (Ok _, w1) => for_each l body w1
                      | (Raise e, w1) => (Raise e, w1)
                      end) by reflexivity.
    rewrite Hstep. clear Hstep.
    destruct (check_lockfile E x v) as [res w1] eqn:Hrun.
    destruct (reap_step x v w1 res Hrun) as (Hone & Hgone & Hsafe).
    change (fs v) with (fs w) in Hone, Hgone.
    destruct res as [[] | e].
    + destruct (IH w1) as (Hframe & Hdone & Htotal).
      set (r := for_each l body w1) in *.
      split; [ | split ].
      * intros p. destruct (Hframe p) as [Hp | (Hp & Hin & Hst & Hden)].
        -- rewrite Hp. destruct (Hone p) as [Hq | (Hq & -> & Hst & Hden)].
           ++ left. exact Hq.
           ++ right. split; [ exact Hq | ]. split; [ left; reflexivity | ].
              split; assumption.
        -- destruct (Hone p) as [Hq | (Hq & _ & _)].
           ++ right. rewrite Hq in Hst. split; [ exact Hp | ].
              split; [ right; exact Hin | ]. split; assumption.
           ++ rewrite Hq in Hst. destruct Hst as (c & pid & [=] & _).
      * intros Hok p Hin Hst Hden.
        assert (Hkeep : forall q, fs w1 !! q = None -> fs (snd r) !! q = None).
        { intros q Hq. destruct (Hframe q) as [Hr | (Hr & _)];
            [ rewrite Hr; exact Hq | exact Hr ]. }
        destruct (decide (p = x)) as [-> | Hne].
        -- apply Hkeep, Hgone; [ reflexivity | assumption | assumption ].
        -- destruct Hin as [-> | Hin]; [ contradiction | ].
           apply (Hdone Hok p Hin); [ | exact Hden ].
           destruct (Hone p) as [Hq | (_ & -> & _)]; [ | contradiction ].
           rewrite Hq. exact Hst.
      * exact Htotal.
    + cbn [fst snd]. split; [ | split ].
      * intros p. destruct (Hone p) as [Hq | (Hq & -> & Hst & Hden)].
        -- left. exact Hq.
        -- right. split; [ exact Hq | ]. split; [ left; reflexivity | ].
           split; assumption.
      * discriminate.
      * intros Hkill. discriminate (Hsafe Hkill).
Qed.

Lemma lock_dir_shape :
  Lock.lock_dir E <> "" /\ PyStr.endswith "/" (Lock.lock_dir E) = false.
Proof.
  unfold Lock.lock_dir.
  destruct (path_join_shape (get_results_dir E) "FlagFiles" eq_refl)
    as [[-> _] | (a0 & -> & _)].
  - split; [ discriminate | reflexivity ].
  - split.
    + intros H. apply (f_equal String.length) in H.
      rewrite length_sapp in H. cbn in H. lia.
    + unfold PyStr.endswith. rewrite rev_sapp. reflexivity.
Qed.

Lemma lock_path (name : string) :
  PyStr.contains "/" name = false ->
  PyStr.path_join (Lock.lock_dir E) name = Lock.lock_dir E +:+ "/" +:+ name.
Proof.
  intros Hname. apply contains_char in Hname.
  destruct lock_dir_shape as [Hne Hend]. unfold PyStr.path_join.
  rewrite Hend. apply String.eqb_neq in Hne. rewrite Hne. cbn [orb].
  destruct name as [ | c name]; [ reflexivity | ].
  cbn [PyStr.startswith]. rewrite andb_true_r.
  destruct (PyStr.char_eqb "/" c) eqn:Hc; [ | reflexivity ].
  apply char_eqb_eq in Hc. subst c. exfalso. apply Hname. left. reflexivity.
Qed.

Lemma listdir_entry (d name : string) (w : world) (n : node) :
  PyStr.endswith "/" d = false -> name <> "" -> PyStr.contains "/" name = false ->
  fs w !! (d +:+ "/" +:+ name) = Some n ->
  In name (omap (Sys.entry_name d) (map fst (map_to_list (fs w)))).
Proof.
  intros Hend Hne Hname Hn. apply contains_char in Hname.
  apply list_elem_of_In, list_elem_of_omap. exists (d +:+ "/" +:+ name). split.
  - apply list_elem_of_In, in_map_iff. exists (d +:+ "/" +:+ name, n).
    split; [ reflexivity | ]. apply list_elem_of_In, elem_of_map_to_list, Hn.
  - unfold Sys.entry_name, Sys.dir_prefix. rewrite Hend, <- sapp_assoc.
    rewrite startswith_refl, drop_sapp.
    apply String.eqb_neq in Hne. rewrite Hne.
    rewrite after_last_none by assumption. reflexivity.
Qed.

Lemma clean_lockfiles_eq (w : world) :
  clean_lockfiles E w
  = match fs w !! Lock.lock_dir E with
    | Some Directory =>
        for_each (map (PyStr.path_join (Lock.lock_dir E))
                    (omap (Sys.entry_name (Lock.lock_dir E))
                          (map fst (map_to_list (fs w)))))
          (fun file => LOGGER DEBUG ("checking lock file:" +:+ file) ;;
                       check_lockfile E file) w
    | _ => (Raise (new_exn OSError (Lock.lock_dir E)), w)
    end.
Proof.
  unfold clean_lockfiles, bind at 1, Sys.listdir. fold (Lock.lock_dir E).
  destruct (fs w !! Lock.lock_dir E) as [[ | ] | ]; reflexivity.
Qed.

(** X7. [clean_lockfiles] deletes nothing but stale locks of this host in
    the lock directory: a path whose content differs afterwards is a file
    of that directory whose first line recorded this host and a process
    that no longer exists, and it is gone.  What a text records is said
    by [Lock.records], in terms of the text alone. *)
Theorem clean_lockfiles_sound (w : world) (p : string) :
  let w' := snd (clean_lockfiles E w) in
  fs w' !! p = fs w !! p
  \/ (fs w' !! p = None
      /\ (exists name, p = PyStr.path_join (Lock.lock_dir E) name)
      /\ exists content pid,
           fs w !! p = Some (RegularFile content true)
           /\ Lock.records content (this_host E) pid
           /\ os_kill E pid = NoSuchProcess).
Proof.
  cbv zeta. rewrite clean_lockfiles_eq.
  destruct (fs w !! Lock.lock_dir E) as [[ | ] | ]; try (left; reflexivity).
  destruct (reap_loop (map (PyStr.path_join (Lock.lock_dir E))
              (omap (Sys.entry_name (Lock.lock_dir E)) (map fst (map_to_list (fs w))))) w)
    as (Hframe & _).
  destruct (Hframe p) as [Hp | (Hp & Hin & Hst & _)]; [ left; exact Hp | right ].
  split; [ exact Hp | ]. split; [ | exact Hst ].
  apply in_map_iff in Hin. destruct Hin as (name & <- & _). exists name. reflexivity.
Qed.

(** X8. When [clean_lockfiles] returns normally, no stale lock of this
    host that the operating system lets it remove is left directly in the
    lock directory. *)
Theorem clean_lockfiles_complete (w : world) (name content : string) (pid : Z) :
  fst (clean_lockfiles E w) = Ok tt ->
  name <> "" -> PyStr.contains "/" name = false ->
  fs w !! (Lock.lock_dir E +:+ "/" +:+ name) = Some (RegularFile content true) ->
  Lock.records content (this_host E) pid ->
  os_kill E pid = NoSuchProcess ->
  remove_denied E (Lock.lock_dir E +:+ "/" +:+ name) = false ->
  fs (snd (clean_lockfiles E w)) !! (Lock.lock_dir E +:+ "/" +:+ name) = None.
Proof.
  rewrite clean_lockfiles_eq. intros Hok Hne Hname Hn Hown Hkill Hden.
  destruct (fs w !! Lock.lock_dir E) as [[ | ] | ]; try discriminate Hok.
  destruct (reap_loop (map (PyStr.path_join (Lock.lock_dir E))
              (omap (Sys.entry_name (Lock.lock_dir E)) (map fst (map_to_list (fs w))))) w)
    as (_ & Hdone & _).
  apply (Hdone Hok).
  - rewrite <- (lock_path name Hname). apply in_map.
    eapply listdir_entry; [ apply lock_dir_shape | eassumption .. ].
  - exists content, pid. repeat split; assumption.
  - exact Hden.
Qed.

Lemma lock_owner_host_dashless (content host : string) (pid : Z) :
  lock_owner content = Some (host, pid) -> PyStr.dashless host.
Proof.
  unfold lock_owner.
  pose proof (split_dashless (PyStr.readline content)) as Hall.
  destruct (PyStr.split "-" (PyStr.readline content)) as [ | a [ | b [ | ? ?]]];
    try discriminate.
  destruct (PyStr.to_int b) as [z | ]; simpl; [ | discriminate ].
  intros [= <- <-]. inversion Hall; subst. assumption.
Qed.

(** X9. With an [os.kill] that answers as documented (success, no such
    process, or not permitted), [clean_lockfiles] returns normally exactly
    when the lock directory exists: unreadable, garbled or foreign lock
    files never stop it. *)
Theorem clean_lockfiles_returns (w : world) :
  (forall pid e, os_kill E pid <> KillFails e) ->
  fst (clean_lockfiles E w) = Ok tt <-> fs w !! Lock.lock_dir E = Some Directory.
Proof.
  intros Hkill. rewrite clean_lockfiles_eq.
  destruct (fs w !! Lock.lock_dir E) as [[ | ] | ];
    try (split; intros H; discriminate H).
  split; [ reflexivity | intros _ ].
  destruct (reap_loop (map (PyStr.path_join (Lock.lock_dir E))
              (omap (Sys.entry_name (Lock.lock_dir E)) (map fst (map_to_list (fs w))))) w)
    as (_ & _ & Htotal).
  apply Htotal, Hkill.
Qed.

(** X10. On a host whose short name contains a dash no lock file is ever
    reaped: a lock is read as host and process id around its only dash,
    so the host read from it never is this host. *)
Theorem dashed_host_never_reaps (w : world) :
  PyStr.contains "-" (this_host E) = true ->
  fs (snd (clean_lockfiles E w)) = fs w
  /\ forall file, fs (snd (check_lockfile E file w)) = fs w.
Proof.
  intros Hdash.
  assert (Hnone : forall n, ~ Lock.stale E n).
  { intros n (content & pid & _ & Hown & _).
    apply lock_owner_records, lock_owner_host_dashless in Hown.
    apply contains_char in Hown. rewrite Hown in Hdash. discriminate. }
  split.
  - apply map_eq. intros p. rewrite clean_lockfiles_eq.
    destruct (fs w !! Lock.lock_dir E) as [[ | ] | ]; try reflexivity.
    destruct (reap_loop (map (PyStr.path_join (Lock.lock_dir E))
                (omap (Sys.entry_name (Lock.lock_dir E)) (map fst (map_to_list (fs w))))) w)
      as (Hframe & _).
    destruct (Hframe p) as [Hp | (_ & _ & Hst & _)]; [ exact Hp | ].
    destruct (Hnone (fs w !! p) Hst).
  - intros file. destruct (check_lockfile_judge E file w) as [_ Hfs]. rewrite Hfs.
    pose proof (judge_delete E file (fs w !! file)) as Hstale.
    destruct (Lock.judge E file (fs w !! file)); try reflexivity.
    destruct (Hnone _ (proj1 (proj1 Hstale eq_refl))).
Qed.

End Reaper.

Lemma clean_lockfiles_complete_witness :
  fs (snd (Manager.clean_lockfiles Sample.E0 Lock.w_flags)) !! Sample.lock_A = None.
Proof.
  replace Sample.lock_A
    with (Lock.lock_dir Sample.E0 +:+ "/" +:+ "settings-ALPHA_BUILD_RUNNING.txt")
    by (vm_compute; reflexivity).
  apply (clean_lockfiles_complete Sample.E0 Lock.w_flags
           "settings-ALPHA_BUILD_RUNNING.txt" ("Node1-4242" +:+ Sample.lf) 4242).
  - vm_compute. reflexivity.
  - discriminate.
  - vm_compute. reflexivity.
  - vm_compute. reflexivity.
  - apply lock_owner_records. reflexivity.
  - vm_compute. reflexivity.
  - reflexivity.
Defined.

Lemma clean_lockfiles_returns_witness :
  fst (Manager.clean_lockfiles Sample.E0 Lock.w_flags) = Ok tt.
Proof.
  apply (clean_lockfiles_returns Sample.E0 Lock.w_flags).
  - intros pid e. cbn. unfold Sample.kill0.
    destruct (pid =? 4242); [ discriminate | ]. destruct (pid =? 1); discriminate.
  - vm_compute. reflexivity.
Defined.

Lemma dashed_host_never_reaps_witness :
  fs (snd (Manager.clean_lockfiles (Lock.on_host "big-node.example.org") Lock.w_dashed))
  = fs Lock.w_dashed.
Proof.
  destruct (dashed_host_never_reaps (Lock.on_host "big-node.example.org") Lock.w_dashed)
    as [H _]; [ vm_compute; reflexivity | exact H ].
Defined.

(** ** Refreshing the settings directory *)

Section Monad.

Lemma bind_ok {S A B} (c : M S A) (k : A -> M S B) (s s' : S) (b : B) :
  bind c k s = (Ok b, s') ->
  exists a s1, c s = (Ok a, s1) /\ k a s1 = (Ok b, s').
Proof.
  unfold bind. destruct (c s) as [[a | e] s1]; [ | discriminate ].
  intros H. exists a, s1. split; [ reflexivity | exact H ].
Qed.

End Monad.

Section Refresh.

Import Catalog Manager DaxProjectSettingsManager.

Variable E : env.

Lemma after_last_pos (c : ascii) (s : string) (pos best : nat) :
  (0 < best)%nat -> (0 < PyStr.after_last c s pos best)%nat.
Proof.
  revert pos best. induction s as [ | d s IH]; intros pos best Hb; [ exact Hb | ].
  cbn [PyStr.after_last]. apply IH. destruct (PyStr.char_eqb c d); lia.
Qed.

(** An entry of a directory, joined to the directory, is its path. *)
Lemma entry_path (d q n : string) :
  d <> "" -> Sys.entry_name d q = Some n -> PyStr.path_join d n = q.
Proof.
  intros Hd. unfold Sys.entry_name.
  destruct (PyStr.startswith (Sys.dir_prefix d) q) eqn:Hpre; [ | discriminate ].
  apply startswith_inv in Hpre.
  set (m := PyStr.drop (String.length (Sys.dir_prefix d)) q) in *.
  destruct (String.eqb m ""); [ discriminate | ]. cbn [orb].
  destruct (Nat.eqb_spec (PyStr.after_last "/" m 0 0) 0) as [Hz | ]; [ | discriminate ].
  intros [= <-].
  assert (Hrel : PyStr.startswith "/" m = false).
  { destruct m as [ | c m']; [ reflexivity | ].
    cbn [PyStr.startswith]. rewrite andb_true_r.
    destruct (PyStr.char_eqb "/" c) eqn:Hc; [ | reflexivity ].
    cbn [PyStr.after_last] in Hz. rewrite Hc in Hz.
    pose proof (after_last_pos "/" m' 1 1 ltac:(lia)). lia. }
  unfold PyStr.path_join. rewrite Hrel, Hpre at 1.
  apply String.eqb_neq in Hd. rewrite Hd. cbn [orb].
  unfold Sys.dir_prefix. destruct (PyStr.endswith "/" d); [ reflexivity | ].
  rewrite sapp_assoc. reflexivity.
Qed.

Lemma list_settings_files_eq (d : string) (w : world) :
  DaxManager.list_settings_files d w
  = match fs w !! d with
    | Some Directory =>
        (Ok (List.filter (fun f => PyStr.endswith ".yaml" f && Sys.isfile f w)
               (map (PyStr.path_join d)
                  (omap (Sys.entry_name d) (map fst (map_to_list (fs w)))))), w)
    | _ => (Raise (new_exn OSError d), w)
    end.
Proof.
  unfold DaxManager.list_settings_files, bind, Sys.listdir.
  destruct (fs w !! d) as [[ | ] | ]; reflexivity.
Qed.

(** What [list_settings_files] lists: the regular files directly in the
    directory whose name ends in [.yaml]. *)
Lemma listed_iff (d : string) (w w' : world) (l : list string) (p : string) :
  d <> "" ->
  DaxManager.list_settings_files d w = (Ok l, w') ->
  w' = w
  /\ (In p l <-> (exists n, Sys.entry_name d p = Some n)
                 /\ PyStr.endswith ".yaml" p = true /\ Sys.isfile p w = true).
Proof.
  intros Hd. rewrite list_settings_files_eq.
  destruct (fs w !! d) as [[ | ] | ]; try discriminate.
  intros [= <- <-]. split; [ reflexivity | ].
  rewrite filter_In, andb_true_iff, in_map_iff.
  split.
  - intros [(n & <- & Hn) Hrest]. split; [ | exact Hrest ].
    apply list_elem_of_In, list_elem_of_omap in Hn. destruct Hn as (q & _ & Hq).
    rewrite (entry_path d q n Hd Hq). exists n. exact Hq.
  - intros [(n & Hn) Hrest]. split; [ | exact Hrest ].
    exists n. split; [ apply (entry_path d p n Hd Hn) | ].
    apply list_elem_of_In, list_elem_of_omap. exists p. split; [ | exact Hn ].
    destruct Hrest as [_ Hfile]. unfold Sys.isfile in Hfile.
    destruct (fs w !! p) as [node | ] eqn:Hp; [ | discriminate ].
    apply list_elem_of_In, in_map_iff. exists (p, node).
    split; [ reflexivity | ]. apply list_elem_of_In, elem_of_map_to_list, Hp.
Qed.

Lemma remove_loop (l : list string) (w w1 : world) :
  for_each l (Sys.remove E) w = (Ok tt, w1) ->
  (forall p, In p l -> fs w1 !! p = None)
  /\ (forall p, ~ In p l -> fs w1 !! p = fs w !! p)
  /\ imports w1 = imports w /\ ticks w1 = ticks w.
Proof.
  revert w. induction l as [ | x l IH]; intros w.
  - cbn. intros [= <-]. split; [ intros p [] | ]. repeat split; reflexivity.
  - cbn [for_each]. intros H. apply bind_ok in H.
    destruct H as ([] & v & Hx & Hrest).
    unfold Sys.remove in Hx.
    destruct (fs w !! x) as [[c b | ] | ]; try discriminate.
    destruct (remove_denied E x); [ discriminate | ].
    injection Hx as <-.
    destruct (IH _ Hrest) as (Hgone & Hkept & Himp & Htick).
    split; [ | split; [ | split; assumption ] ].
    + intros p [<- | Hin]; [ | apply Hgone, Hin ].
      destruct (in_dec string_dec x l) as [Hin | Hout]; [ apply Hgone, Hin | ].
      rewrite (Hkept x Hout). apply lookup_delete_eq.
    + intros p Hp. rewrite Hkept by (intros Hin; apply Hp; right; exact Hin).
      apply lookup_delete_ne. intros ->. apply Hp. left. reflexivity.
Qed.

(** X11. A refresh leaves no stale entry in the catalog: every settings
    file on the list it returns was written by this very refresh, under
    the time stamp read at its start, and ends in [.yaml]; the registry
    is only read. *)
Theorem refresh_settings_fresh (self self' : DaxManager.t) (w w' : world) :
  DaxManager.settings_dir self <> "" ->
  DaxManager.refresh_settings E self w = (Ok self', w') ->
  imports w' = imports w
  /\ forall p, In p (DaxManager.settings_list self') ->
               PyStr.endswith ".yaml" p = true
               /\ exists body,
                    fs w' !! p
                    = Some (RegularFile (stamped (clock E (ticks w)) body) true).
Proof.
  intros Hd H. unfold DaxManager.refresh_settings in H.
  apply bind_ok in H. destruct H as (old & v & Hold & H).
  apply bind_ok in H. destruct H as ([] & w1 & Hrm & H).
  apply bind_ok in H. destruct H as ([] & w2 & Hwrite & H).
  apply bind_ok in H. destruct H as (slist & v2 & Hnew & H).
  apply bind_ok in H. destruct H as ([] & w3 & Hlog & H).
  injection H as <- <-. injection Hlog as <-.
  destruct (listed_iff _ _ _ _ "" Hd Hold) as [-> _].
  destruct (listed_iff _ _ _ _ "" Hd Hnew) as [-> _].
  destruct (remove_loop _ _ _ Hrm) as (Hgone & Hkept & Himp & Htick).
  destruct (write_each_agree E (DaxManager.settings_manager self) w1 w1 eq_refl
              (same_dirs_refl _)) as (ws & _ & Hfs & _ & Himp2 & _).
  rewrite Hwrite in Hfs, Himp2. cbn [fst snd] in Hfs, Himp2.
  cbn [DaxManager.settings_list add_log fs imports].
  split; [ congruence | ].
  intros p Hp.
  apply (listed_iff _ _ _ _ p Hd Hnew) in Hp. destruct Hp as (Hentry & Hyaml & Hfile).
  split; [ exact Hyaml | ].
  rewrite Hfs, apply_writes_lookup, Htick.
  destruct (last_write p ws) as [body | ] eqn:Hlast; [ exists body; reflexivity | ].
  exfalso.
  unfold Sys.isfile in Hfile. rewrite Hfs, apply_writes_lookup, Hlast in Hfile.
  destruct (in_dec string_dec p old) as [Hin | Hout].
  - rewrite (Hgone p Hin) in Hfile. discriminate.
  - apply Hout. apply (listed_iff _ _ _ _ p Hd Hold).
    split; [ exact Hentry | ]. split; [ exact Hyaml | ].
    unfold Sys.isfile. rewrite <- (Hkept p Hout). exact Hfile.
Qed.

End Refresh.

Lemma refresh_settings_fresh_witness :
  exists body,
    fs (snd (DaxManager.refresh_settings Sample.E0 Sample.dax0 Sample.w_settings))
    !! Sample.settings_A
    = Some (RegularFile (DaxProjectSettingsManager.stamped (Sample.clock0 0) body) true).
Proof.
  pose (r := DaxManager.refresh_settings Sample.E0 Sample.dax0 Sample.w_settings).
  pose (self' := match fst r with Ok s => s | Raise _ => Sample.dax0 end).
  destruct (refresh_settings_fresh Sample.E0 Sample.dax0 self' Sample.w_settings (snd r))
    as [_ Hall].
  - discriminate.
  - vm_compute. reflexivity.
  - apply (Hall Sample.settings_A). vm_compute. left. reflexivity.
Defined.

(** ** The history of a whole cycle *)

Section History.

Import DaxManager Cycle.

Lemma f_ret {A} (a : A) : follows (ret a) [].
Proof.
  intros s. exists []. cbn. rewrite app_nil_r.
  split; [ reflexivity | ]. split; [ exists []; reflexivity | reflexivity ].
Qed.

Lemma f_raise {A} (e : exn) : follows (@raise coord A e) [].
Proof.
  intros s. exists []. cbn. rewrite app_nil_r.
  split; [ reflexivity | ]. split; [ exists []; reflexivity | reflexivity ].
Qed.

Lemma f_lift {A} (c : M world A) : follows (lift c) [].
Proof.
  intros s. exists []. unfold lift. destruct (c (cw s)) as [r w]. cbn.
  rewrite app_nil_r.
  split; [ reflexivity | ]. split; [ exists []; reflexivity | reflexivity ].
Qed.

Lemma f_emit (e : event) : follows (emit e) [e].
Proof.
  intros s. exists [e]. cbn.
  split; [ reflexivity | ]. split; [ exists []; reflexivity | reflexivity ].
Qed.

Lemma f_bind {A B} (c : M coord A) (k : A -> M coord B) (H1 H2 : list event) :
  follows c H1 -> (forall a, follows (k a) H2) -> follows (bind c k) (H1 ++ H2)%list.
Proof.
  intros Hc Hk s. destruct (Hc s) as (t1 & Ht1 & (rest1 & Hr1) & Hok1).
  unfold bind. destruct (c s) as [[a | e] s1]; cbn [fst snd] in *.
  - specialize (Hok1 a eq_refl). subst t1.
    destruct (Hk a s1) as (t2 & Ht2 & (rest2 & Hr2) & Hok2).
    exists (H1 ++ t2)%list. rewrite Ht2, Ht1, <- app_assoc.
    split; [ reflexivity | ]. split.
    + exists rest2. rewrite Hr2, <- app_assoc. reflexivity.
    + intros b Hb. rewrite (Hok2 b Hb). reflexivity.
  - exists t1. split; [ exact Ht1 | ]. split.
    + exists (rest1 ++ H2)%list. rewrite Hr1, <- app_assoc. reflexivity.
    + discriminate.
Qed.

Lemma f_for_each {A} (body : A -> M coord unit) (F : A -> list event) (l : list A) :
  (forall x, follows (body x) (F x)) -> follows (for_each l body) (flat_map F l).
Proof.
  intros Hbody. induction l as [ | x l IH]; cbn [for_each flat_map].
  - apply f_ret.
  - apply f_bind; [ apply Hbody | intros _; exact IH ].
Qed.

Lemma f_project_from_settings (settings_file : string) :
  follows (project_from_settings settings_file) [].
Proof.
  unfold project_from_settings.
  destruct (PyStr.split "settings-" settings_file) as [ | a [ | b rest]];
    [ apply f_raise | apply f_raise | apply f_ret ].
Qed.

Section Pool.

Variables (E : env) (sched : nat -> nat) (self : DaxManager.t).

Lemma f_yield : follows (yield E sched self) [].
Proof.
  intros s. exists []. unfold yield, modify.
  destruct (progress E self (sched (yields s)) (queue s) (cw s)). cbn.
  rewrite app_nil_r.
  split; [ reflexivity | ]. split; [ exists []; reflexivity | reflexivity ].
Qed.

Lemma f_join_upload (log_file : string) :
  follows (join_upload E self log_file) [UploadJoin].
Proof.
  intros s. exists [UploadJoin]. cbn.
  split; [ reflexivity | ]. split; [ exists []; reflexivity | reflexivity ].
Qed.

Lemma f_join_pool : follows (join_pool E self) [PoolJoin].
Proof.
  intros s. exists [PoolJoin]. unfold join_pool, modify.
  destruct (progress E self (length (queue s)) (queue s) (cw s)). cbn.
  split; [ reflexivity | ]. split; [ exists []; reflexivity | reflexivity ].
Qed.

(** One turn of the loop of [queue_builds]. *)
Lemma submit_step (x : string) (s : coord) :
  let r := (yield E sched self ;;
            proj <- project_from_settings x ;;
            now <- lift (Sys.now E) ;;
            let log_path := log_name self "build" proj now in
            last_run <- lift (get_last_run E self proj) ;;
            lift (Manager.LOGGER INFO ("SETTINGS:" +:+ x)) ;;
            lift (Manager.LOGGER INFO ("PROJECT:" +:+ proj)) ;;
            lift (Manager.LOGGER INFO ("LOG:" +:+ log_path)) ;;
            lift (Manager.LOGGER INFO ("LASTRUN:" +:+ str_lastrun last_run)) ;;
            apply_async (mkTask proj x log_path last_run)) s in
  match fst r with
  | Ok _ => exists b, trace (snd r) = (trace s ++ [Submit b])%list
                      /\ task_settings b = x /\ named b
  | Raise _ => trace (snd r) = trace s
  end.
Proof.
  cbv zeta. unfold bind, yield, modify, project_from_settings, lift, Sys.now.
  destruct (progress E self (sched (yields s)) (queue s) (cw s)) as [q w0].
  destruct (PyStr.split "settings-" x) as [ | a [ | b rest]] eqn:Hsplit;
    try reflexivity.
  cbn [ret cw trace queue yields].
  destruct (get_last_run E self (hd "" (PyStr.split ".yaml" b)) (tick w0))
    as [[last_run | e] w1]; [ | reflexivity ].
  cbn. eexists. split; [ reflexivity | ]. split; [ reflexivity | ].
  intros w'. cbn [task_settings task_project].
  unfold project_from_settings. rewrite Hsplit. reflexivity.
Qed.

(** The submissions: one task for each settings file, in order, until
    a step fails. *)
Lemma queue_builds_history (l : list string) (s : coord) :
  let r := queue_builds E sched self l s in
  exists tasks,
    trace (snd r) = (trace s ++ map Submit tasks)%list
    /\ Forall named tasks
    /\ (fst r = Ok tt -> map task_settings tasks = l).
Proof.
  cbv zeta. unfold queue_builds. set (body := fun settings_path : string => _).
  revert s. induction l as [ | x l IH]; intros s.
  - exists []. cbn. rewrite app_nil_r. repeat split; constructor.
  - cbn [for_each]. unfold bind.
    pose proof (submit_step x s) as Hstep. cbv zeta in Hstep.
    change (bind (yield E sched self) _ s) with (body x s) in Hstep.
    destruct (body x s) as [[[] | e] s1]; cbn [fst snd] in Hstep.
    + destruct Hstep as (b & Htr & Hb & Hn).
      destruct (IH s1) as (tasks & Ht & Hall & Hok).
      exists (b :: tasks). rewrite Ht, Htr, <- app_assoc.
      split; [ reflexivity | ]. split; [ constructor; assumption | ].
      intros H. cbn [map]. rewrite Hb, (Hok H). reflexivity.
    + exists []. cbn. rewrite Hstep, app_nil_r.
      split; [ reflexivity | ]. split; [ constructor | discriminate ].
Qed.

(** The stages of [run] after the submissions. *)
Lemma stages_history (k : M coord unit) :
  k = (emit PoolClose ;;
       lift (Manager.LOGGER INFO "updating") ;;
       for_each (settings_list self) (fun settings_path =>
         proj <- project_from_settings settings_path ;;
         lift (Manager.LOGGER INFO ("updating jobs:" +:+ proj)) ;;
         now <- lift (Sys.now E) ;;
         let log := log_name self "update" proj now in
         yield E sched self ;;
         emit (UpdateCall settings_path) ;;
         lift (run_update E self settings_path log) ;;
         emit (UpdateReturn settings_path)) ;;
       lift (Manager.LOGGER INFO "launching") ;;
       for_each (settings_list self) (fun settings_path =>
         proj <- project_from_settings settings_path ;;
         lift (Manager.LOGGER INFO ("launching jobs:" +:+ proj)) ;;
         now <- lift (Sys.now E) ;;
         let log := log_name self "launch" proj now in
         yield E sched self ;;
         emit (LaunchCall settings_path) ;;
         lift (run_launch E self settings_path log) ;;
         emit (LaunchReturn settings_path)) ;;
       now <- lift (Sys.now E) ;;
       let log := log_name self "upload" "" now in
       lift (Manager.LOGGER INFO "starting upload") ;;
       yield E sched self ;;
       emit UploadStart ;;
       lift (Manager.LOGGER INFO "waiting for upload") ;;
       yield E sched self ;;
       join_upload E self log ;;
       lift (Manager.LOGGER INFO "upload complete") ;;
       lift (Manager.LOGGER INFO "waiting for builds to finish") ;;
       join_pool E self) ->
  follows k (stages (settings_list self)).
Proof.
  intros ->. unfold stages, updates, launches.
  apply (f_bind _ _ [PoolClose]); [ apply f_emit | intros _ ].
  apply (f_bind _ _ []); [ apply f_lift | intros _ ]. cbn [app].
  apply f_bind.
  { apply f_for_each. intros x.
    apply (f_bind _ _ []); [ apply f_project_from_settings | intros proj ].
    apply (f_bind _ _ []); [ apply f_lift | intros _ ].
    apply (f_bind _ _ []); [ apply f_lift | intros now ].
    apply (f_bind _ _ []); [ apply f_yield | intros _ ].
    apply (f_bind _ _ [UpdateCall x]); [ apply f_emit | intros _ ].
    apply (f_bind _ _ []); [ apply f_lift | intros _ ].
    apply f_emit. }
  intros _.
  apply (f_bind _ _ []); [ apply f_lift | intros _ ]. cbn [app].
  apply f_bind.
  { apply f_for_each. intros x.
    apply (f_bind _ _ []); [ apply f_project_from_settings | intros proj ].
    apply (f_bind _ _ []); [ apply f_lift | intros _ ].
    apply (f_bind _ _ []); [ apply f_lift | intros now ].
    apply (f_bind _ _ []); [ apply f_yield | intros _ ].
    apply (f_bind _ _ [LaunchCall x]); [ apply f_emit | intros _ ].
    apply (f_bind _ _ []); [ apply f_lift | intros _ ].
    apply f_emit. }
  intros _.
  apply (f_bind _ _ []); [ apply f_lift | intros now ].
  apply (f_bind _ _ []); [ apply f_lift | intros _ ].
  apply (f_bind _ _ []); [ apply f_yield | intros _ ].
  apply (f_bind _ _ [UploadStart]); [ apply f_emit | intros _ ].
  apply (f_bind _ _ []); [ apply f_lift | intros _ ].
  apply (f_bind _ _ []); [ apply f_yield | intros _ ].
  apply (f_bind _ _ [UploadJoin]); [ apply f_join_upload | intros _ ].
  apply (f_bind _ _ []); [ apply f_lift | intros _ ].
  apply (f_bind _ _ []); [ apply f_lift | intros _ ].
  apply f_join_pool.
Qed.

Lemma run_history (s : coord) :
  let r := run E sched self s in
  exists tasks t,
    trace (snd r) = (trace s ++ t)%list
    /\ (exists rest, (map Submit tasks ++ stages (map task_settings tasks))%list
                     = (t ++ rest)%list)
    /\ (fst r = Ok tt -> t = (map Submit tasks ++ stages (map task_settings tasks))%list)
    /\ Forall named tasks.
Proof.
  cbv zeta. unfold run.
  match goal with
  | |- context [bind (queue_builds E sched self (settings_list self)) ?k] =>
      set (rest_of_run := k)
  end.
  destruct (queue_builds_history (settings_list self) s) as (tasks & Htr & Hall & Hok).
  exists tasks. unfold bind.
  destruct (queue_builds E sched self (settings_list self) s) as [[[] | e] s1];
    cbn [fst snd] in *.
  - specialize (Hok eq_refl).
    destruct (stages_history (rest_of_run tt) eq_refl s1)
      as (t2 & Ht2 & (rest2 & Hr2) & Hok2).
    exists (map Submit tasks ++ t2)%list. rewrite Ht2, Htr, <- app_assoc, Hok.
    split; [ reflexivity | ]. split; [ | split; [ | exact Hall ] ].
    + exists rest2. rewrite Hr2, <- app_assoc. reflexivity.
    + intros H. rewrite (Hok2 tt H). reflexivity.
  - exists (map Submit tasks). split; [ exact Htr | ].
    split; [ eexists; reflexivity | ]. split; [ discriminate | exact Hall ].
Qed.

End Pool.

Variables (E : env) (sched : nat -> nat).

Lemma main_eq (w : world) :
  main E sched (start w)
  = match Manager.clean_lockfiles E w with
    | (Ok _, w1) =>
        match init E w1 with
        | (Ok manager, w2) =>
            match run E sched manager
                    (mkCoord w2 [ReapBegin; ReapEnd; CatalogBegin; CatalogEnd] [] O) with
            | (Ok _, s1) => lift (Manager.LOGGER INFO "ALL DONE!") s1
            | (Raise e, s1) => (Raise e, s1)
            end
        | (Raise e, w2) => (Raise e, mkCoord w2 [ReapBegin; ReapEnd; CatalogBegin] [] O)
        end
    | (Raise e, w1) => (Raise e, mkCoord w1 [ReapBegin] [] O)
    end.
Proof.
  unfold main, start, bind, emit, modify, lift. cbn [cw trace queue yields app].
  destruct (Manager.clean_lockfiles E w) as [[[] | e] w1]; [ | reflexivity ].
  cbn [cw trace queue yields app].
  destruct (init E w1) as [[manager | e] w2]; reflexivity.
Qed.

(** X12. The history of the coordinator is always an initial part of the
    full cycle: the stale-lock pass, the catalog, one build submitted for
    each settings file, the closing of the pool, every update (call and
    return, in the order of the settings list), then every launch, then
    the upload started and joined, then the pool joined.  When the main
    program returns normally the history is exactly that cycle.  Every
    task submitted carries the project its settings file is named
    after. *)
Theorem cycle_history (w : world) :
  let r := main E sched (start w) in
  exists tasks,
    (exists rest, history tasks = (trace (snd r) ++ rest)%list)
    /\ (fst r = Ok tt -> trace (snd r) = history tasks)
    /\ Forall named tasks.
Proof.
  cbv zeta. rewrite main_eq. unfold history.
  destruct (Manager.clean_lockfiles E w) as [[[] | e] w1].
  2: { exists []. split; [ eexists; reflexivity | ].
       split; [ discriminate | constructor ]. }
  destruct (init E w1) as [[manager | e] w2].
  2: { exists []. split; [ eexists; reflexivity | ].
       split; [ discriminate | constructor ]. }
  set (s0 := mkCoord w2 [ReapBegin; ReapEnd; CatalogBegin; CatalogEnd] [] O).
  destruct (run_history E sched manager s0) as (tasks & t & Htr & (rest & Hr) & Hok & Hall).
  exists tasks.
  destruct (run E sched manager s0) as [[[] | e] s1]; cbn [fst snd] in *.
  - specialize (Hok eq_refl). subst t. unfold lift.
    destruct (Manager.LOGGER INFO "ALL DONE!" (cw s1)) as [r w3] eqn:Hlog.
    injection Hlog as <- <-. cbn [fst snd trace].
    rewrite Htr. cbn [trace s0 app].
    split; [ exists []; rewrite app_nil_r; reflexivity | ].
    split; [ reflexivity | exact Hall ].
  - rewrite Htr. cbn [trace s0].
    split; [ | split; [ discriminate | exact Hall ] ].
    exists rest. cbn [app]. rewrite <- Hr. reflexivity.
Qed.

End History.

(** ** Descriptors and their names *)

Section Descriptors.

Import DaxProjectSettings.

Lemma names_app (l1 l2 : list pyval) (n1 n2 : list pyval) :
  names l1 = Ok n1 -> names l2 = Ok n2 -> names (l1 ++ l2) = Ok (n1 ++ n2)%list.
Proof.
  revert n1. induction l1 as [ | x l1 IH]; intros n1; cbn [names app].
  - intros [= <-]. trivial.
  - destruct (name_of x) as [n | e]; [ | discriminate ].
    destruct (names l1) as [ns | e]; [ | discriminate ].
    intros [= <-] H2. rewrite (IH ns eq_refl H2). reflexivity.
Qed.

Lemma byname_app_found (l1 l2 : list pyval) (name : string) (m : pyval) :
  byname l1 name = Ok (Some m) -> byname (l1 ++ l2) name = Ok (Some m).
Proof.
  induction l1 as [ | x l1 IH]; cbn [byname app]; [ discriminate | ].
  destruct (name_of x) as [n | e]; [ | discriminate ].
  destruct (Py.eq_str n name); [ trivial | exact IH ].
Qed.

Lemma byname_app_fresh (l1 l2 : list pyval) (name : string) :
  byname l1 name = Ok None -> byname (l1 ++ l2) name = byname l2 name.
Proof.
  induction l1 as [ | x l1 IH]; cbn [byname app]; [ reflexivity | ].
  destruct (name_of x) as [n | e]; [ | discriminate ].
  destruct (Py.eq_str n name); [ discriminate | exact IH ].
Qed.

Lemma eq_str_iff (v : pyval) (s : string) : Py.eq_str v s = true <-> v = PStr s.
Proof.
  unfold Py.eq_str, Py.key_eqb. destruct v; try (split; discriminate).
  rewrite String.eqb_eq. split; [ intros ->; reflexivity | intros [= ->]; reflexivity ].
Qed.

(** The loop of the two lookups finds the first descriptor of the name. *)
Lemma byname_first (l : list pyval) (ns : list pyval) (name : string) :
  names l = Ok ns ->
  match byname l name with
  | Ok (Some m) =>
      exists i, l !! i = Some m /\ ns !! i = Some (PStr name)
                /\ forall j, (j < i)%nat -> ns !! j <> Some (PStr name)
  | Ok None => ~ In (PStr name) ns
  | Raise _ => False
  end.
Proof.
  revert ns. induction l as [ | x l IH]; intros ns; cbn [names byname].
  - intros [= <-]. intros [].
  - destruct (name_of x) as [n | e]; [ | discriminate ].
    destruct (names l) as [ns' | e]; [ | discriminate ].
    intros [= <-]. specialize (IH ns' eq_refl).
    destruct (Py.eq_str n name) eqn:Hn.
    + apply eq_str_iff in Hn. subst n. exists O.
      split; [ reflexivity | ]. split; [ reflexivity | ]. intros j Hj. lia.
    + assert (Hne : n <> PStr name).
      { intros ->. rewrite (proj2 (eq_str_iff _ _) eq_refl) in Hn. discriminate. }
      destruct (byname l name) as [[m | ] | e]; [ | | exact IH ].
      * destruct IH as (i & Hi & Hni & Hfirst). exists (S i).
        split; [ exact Hi | ]. split; [ exact Hni | ].
        intros [ | j] Hj; cbn; [ congruence | apply Hfirst; lia ].
      * intros [H | H]; [ congruence | contradiction ].
Qed.

(** X13. [module_byname] and [processor_byname] return the first
    descriptor whose name is the one asked for, and [None] when no
    descriptor has that name; they fail only when [module_names]
    (respectively [processor_names]) fails. *)
Theorem byname_finds_first (self : DaxProjectSettings.t) (name : string)
        (ns ps : list pyval) :
  (module_names self = Ok ns ->
   match module_byname self name with
   | Ok (Some m) =>
       exists i, modules self !! i = Some m /\ ns !! i = Some (PStr name)
                 /\ forall j, (j < i)%nat -> ns !! j <> Some (PStr name)
   | Ok None => ~ In (PStr name) ns
   | Raise _ => False
   end)
  /\ (processor_names self = Ok ps ->
      match processor_byname self name with
      | Ok (Some m) =>
          exists i, processors self !! i = Some m /\ ps !! i = Some (PStr name)
                    /\ forall j, (j < i)%nat -> ps !! j <> Some (PStr name)
      | Ok None => ~ In (PStr name) ps
      | Raise _ => False
      end).
Proof. split; apply byname_first. Qed.

(** X14. Adding a descriptor never changes what a name already present
    resolves to (names are not kept unique: the first one wins), and a
    name that was absent resolves to the descriptor added under it. *)
Theorem byname_after_add (self : DaxProjectSettings.t) (name : string) (m new : pyval) :
  (module_byname self name = Ok (Some m) ->
   module_byname (add_module self new) name = Ok (Some m))
  /\ (module_byname self name = Ok None -> name_of new = Ok (PStr name) ->
      module_byname (add_module self new) name = Ok (Some new))
  /\ (processor_byname self name = Ok (Some m) ->
      processor_byname (add_processor self new) name = Ok (Some m))
  /\ (processor_byname self name = Ok None -> name_of new = Ok (PStr name) ->
      processor_byname (add_processor self new) name = Ok (Some new)).
Proof.
  unfold module_byname, processor_byname, add_module, add_processor.
  cbn [modules processors].
  assert (Hnew : forall l, byname l name = Ok None -> name_of new = Ok (PStr name) ->
                           byname (l ++ [new]) name = Ok (Some new)).
  { intros l Hl Hn. rewrite byname_app_fresh by assumption.
    cbn [byname]. rewrite Hn. rewrite (proj2 (eq_str_iff _ _) eq_refl). reflexivity. }
  split; [ apply byname_app_found | ]. split; [ apply Hnew | ].
  split; [ apply byname_app_found | apply Hnew ].
Qed.

End Descriptors.

Lemma byname_finds_first_witness :
  DaxProjectSettings.module_byname Sample.settings_alpha "dcm2nii"
  = Ok (Some (PDict [ (PStr "name", PStr "dcm2nii");
                      (PStr "filepath", PStr "/lib/modules/module_dcm2nii.py") ])).
Proof.
  pose proof (proj1 (byname_finds_first Sample.settings_alpha "dcm2nii"
                       [PStr "dcm2nii"] []) eq_refl) as H.
  destruct (DaxProjectSettings.module_byname Sample.settings_alpha "dcm2nii")
    as [[m | ] | e] eqn:Hm.
  - destruct H as ([ | i] & Hi & Hn & _).
    + cbn in Hi. injection Hi as <-. reflexivity.
    + cbn in Hn. destruct i; discriminate.
  - exfalso. apply H. left. reflexivity.
  - destruct H.
Defined.

Lemma byname_after_add_witness :
  DaxProjectSettings.module_byname
    (DaxProjectSettings.add_module Sample.settings_alpha
       (PDict [ (PStr "name", PStr "dcm2nii"); (PStr "filepath", PStr "/other.py") ]))
    "dcm2nii"
  = Ok (Some (PDict [ (PStr "name", PStr "dcm2nii");
                      (PStr "filepath", PStr "/lib/modules/module_dcm2nii.py") ])).
Proof.
  apply (proj1 (byname_after_add Sample.settings_alpha "dcm2nii" _ _)). reflexivity.
Defined.

(** ** The project entry and the descriptors it names *)

Section ProjectEntry.

Import Manager DaxProjectSettings DaxProjectSettingsManager.

Variable E : env.

Lemma load_module_record_name (module project : string) (w w' : world) (r : pyval) :
  load_module_record E module project w = (Ok r, w') ->
  exists d, r = PDict ((PStr "name", PStr module) :: d).
Proof.
  unfold load_module_record, bind, export_records_form, first, item, parse_arguments.
  destruct (export_form E (imports w) _ project) as [[ | rec recs] | e];
    try discriminate.
  cbn [ret].
  destruct (List.filter _ _) as [ | file_key [ | ? ?]]; try discriminate.
  destruct (row_get file_key rec); try discriminate. cbn [ret].
  destruct (row_get _ rec) as [args | ]; try discriminate. cbn [ret].
  destruct (negb (String.eqb args "")).
  - destruct (fold_m _ _ _ w) as [[rdict | e] w1]; [ | discriminate ].
    intros [= <- <-]. eexists. reflexivity.
  - intros [= <- <-]. eexists. reflexivity.
Qed.

Lemma load_processor_record_name (processor project : string) (w w' : world)
      (r : pyval) :
  load_processor_record E processor project w = (Ok r, w') ->
  exists d, r = PDict ((PStr "name", PStr processor) :: d).
Proof.
  unfold load_processor_record, bind, export_records_form, first, item, parse_arguments.
  destruct (export_form E (imports w) _ project) as [[ | rec recs] | e];
    try discriminate.
  cbn [ret].
  destruct (List.filter _ _) as [ | file_key [ | ? ?]]; try discriminate.
  destruct (row_get file_key rec); try discriminate. cbn [ret].
  destruct (row_get _ rec) as [args | ]; try discriminate. cbn [ret].
  destruct (negb (String.eqb args "")).
  - destruct (fold_m _ _ _ w) as [[rdict | e] w1]; [ | discriminate ].
    intros [= <- <-]. eexists. reflexivity.
  - intros [= <- <-]. eexists. reflexivity.
Qed.

(** The loop over the module forms: the names collected are the names of
    the descriptors appended. *)
Lemma module_loop (project : string) (l : list string)
      (st st' : DaxProjectSettings.t) (acc acc' : list string) (w w' : world) :
  fold_m l (st, acc)
    (fun '(settings, proj_mod) name =>
       enabled <- is_enabled_module E name project ;;
       if negb enabled then ret (settings, proj_mod)
       else
         mod_ <- load_module_record E name project ;;
         let mod_ := with_name mod_ name in
         ret (add_module settings mod_, (proj_mod ++ [name])%list)) w
  = (Ok (st', acc'), w') ->
  exists added recs,
    acc' = (acc ++ added)%list
    /\ modules st' = (modules st ++ recs)%list
    /\ names recs = Ok (map PStr added)
    /\ incl added l
    /\ processors st' = processors st /\ general st' = general st
    /\ projects st' = projects st.
Proof.
  revert st acc w. induction l as [ | x l IH]; intros st acc w; cbn [fold_m].
  - intros [= <- <- <-]. exists [], []. rewrite !app_nil_r.
    repeat split; try reflexivity. intros y [].
  - intros H. apply bind_ok in H. destruct H as ([st1 acc1] & w1 & Hx & Hrest).
    apply IH in Hrest.
    destruct Hrest as (added & recs & -> & Hm & Hn & Hincl & Hp & Hg & Hj).
    apply bind_ok in Hx. destruct Hx as (enabled & w0 & _ & Hx).
    destruct enabled; cbn [negb] in Hx.
    + apply bind_ok in Hx. destruct Hx as (mod_ & w2 & Hrec & Hx).
      injection Hx as <- <- <-.
      apply load_module_record_name in Hrec. destruct Hrec as (d & ->).
      exists (x :: added), (with_name (PDict ((PStr "name", PStr x) :: d)) x :: recs).
      rewrite <- app_assoc. cbn [app]. split; [ reflexivity | ].
      split; [ rewrite Hm; cbn [modules add_module]; rewrite <- app_assoc; reflexivity | ].
      split; [ cbn [names map]; cbn; rewrite Hn; reflexivity | ].
      split; [ intros y [<- | Hy]; [ left; reflexivity | right; apply Hincl, Hy ] | ].
      repeat split; assumption.
    + injection Hx as <- <- <-. exists added, recs.
      split; [ reflexivity | ]. split; [ exact Hm | ]. split; [ exact Hn | ].
      split; [ intros y Hy; right; apply Hincl, Hy | ]. repeat split; assumption.
Qed.

Lemma processor_loop (project : string) (l : list string)
      (st st' : DaxProjectSettings.t) (acc acc' : list string) (w w' : world) :
  fold_m l (st, acc)
    (fun '(settings, proj_proc) name =>
       enabled <- is_enabled_processor E name project ;;
       if negb enabled then ret (settings, proj_proc)
       else
         proc <- load_processor_record E name project ;;
         let proc := with_name proc name in
         ret (add_processor settings proc, (proj_proc ++ [name])%list)) w
  = (Ok (st', acc'), w') ->
  exists added recs,
    acc' = (acc ++ added)%list
    /\ processors st' = (processors st ++ recs)%list
    /\ names recs = Ok (map PStr added)
    /\ incl added l
    /\ modules st' = modules st /\ general st' = general st
    /\ projects st' = projects st.
Proof.
  revert st acc w. induction l as [ | x l IH]; intros st acc w; cbn [fold_m].
  - intros [= <- <- <-]. exists [], []. rewrite !app_nil_r.
    repeat split; try reflexivity. intros y [].
  - intros H. apply bind_ok in H. destruct H as ([st1 acc1] & w1 & Hx & Hrest).
    apply IH in Hrest.
    destruct Hrest as (added & recs & -> & Hm & Hn & Hincl & Hp & Hg & Hj).
    apply bind_ok in Hx. destruct Hx as (enabled & w0 & _ & Hx).
    destruct enabled; cbn [negb] in Hx.
    + apply bind_ok in Hx. destruct Hx as (proc & w2 & Hrec & Hx).
      injection Hx as <- <- <-.
      apply load_processor_record_name in Hrec. destruct Hrec as (d & ->).
      exists (x :: added), (with_name (PDict ((PStr "name", PStr x) :: d)) x :: recs).
      rewrite <- app_assoc. cbn [app]. split; [ reflexivity | ].
      split; [ rewrite Hm; cbn [processors add_processor]; rewrite <- app_assoc;
               reflexivity | ].
      split; [ cbn [names map]; cbn; rewrite Hn; reflexivity | ].
      split; [ intros y [<- | Hy]; [ left; reflexivity | right; apply Hincl, Hy ] | ].
      repeat split; assumption.
    + injection Hx as <- <- <-. exists added, recs.
      split; [ reflexivity | ]. split; [ exact Hm | ]. split; [ exact Hn | ].
      split; [ intros y Hy; right; apply Hincl, Hy | ]. repeat split; assumption.
Qed.

(** X15. The entry [load_project] returns for a project names, in its
    comma-separated [modules] and [yamlprocessors] fields, exactly the
    descriptors it has appended to the settings, in the same order: the
    names of the modules (processors) of the settings afterwards are the
    names before followed by the names listed in the entry.  The names
    come from the forms of the registry; the general section and the
    projects are left as they were. *)
Theorem load_project_names (settings settings' : DaxProjectSettings.t)
        (project : string) (entry : pyval) (w w' : world) (ns ps : list pyval) :
  load_project E settings project w = (Ok (settings', entry), w') ->
  module_names settings = Ok ns ->
  processor_names settings = Ok ps ->
  exists proj_mod proj_proc,
    entry = PDict [ (PStr "project", PStr project);
                    (PStr "modules", PStr (PyStr.join "," proj_mod));
                    (PStr "yamlprocessors", PStr (PyStr.join "," proj_proc)) ]
    /\ module_names settings' = Ok (ns ++ map PStr proj_mod)%list
    /\ processor_names settings' = Ok (ps ++ map PStr proj_proc)%list
    /\ incl proj_mod (load_module_names E)
    /\ incl proj_proc (load_processor_names E)
    /\ general settings' = general settings
    /\ projects settings' = projects settings.
Proof.
  intros H Hns Hps. unfold load_project in H.
  apply bind_ok in H. destruct H as ([st1 proj_mod] & w1 & Hmod & H).
  apply bind_ok in H. destruct H as ([st2 proj_proc] & w2 & Hproc & H).
  injection H as <- <- <-.
  apply module_loop in Hmod.
  destruct Hmod as (pm & mrecs & -> & Hm1 & Hmn & Hmi & Hp1 & Hg1 & Hj1).
  apply processor_loop in Hproc.
  destruct Hproc as (pp & precs & -> & Hp2 & Hpn & Hpi & Hm2 & Hg2 & Hj2).
  exists pm, pp. cbn [app].
  split; [ reflexivity | ].
  split; [ unfold module_names in *; rewrite Hm2, Hm1; apply names_app; assumption | ].
  split; [ unfold processor_names in *; rewrite Hp2, Hp1; apply names_app; assumption | ].
  split; [ exact Hmi | ]. split; [ exact Hpi | ].
  split; congruence.
Qed.

End ProjectEntry.

Lemma load_project_names_witness :
  exists settings' w',
    DaxProjectSettingsManager.load_project Sample.E0
      (DaxProjectSettings.mk Sample.general0 [] [] []) "ALPHA" Sample.w_empty
    = (Ok (settings', PDict [ (PStr "project", PStr "ALPHA");
                              (PStr "modules", PStr "dcm2nii");
                              (PStr "yamlprocessors", PStr "") ]), w')
    /\ DaxProjectSettings.module_names settings' = Ok [PStr "dcm2nii"].
Proof.
  pose (r := DaxProjectSettingsManager.load_project Sample.E0
               (DaxProjectSettings.mk Sample.general0 [] [] []) "ALPHA" Sample.w_empty).
  pose (s' := match fst r with Ok (s, _) => s | Raise _ => DaxProjectSettings.init end).
  pose (e' := match fst r with Ok (_, e) => e | Raise _ => PNone end).
  assert (Hr : r = (Ok (s', e'), snd r)) by (vm_compute; reflexivity).
  destruct (load_project_names Sample.E0 _ s' "ALPHA" e' Sample.w_empty (snd r) [] []
              Hr eq_refl eq_refl)
    as (pm & pp & He & Hm & _).
  exists s', (snd r). split; [ vm_compute; reflexivity | ].
  rewrite Hm. vm_compute in He. injection He as Hpm _.
  destruct pm as [ | a [ | b pm]].
  - discriminate Hpm.
  - cbn in Hpm. subst a. reflexivity.
  - exfalso. revert Hm. vm_compute. discriminate.
Defined.

(** ** Deleting the settings of disabled projects *)

Section Disabled.

Import Manager DaxProjectSettingsManager.

Variable E : env.

(** The names of the records whose status is not ['2']. *)
Lemma disabled_names (field : string) (rlist : list row) (acc out : list string)
      (w w' : world) :
  fold_m rlist acc
    (fun acc x =>
       complete <- item x field ;;
       if negb (String.eqb complete "2")
       then name <- item x "project_name" ;; ret (acc ++ [name])%list
       else ret acc) w
  = (Ok out, w') ->
  w' = w /\
  forall n, In n out <->
            In n acc \/ exists x status, In x rlist
                                         /\ row_get field x = Some status
                                         /\ status <> "2"
                                         /\ row_get "project_name" x = Some n.
Proof.
  revert acc w. induction rlist as [ | y rlist IH]; intros acc w; cbn [fold_m].
  - intros [= <- <-]. split; [ reflexivity | ]. intros n. split; [ tauto | ].
    intros [H | (x & st & [] & _)]. assumption.
  - intros H. apply bind_ok in H. destruct H as (acc1 & w1 & Hy & Hrest).
    apply IH in Hrest. destruct Hrest as [-> Hout].
    unfold bind, item in Hy.
    destruct (row_get field y) as [c | ] eqn:Hc; cbn [ret raise] in Hy;
      [ | discriminate ].
    destruct (String.eqb_spec c "2") as [-> | Hne]; cbn [negb] in Hy.
    + injection Hy as <- <-. split; [ reflexivity | ].
      intros n. rewrite Hout. split.
      * intros [Hn | (x & st & Hx & Hrest)]; [ left; exact Hn | ].
        right. exists x, st. split; [ right; exact Hx | exact Hrest ].
      * intros [Hn | (x & st & [<- | Hx] & Hst & Hne & Hname)].
        -- left. exact Hn.
        -- congruence.
        -- right. exists x, st. repeat split; assumption.
    + destruct (row_get "project_name" y) as [m | ] eqn:Hm; cbn [ret raise] in Hy;
        [ | discriminate ].
      injection Hy as <- <-. split; [ reflexivity | ].
      intros n. rewrite Hout, in_app_iff. cbn [In]. split.
      * intros [[Hn | [<- | []]] | (x & st & Hx & Hrest)].
        -- left. exact Hn.
        -- right. exists y, c. repeat split; try assumption. left. reflexivity.
        -- right. exists x, st. split; [ right; exact Hx | exact Hrest ].
      * intros [Hn | (x & st & [<- | Hx] & Hst & Hne' & Hname)].
        -- left. left. exact Hn.
        -- left. right. left. congruence.
        -- right. exists x, st. repeat split; assumption.
Qed.

(** The loop that deletes the files. *)
Lemma delete_loop (self : DaxProjectSettingsManager.t) (l : list string) (w : world) :
  let r := for_each l (fun name =>
             let filename := settings_filename self name in
             ex <- gets (Sys.exists_ filename) ;;
             if ex then
               LOGGER INFO ("deleting disabled project:" +:+ filename) ;;
               Sys.remove E filename
             else ret tt) w in
  (forall p, fs (snd r) !! p = fs w !! p
             \/ (fs (snd r) !! p = None
                 /\ exists name, In name l /\ p = settings_filename self name))
  /\ (fst r = Ok tt ->
      forall name, In name l -> fs (snd r) !! settings_filename self name = None)
  /\ imports (snd r) = imports w.
Proof.
  cbv zeta. set (body := fun name : string => _).
  revert w. induction l as [ | x l IH]; intros w.
  - cbn. split; [ intros p; left; reflexivity | ].
    split; [ intros _ name [] | reflexivity ].
  - assert (Hstep :
      (exists w1, body x w = (Ok tt, w1) /\ imports w1 = imports w
                  /\ fs w1 = delete (settings_filename self x) (fs w))
      \/ (exists e w1, body x w = (Raise e, w1) /\ imports w1 = imports w
                       /\ fs w1 = fs w)).
    { subst body. cbv beta zeta. unfold bind, gets, Sys.exists_, Sys.remove, LOGGER,
        Sys.log, modify. cbn [fs add_log].
      destruct (fs w !! settings_filename self x) as [[c b | ] | ] eqn:Hx;
        cbn [fs add_log]; rewrite ?Hx.
      - destruct (remove_denied E (settings_filename self x)).
        + right. eexists _, _. split; [ reflexivity | ]. split; reflexivity.
        + left. eexists. split; [ reflexivity | ]. split; reflexivity.
      - right. eexists _, _. split; [ reflexivity | ]. split; reflexivity.
      - left. eexists. split; [ reflexivity | ]. split; [ reflexivity | ].
        symmetry. apply delete_id, Hx. }
    cbn [for_each]. unfold bind.
    destruct Hstep as [(w1 & -> & Hi & Hfs) | (e & w1 & -> & Hi & Hfs)];
      cbn [fst snd].
    + destruct (IH w1) as (Hframe & Hdone & Himp).
      set (r := for_each l body w1) in *.
      split; [ | split ].
      * intros p. destruct (Hframe p) as [Hp | (Hp & name & Hin & ->)].
        -- rewrite Hp, Hfs.
           destruct (decide (settings_filename self x = p)) as [<- | Hne].
           ++ right. rewrite lookup_delete_eq. split; [ reflexivity | ].
              exists x. split; [ left; reflexivity | reflexivity ].
           ++ left. apply lookup_delete_ne. assumption.
        -- right. split; [ assumption | ]. exists name.
           split; [ right; assumption | reflexivity ].
      * intros Hok name [<- | Hin]; [ | apply (Hdone Hok name Hin) ].
        destruct (Hframe (settings_filename self x)) as [Hp | (Hp & _)]; [ | exact Hp ].
        rewrite Hp, Hfs. apply lookup_delete_eq.
      * congruence.
    + split; [ intros p; left; rewrite Hfs; reflexivity | ].
      split; [ discriminate | exact Hi ].
Qed.

Lemma delete_disabled_eq (self : DaxProjectSettingsManager.t) (w : world) :
  delete_disabled E self w
  = match export_fields E (imports w)
            ["project_name"; general_form self +:+ "_complete"] None false with
    | Ok rlist =>
        match fold_m rlist []
                (fun acc x =>
                   complete <- item x (general_form self +:+ "_complete") ;;
                   if negb (String.eqb complete "2")
                   then name <- item x "project_name" ;; ret (acc ++ [name])%list
                   else ret acc) w with
        | (Ok names, w1) =>
            for_each names (fun name =>
              let filename := settings_filename self name in
              ex <- gets (Sys.exists_ filename) ;;
              if ex then
                LOGGER INFO ("deleting disabled project:" +:+ filename) ;;
                Sys.remove E filename
              else ret tt) w1
        | (Raise e, w1) => (Raise e, w1)
        end
    | Raise e => (Raise e, w)
    end.
Proof.
  unfold delete_disabled, bind at 1, export_records_fields.
  destruct (export_fields E (imports w) _ None false) as [rlist | e]; [ | reflexivity ].
  unfold bind at 1. reflexivity.
Qed.

(** A loop that only reads records leaves the world alone. *)
Lemma disabled_names_world (field : string) (rlist : list row) (acc : list string)
      (w : world) :
  snd (fold_m rlist acc
         (fun acc x =>
            complete <- item x field ;;
            if negb (String.eqb complete "2")
            then name <- item x "project_name" ;; ret (acc ++ [name])%list
            else ret acc) w) = w.
Proof.
  revert acc. induction rlist as [ | y rlist IH]; intros acc; cbn [fold_m].
  - reflexivity.
  - unfold bind at 1, bind at 1, item at 1.
    destruct (row_get field y) as [c | ]; cbn [ret raise]; [ | reflexivity ].
    destruct (negb (String.eqb c "2")); [ | apply IH ].
    unfold bind at 1, item at 1.
    destruct (row_get "project_name" y); cbn [ret raise]; [ apply IH | reflexivity ].
Qed.

(** X16. [delete_disabled] only deletes settings files of projects that
    the registry lists with a status other than ['2']: every path changed
    is such a file and is gone afterwards.  When it returns normally, no
    project listed with another status has a settings file left.  The
    registry is only read. *)
Theorem delete_disabled_exact (self : DaxProjectSettingsManager.t) (w : world) :
  let field := general_form self +:+ "_complete" in
  let disabled (name : string) :=
    exists rlist x status,
      export_fields E (imports w) ["project_name"; field] None false = Ok rlist
      /\ In x rlist /\ row_get field x = Some status /\ status <> "2"
      /\ row_get "project_name" x = Some name in
  let r := delete_disabled E self w in
  (forall p, fs (snd r) !! p = fs w !! p
             \/ (fs (snd r) !! p = None
                 /\ exists name, disabled name /\ p = settings_filename self name))
  /\ (fst r = Ok tt ->
      forall name, disabled name -> fs (snd r) !! settings_filename self name = None)
  /\ imports (snd r) = imports w.
Proof.
  cbv zeta. rewrite delete_disabled_eq.
  destruct (export_fields E (imports w) _ None false) as [rlist | e] eqn:Hexp.
  2: { cbn. split; [ intros p; left; reflexivity | ].
       split; [ discriminate | reflexivity ]. }
  pose proof (disabled_names_world (general_form self +:+ "_complete") rlist [] w) as Hw.
  destruct (fold_m rlist [] _ w) as [[names | e] w1] eqn:Hnames; cbn [snd] in Hw.
  2: { subst w1. cbn [fst snd]. split; [ intros p; left; reflexivity | ].
       split; [ discriminate | reflexivity ]. }
  apply disabled_names in Hnames. destruct Hnames as [-> Hin].
  destruct (delete_loop self names w) as (Hframe & Hdone & Himp).
  cbv zeta in Hframe, Hdone, Himp.
  split; [ | split; [ | exact Himp ] ].
  - intros p. destruct (Hframe p) as [Hp | (Hp & name & Hn & ->)];
      [ left; exact Hp | right ].
    split; [ exact Hp | ]. exists name. split; [ | reflexivity ].
    apply Hin in Hn. destruct Hn as [[] | (x & st & Hx & Hst & Hne & Hname)].
    exists rlist, x, st. repeat split; assumption.
  - intros Hok name (rl & x & st & Hrl & Hx & Hst & Hne & Hname).
    injection Hrl as <-. apply (Hdone Hok). apply Hin. right.
    exists x, st. repeat split; assumption.
Qed.

End Disabled.

(** On the sample registry, seen without labels, no project has status
    ['2']: the settings file of [ALPHA] is deleted. *)
Lemma delete_disabled_exact_witness :
  fs (snd (DaxProjectSettingsManager.delete_disabled Sample.E0 Sample.manager0
             Sample.w_settings)) !! Sample.settings_A = None.
Proof.
  destruct (delete_disabled_exact Sample.E0 Sample.manager0 Sample.w_settings)
    as (_ & Hdone & _).
  apply (Hdone ltac:(vm_compute; reflexivity) "ALPHA").
  exists Sample.projects0,
    [ ("project_name", "ALPHA"); ("gen_daxinstance", "dax@Node1");
      ("general_complete", "Complete") ], "Complete".
  split; [ reflexivity | ]. split; [ left; reflexivity | ].
  split; [ reflexivity | ]. split; [ discriminate | reflexivity ].
Defined.

(** ** The arguments of a module or processor *)

Section Arguments.

Import DaxProjectSettingsManager.

Lemma split_max_plain (c : ascii) (l : string) :
  PyStr.contains (String c "") l = false ->
  PyStr.split_max (String c "") 1 l = [l].
Proof.
  intros Hl. unfold PyStr.split_max.
  rewrite <- (sapp_nil_r l) at 1.
  rewrite split_go_free; [ reflexivity | discriminate | ].
  intros x y -> Hy. rewrite sapp_nil_r. eapply contains_suffix, Hl.
Qed.

Lemma split_max_cut (c : ascii) (k rest : string) :
  PyStr.contains (String c "") k = false ->
  PyStr.split_max (String c "") 1 (k +:+ String c rest) = [k; rest].
Proof.
  intros Hk. apply contains_char in Hk. unfold PyStr.split_max.
  change (String c rest) with (String c "" +:+ rest).
  rewrite split_go_free.
  - rewrite split_go_hit by discriminate. cbn [fmap option_fmap option_map pred].
    rewrite split_go_exhausted. reflexivity.
  - discriminate.
  - intros x y -> Hy. destruct y as [ | d y]; [ contradiction | ].
    rewrite sapp_cons. cbn [PyStr.startswith]. rewrite andb_true_r.
    destruct (PyStr.char_eqb c d) eqn:Hd; [ | reflexivity ].
    apply char_eqb_eq in Hd. subst d. exfalso. apply Hk.
    rewrite chars_of_sapp. apply in_or_app. right. left. reflexivity.
Qed.

(** X17. [parse_arguments] cuts every line of the stripped text (lines
    end with carriage return and line feed) at its first colon: when
    each line is a key without colon, a colon and a value, the result
    maps each key to its stripped value, a later line replacing an
    earlier one with the same key, and the value may contain colons.
    A line without any colon, such as an empty one, makes it raise
    [ValueError]. *)
Theorem parse_arguments_lines (text : string) (w : world) :
  (forall pairs : list (string * string),
      PyStr.split crlf (PyStr.strip text)
      = map (fun kv => fst kv +:+ ":" +:+ snd kv) pairs ->
      Forall (fun kv => PyStr.contains ":" (fst kv) = false) pairs ->
      parse_arguments text w
      = (Ok (fold_left (fun d kv => Py.set (PStr (fst kv)) (PStr (PyStr.strip (snd kv))) d)
                       pairs []), w))
  /\ (Exists (fun line => PyStr.contains ":" line = false)
             (PyStr.split crlf (PyStr.strip text)) ->
      exists e, parse_arguments text w = (Raise e, w) /\ exn_class e = ValueError).
Proof.
  unfold parse_arguments. generalize (@nil (pyval * pyval)).
  generalize (PyStr.split crlf (PyStr.strip text)). intros lines acc. split.
  - intros pairs ->. revert acc.
    induction pairs as [ | [k v] pairs IH]; intros acc Hall; [ reflexivity | ].
    inversion Hall as [ | ? ? Hk Hrest ]; subst. cbn [fst snd] in Hk.
    cbn [map fold_m fold_left fst snd].
    change (k +:+ ":" +:+ v) with (k +:+ String ":" v).
    rewrite split_max_cut by assumption.
    unfold bind at 1. cbn [ret]. apply IH, Hrest.
  - intros Hex. revert acc.
    induction lines as [ | line lines IH]; intros acc; [ inversion Hex | ].
    cbn [fold_m].
    destruct (PyStr.contains ":" line) eqn:Hline.
    + assert (Hrest : Exists (fun line => PyStr.contains ":" line = false) lines).
      { inversion Hex; subst; [ congruence | assumption ]. }
      unfold bind at 1.
      destruct (PyStr.split_max ":" 1 line) as [ | key [ | val [ | ? ?]]];
        try (eexists; split; reflexivity).
      cbn [ret]. apply IH, Hrest.
    + rewrite split_max_plain by assumption.
      eexists. split; reflexivity.
Qed.

End Arguments.

Lemma parse_arguments_lines_witness :
  DaxProjectSettingsManager.parse_arguments
    ("url: http://host:8080" +:+ DaxProjectSettingsManager.crlf +:+ "mode:fast")
    Sample.w_empty
  = (Ok [ (PStr "url", PStr "http://host:8080"); (PStr "mode", PStr "fast") ],
     Sample.w_empty).
Proof.
  apply (proj1 (parse_arguments_lines _ Sample.w_empty)
           [ ("url", " http://host:8080"); ("mode", "fast") ]).
  - vm_compute. reflexivity.
  - repeat constructor.
Defined.

(** An arguments text made of blanks only is not empty, so it is parsed,
    and its single empty line has no colon. *)
Example parse_arguments_blank :
  exists e, DaxProjectSettingsManager.parse_arguments "   " Sample.w_empty
            = (Raise e, Sample.w_empty) /\ exn_class e = ValueError.
Proof. eexists. split; reflexivity. Qed.

(** ** The YAML processors of a project *)

Section YamlProcessors.

Variable E : env.

Lemma get_has_key (k : string) (d : Py.dict) (v : pyval) :
  Py.get (PStr k) d = Some v -> Py.has_key (PStr k) d = true.
Proof.
  unfold Py.has_key, Py.keys.
  induction d as [ | [k' v'] d IH]; cbn [Py.get map existsb fst]; [ discriminate | ].
  destruct (Py.key_eqb (PStr k) k'); [ reflexivity | exact IH ].
Qed.

Lemma yaml_paths_eq (yps : list Py.dict) (n : string) (w : world) :
  Bin.yaml_paths (PList (map PDict yps)) n w
  = (Ok (PList (Settings.paths_named yps n)), w).
Proof.
  assert (Hloop : forall acc,
    fold_m (map PDict yps) acc
      (fun acc yp =>
         name <- lift_res (Bin.dget yp "name") ;;
         if Py.eq_str name n then
           path <- lift_res (Bin.dget yp "yaml_path") ;;
           ret (acc ++ [path])%list
         else ret acc) w
    = (Ok (acc ++ Settings.paths_named yps n)%list, w)).
  { unfold Settings.paths_named.
    induction yps as [ | d yps IH]; intros acc; cbn [map fold_m List.filter].
    - rewrite app_nil_r. reflexivity.
    - unfold bind at 1, bind at 1, lift_res at 1. cbn [Bin.dget].
      destruct (Py.eq_str (default PNone (Py.get (PStr "name") d)) n).
      + unfold bind at 1, lift_res at 1. cbn [Bin.dget ret map].
        rewrite IH, <- app_assoc. reflexivity.
      + cbn [ret]. apply IH. }
  unfold Bin.yaml_paths, bind at 1, lift_res at 1. cbn [Bin.iter].
  unfold bind at 1. rewrite (Hloop []). reflexivity.
Qed.

(** The loop over the names of the YAML processors of one project stores
    the paths found for each name under the same key. *)
Lemma yaml_names_loop (yps : list Py.dict) (p : string) (names : list string)
      (acc : Py.dict) (w : world) :
  fold_m names acc
    (fun acc yaml_n =>
       paths <- Bin.yaml_paths (PList (map PDict yps)) yaml_n ;;
       lift_res (Bin.store (PStr p) paths acc)) w
  = (Ok (fold_left (fun acc n => Py.set (PStr p) (PList (Settings.paths_named yps n)) acc)
                   names acc), w).
Proof.
  revert acc. induction names as [ | n names IH]; intros acc; [ reflexivity | ].
  cbn [fold_m fold_left]. unfold bind at 1, bind at 1.
  rewrite yaml_paths_eq. cbn [lift_res Bin.store]. apply IH.
Qed.

Lemma overwritten (p : string) (f : string -> pyval) (names : list string) (v : pyval) :
  fold_left (fun acc n => Py.set (PStr p) (f n) acc) names [(PStr p, v)]
  = [(PStr p, match names with [] => v | _ => f (List.last names "") end)].
Proof.
  revert v. induction names as [ | n names IH]; intros v; [ reflexivity | ].
  cbn [fold_left Py.set Py.key_eqb]. rewrite String.eqb_refl, IH.
  destruct names; reflexivity.
Qed.

Lemma split_go_nonempty (sep : string) (b : option nat) (skip : nat) (cur s : string) :
  PyStr.split_go sep b skip cur s <> [].
Proof.
  revert b skip cur. induction s as [ | c s IH]; intros b skip cur;
    cbn [PyStr.split_go]; [ discriminate | ].
  destruct skip; [ | apply IH ].
  destruct b as [[ | n] | ]; try apply IH;
    destruct (PyStr.startswith sep (String c s)); try apply IH; discriminate.
Qed.

(** X18. For a settings document with one project entry that lists YAML
    processors (and no modules or processors of its own),
    [read_yaml_settings] hands the launcher a [yaml_dict] in which the
    project maps to the paths of the processors named by the LAST name of
    the comma-separated list only: each name overwrites what the names
    before it stored. *)
Theorem yaml_processors_last_wins (yaml_file content : string) (lg : Bin.logger)
        (w w1 w2 : world) (d a pd : Py.dict) (modules processors : pyval)
        (mods procs : Py.dict) (yps : list Py.dict) (p s : string) :
  fs w !! yaml_file = Some (RegularFile content true) ->
  yaml_load E content = YamlDoc (PDict d) ->
  Py.get (PStr "attrs") d = Some (PDict a) ->
  Py.get (PStr "modules") d = Some modules ->
  Bin.load_all E modules lg w = (Ok mods, w1) ->
  Py.get (PStr "processors") d = Some processors ->
  Bin.load_all E processors lg w1 = (Ok procs, w2) ->
  Py.get (PStr "yamlprocessors") d = Some (PList (map PDict yps)) ->
  Py.get (PStr "projects") d = Some (PList [PDict pd]) ->
  Py.get (PStr "project") pd = Some (PStr p) -> p <> "" ->
  Py.truthy (default PNone (Py.get (PStr "modules") pd)) = false ->
  Py.truthy (default PNone (Py.get (PStr "processors") pd)) = false ->
  Py.get (PStr "yamlprocessors") pd = Some (PStr s) -> s <> "" ->
  Bin.read_yaml_settings E yaml_file lg w
  = (Launcher E
       (Py.set (PStr "yaml_dict")
          (PDict [ (PStr p,
                    PList (Settings.paths_named yps
                             (List.last (PyStr.split "," s) ""))) ])
          (Py.set (PStr "project_modules_dict") (PDict [])
             (Py.set (PStr "project_process_dict") (PDict []) a))),
     w2).
Proof.
  intros Hfile Hload Hattrs Hmods Hlm Hprocs Hlp Hyps Hprojects Hp Hpne
         Hpm Hpp Hpy Hsne.
  unfold Bin.read_yaml_settings, bind at 1, gets, Sys.isfile.
  rewrite Hfile. cbn [negb].
  unfold bind at 1, Sys.read_file. rewrite Hfile.
  unfold bind at 1. rewrite Hload. cbn [ret].
  unfold bind at 1, lift_res at 1, Bin.check_default_keys.
  rewrite check_keys_present.
  2: { intros key Hkey. cbn in Hkey.
       destruct Hkey as [<- | [<- | [<- | [<- | [<- | []]]]]];
         eapply get_has_key; eassumption. }
  unfold bind at 1, lift_res at 1. cbn [Bin.dget]. rewrite Hattrs. cbn [default from_option id].
  unfold bind at 1, lift_res at 1. cbn [Bin.dget]. rewrite Hmods. cbn [default from_option id].
  unfold bind at 1. rewrite Hlm.
  unfold bind at 1, lift_res at 1. cbn [Bin.dget]. rewrite Hprocs. cbn [default from_option id].
  unfold bind at 1. rewrite Hlp.
  unfold bind at 1, lift_res at 1. cbn [Bin.dget]. rewrite Hyps. cbn [default from_option id].
  unfold bind at 1, lift_res at 1. cbn [Bin.dget]. rewrite Hprojects. cbn [default from_option id].
  unfold bind at 1, lift_res at 1. cbn [Bin.iter].
  unfold bind at 1. cbn [fold_m].
  unfold bind at 1, bind at 1, lift_res at 1. cbn [Bin.dget]. rewrite Hp. cbn [default from_option id].
  assert (Htruthy : Py.truthy (PStr p) = true).
  { cbn. apply String.eqb_neq in Hpne. rewrite Hpne. reflexivity. }
  rewrite Htruthy.
  unfold bind at 1, lift_res at 1. cbn [Bin.dget]. rewrite Hpm.
  unfold bind at 1. cbn [ret].
  unfold bind at 1, lift_res at 1. cbn [Bin.dget]. rewrite Hpp.
  unfold bind at 1. cbn [ret].
  unfold bind at 1, lift_res at 1. cbn [Bin.dget]. rewrite Hpy. cbn [default from_option id].
  assert (Hts : Py.truthy (PStr s) = true).
  { cbn. apply String.eqb_neq in Hsne. rewrite Hsne. reflexivity. }
  rewrite Hts.
  unfold bind at 1, bind at 1, lift_res at 1. cbn [Bin.split_commas].
  rewrite yaml_names_loop.
  cbn [ret]. unfold lift_res.
  destruct (PyStr.split "," s) as [ | n names] eqn:Hnames.
  { exfalso. exact (split_go_nonempty _ _ _ _ _ Hnames). }
  cbn [fold_left Py.set]. rewrite overwritten.
  replace (match names with [] => PList (Settings.paths_named yps n)
                       | _ :: _ => PList (Settings.paths_named yps (List.last names ""))
           end)
    with (PList (Settings.paths_named yps (List.last (n :: names) "")))
    by (destruct names; reflexivity).
  reflexivity.
Qed.

End YamlProcessors.

Lemma yaml_processors_last_wins_witness :
  Bin.read_yaml_settings Settings.E2 Sample.settings_A
    (Bin.set_logger "/logs/update.log" true) Sample.w_settings
  = (Ok (PDict [ (PStr "queue_limit", PInt 20);
                 (PStr "project_process_dict", PDict []);
                 (PStr "project_modules_dict", PDict []);
                 (PStr "yaml_dict",
                  PDict [ (PStr "ALPHA", PList [ PStr "/yaml/dti.yaml" ]) ]) ]),
     Sample.w_settings).
Proof.
  refine (yaml_processors_last_wins Settings.E2 Sample.settings_A "---"
            (Bin.set_logger "/logs/update.log" true)
            Sample.w_settings Sample.w_settings Sample.w_settings
            Settings.doc2 [ (PStr "queue_limit", PInt 20) ] Settings.project2
            (PList []) (PList []) [] [] Settings.yamlprocs2 "ALPHA" "fs,dti"
            _ _ _ _ _ _ _ _ _ _ _ _ _ _ _);
    try reflexivity; discriminate.
Defined.

(** ** Waiting for the results of a pool *)

Section Ready.

Lemma all_ready_loop (results : list bool) (k : nat) (acc : bool) (w : world) :
  fold_m (imap (fun i res => ((k + i)%nat, res)) results) acc
    (fun ready ir =>
       if negb (snd ir) then
         Manager.LOGGER DEBUG ("not ready:" +:+ PyStr.of_Z (Z.of_nat (fst ir))) ;;
         ret false
       else ret ready) w
  = (Ok (acc && forallb id results),
     mkWorld (fs w) (imports w)
             (logs w ++ map Results.line (Results.pending_from k results))%list
             (loaded w) (ticks w)).
Proof.
  revert k acc w. induction results as [ | r rest IH]; intros k acc w.
  - cbn. rewrite app_nil_r, andb_true_r. destruct w; reflexivity.
  - cbn [imap fold_m Results.pending_from forallb].
    rewrite (imap_ext _ (fun i res => ((S k + i)%nat, res)))
      by (intros i x _; cbn; f_equal; lia).
    unfold bind at 1. cbn [snd fst]. rewrite Nat.add_0_r.
    destruct r; cbn [negb ret id].
    + rewrite IH. cbn [app andb]. reflexivity.
    + unfold bind at 1, Manager.LOGGER, Sys.log, modify. cbn [ret].
      rewrite IH. cbn [fs imports logs loaded ticks add_log app map andb].
      rewrite andb_false_r, <- app_assoc. reflexivity.
Qed.

(** X19. [all_ready] looks at every result, never stopping at the first
    one that is not ready: it returns whether all are ready, logs one
    [DEBUG] line for each result that is not, with its position and in
    order, and leaves the rest of the world as it was. *)
Theorem all_ready_all (results : list bool) (w : world) :
  DaxManager.all_ready results w
  = (Ok (forallb id results),
     mkWorld (fs w) (imports w)
             (logs w ++ map Results.line (Results.pending results))%list
             (loaded w) (ticks w)).
Proof.
  unfold DaxManager.all_ready, Results.pending.
  exact (all_ready_loop results 0 true w).
Qed.

End Ready.

(** ** The modules and processors of a project *)

Section Assign.

Lemma get_set_same (p : string) (v : pyval) (d : Py.dict) :
  Py.get (PStr p) (Py.set (PStr p) v d) = Some v.
Proof.
  induction d as [ | [k' v'] d IH]; cbn [Py.set Py.get].
  - cbn [Py.key_eqb]. rewrite String.eqb_refl. reflexivity.
  - destruct (Py.key_eqb (PStr p) k') eqn:Hk; cbn [Py.get]; rewrite Hk;
      [ reflexivity | exact IH ].
Qed.

Lemma set_set (p : string) (v v' : pyval) (d : Py.dict) :
  Py.set (PStr p) v' (Py.set (PStr p) v d) = Py.set (PStr p) v' d.
Proof.
  induction d as [ | [k' u] d IH]; cbn [Py.set].
  - cbn [Py.key_eqb]. rewrite String.eqb_refl. reflexivity.
  - destruct (Py.key_eqb (PStr p) k') eqn:Hk; cbn [Py.set]; rewrite Hk;
      [ reflexivity | rewrite IH; reflexivity ].
Qed.

Lemma set_get_id (k v : pyval) (d : Py.dict) :
  Py.get k d = Some v -> Py.set k v d = d.
Proof.
  induction d as [ | [k' u] d IH]; cbn [Py.set Py.get]; [ discriminate | ].
  destruct (Py.key_eqb k k').
  - intros [= ->]. reflexivity.
  - intros H. rewrite (IH H). reflexivity.
Qed.

Lemma has_key_get (k : pyval) (d : Py.dict) :
  Py.has_key k d = match Py.get k d with Some _ => true | None => false end.
Proof.
  unfold Py.has_key, Py.keys.
  induction d as [ | [k' u] d IH]; cbn [map existsb fst Py.get]; [ reflexivity | ].
  destruct (Py.key_eqb k k'); [ reflexivity | exact IH ].
Qed.

(** Once the project has a list, every further name appends to it. *)
Lemma assign_appends (table : Py.dict) (p : string) (names : list string)
      (objs l : list pyval) (per : Py.dict) (w : world) :
  Forall2 (fun n o => Py.get (PStr n) table = Some o) names objs ->
  Py.get (PStr p) per = Some (PList l) ->
  Bin.assign table (PStr p) names per w
  = (Ok (Py.set (PStr p) (PList (l ++ objs)) per), w).
Proof.
  intros Hall. revert l per.
  induction Hall as [ | n o names objs Hn Hall IH]; intros l per Hper.
  - cbn. rewrite app_nil_r, (set_get_id _ _ _ Hper). reflexivity.
  - unfold Bin.assign. cbn [fold_m]. unfold bind at 1.
    rewrite has_key_get, Hper. cbn [negb]. unfold Bin.index. rewrite Hn.
    unfold bind at 1. cbn [lift_res ret].
    unfold Bin.assign in IH.
    rewrite (IH (l ++ [o])%list) by apply get_set_same.
    rewrite set_set, <- app_assoc. reflexivity.
Qed.

(** X20. The modules (or processors) named by a project entry are
    collected, not overwritten: when every name of the list is in the
    table, [assign] leaves under the project the objects it had before
    followed by the named ones, in the order of the names; a second entry
    for the same project therefore extends the first. *)
Theorem assign_collects (table : Py.dict) (p : string) (names : list string)
        (objs : list pyval) (per : Py.dict) (w : world) :
  Forall2 (fun n o => Py.get (PStr n) table = Some o) names objs ->
  names <> [] ->
  (forall v, Py.get (PStr p) per = Some v -> exists l, v = PList l) ->
  Bin.assign table (PStr p) names per w
  = (Ok (Py.set (PStr p) (PList (Settings.entry_of p per ++ objs)) per), w).
Proof.
  intros Hall Hne Hlists. unfold Settings.entry_of.
  destruct (Py.get (PStr p) per) as [v | ] eqn:Hper.
  - destruct (Hlists v eq_refl) as [l ->]. apply assign_appends; assumption.
  - destruct Hall as [ | n o names objs Hn Hall]; [ contradiction | ].
    unfold Bin.assign. cbn [fold_m]. unfold bind at 1.
    rewrite has_key_get, Hper. cbn [negb]. unfold Bin.index at 1. rewrite Hn.
    unfold bind at 1. cbn [lift_res Bin.store].
    pose proof (assign_appends table p names objs [o]
                  (Py.set (PStr p) (PList [o]) per) w Hall (get_set_same _ _ _)) as Hrest.
    rewrite set_set in Hrest. exact Hrest.
Qed.

(** A name that is not in the table stops the loop with a [KeyError]. *)
Lemma assign_unknown (table : Py.dict) (p : string) (n : string) (names : list string)
      (per : Py.dict) (w : world) :
  Py.get (PStr n) table = None ->
  (forall v, Py.get (PStr p) per = Some v -> exists l, v = PList l) ->
  Bin.assign table (PStr p) (n :: names) per w = (Raise (new_exn KeyError n), w).
Proof.
  intros Hn Hlists. unfold Bin.assign. cbn [fold_m]. unfold bind at 1.
  rewrite has_key_get.
  destruct (Py.get (PStr p) per) as [v | ] eqn:Hper; cbn [negb].
  - destruct (Hlists v eq_refl) as [l ->]. unfold Bin.index. rewrite Hn. reflexivity.
  - unfold Bin.index. rewrite Hn. reflexivity.
Qed.

End Assign.

Lemma assign_collects_witness :
  Bin.assign [ (PStr "a", PInt 1); (PStr "b", PInt 2) ] (PStr "ALPHA") [ "b"; "a" ]
             [ (PStr "ALPHA", PList [ PInt 7 ]) ] Sample.w_empty
  = (Ok [ (PStr "ALPHA", PList [ PInt 7; PInt 2; PInt 1 ]) ], Sample.w_empty).
Proof.
  apply (assign_collects [ (PStr "a", PInt 1); (PStr "b", PInt 2) ] "ALPHA" [ "b"; "a" ]
           [ PInt 2; PInt 1 ] [ (PStr "ALPHA", PList [ PInt 7 ]) ] Sample.w_empty).
  - repeat constructor.
  - discriminate.
  - intros v [= <-]. eexists. reflexivity.
Defined.
